(** * OMR sheet generator (app.py): the roll-number, class and column logic

    A shallow embedding of [app.py] and of the Python library functions it
    calls, with the properties of the specification proved about it.

    Conventions of the model.
    - A Python [str] is a list of characters ([pystr]); a character is a
      code point from 0 to 255 (ASCII and the Latin-1 supplement), written
      as an [ascii], and the model follows Python on these: [str.isspace],
      [str.isdigit], [str.lower], the classes [\s] and [\d] of [re], the
      white space and the digits that [int] and [float] read.  Code points
      above 255 are outside the model.
    - A Python [int] is a [Z] (no limit on the number of digits that [int]
      reads or [str] prints).
    - A Python [float] is an IEEE-754 binary64 number ([spec_float] at
      precision 53 and exponent bound 1024), rounded to nearest-even.
    - A cell of a sheet is [None], an [int], a [float] or a [str]
      ([pyval]); other cell types (dates, booleans) are outside the model.
    - A call that may raise returns a [result]; a drawing canvas is the
      list of the drawing operations made on it so far. *)

From Stdlib Require Import ZArith NArith List Ascii String Bool Lia.
From Stdlib Require Import DecimalString DecimalPos QArith SpecFloat.
Import ListNotations.

Local Open Scope string_scope.
Local Open Scope list_scope.
Local Open Scope Z_scope.

(** ** Results and exceptions *)

Inductive exn : Type :=
| ValueError
| OverflowError
| IndexError
| TypeError
| StopException.

Inductive result (A : Type) : Type :=
| Ok (a : A)
| Raise (e : exn).

Arguments Ok {A} a.
Arguments Raise {A} e.

Definition bind {A B : Type} (r : result A) (k : A -> result B) : result B :=
  match r with
  | Ok a => k a
  | Raise e => Raise e
  end.

Notation "x <- r ;; k" := (bind r (fun x => k))
  (at level 61, r at next level, right associativity).

(** ** Python strings *)

Definition pystr : Type := list ascii.

Definition txt (s : string) : pystr := list_ascii_of_string s.

Coercion txt : string >-> pystr.

Definition code (c : ascii) : N := N_of_ascii c.

(** [str.isspace] on one character, also the class [\s] of [re]:
    TAB, LF, VT, FF, CR, the separators FS, GS, RS, US, the space, the next
    line control (133) and the no-break space (160). *)
Definition isspace (c : ascii) : bool :=
  let n := code c in
  ((9 <=? n) && (n <=? 13) || (28 <=? n) && (n <=? 32)
   || (n =? 133) || (n =? 160))%N.

(** The white space that [int] and [float] skip at both ends: C's
    [isspace], and the white space outside ASCII. *)
Definition number_space (c : ascii) : bool :=
  let n := code c in
  ((9 <=? n) && (n <=? 13) || (n =? 32) || (n =? 133) || (n =? 160))%N.

(** The decimal digits 0 to 9: the class [\d] of [re], the range [0-9],
    and the digits that [int] and [float] read. *)
Definition is_decimal (c : ascii) : bool :=
  let n := code c in ((48 <=? n) && (n <=? 57))%N.

(** [str.isdigit] on one character: the decimal digits and the
    superscripts two (178), three (179) and one (185), which have a digit
    value and are no decimal digits. *)
Definition is_digit (c : ascii) : bool :=
  let n := code c in
  (is_decimal c || (n =? 178) || (n =? 179) || (n =? 185))%N.

Definition is_lower_letter (c : ascii) : bool :=
  let n := code c in ((97 <=? n) && (n <=? 122))%N.

(** [str.lower] on one character: A to Z, and the capital letters 192 to
    222 of Latin-1 (215, the multiplication sign, is none). *)
Definition lower_char (c : ascii) : ascii :=
  let n := code c in
  if ((65 <=? n) && (n <=? 90)
      || (192 <=? n) && (n <=? 222) && negb (n =? 215))%N
  then ascii_of_N (n + 32) else c.

(** [s.lower()] *)
Definition lower (s : pystr) : pystr := map lower_char s.

Fixpoint lstrip_by (sp : ascii -> bool) (s : pystr) : pystr :=
  match s with
  | [] => []
  | c :: r => if sp c then lstrip_by sp r else s
  end.

Definition strip_by (sp : ascii -> bool) (s : pystr) : pystr :=
  rev (lstrip_by sp (rev (lstrip_by sp s))).

(** [s.strip()] *)
Definition strip (s : pystr) : pystr := strip_by isspace s.

(** [s.isdigit()]: at least one character, and all of them digits. *)
Definition isdigit (s : pystr) : bool :=
  match s with
  | [] => false
  | _ => forallb is_digit s
  end.

(** At least one character, and all of them decimal digits. *)
Definition decimal_text (s : pystr) : bool :=
  match s with
  | [] => false
  | _ => forallb is_decimal s
  end.

(** Truth value of a string: [if s]. *)
Definition truthy (s : pystr) : bool :=
  match s with
  | [] => false
  | _ => true
  end.

Definition str_eqb (a b : pystr) : bool :=
  if list_eq_dec ascii_dec a b then true else false.

Fixpoint starts_with (a s : pystr) : bool :=
  match a, s with
  | [], _ => true
  | _ :: _, [] => false
  | x :: a', y :: s' => Ascii.eqb x y && starts_with a' s'
  end.

(** [a in s] on strings: [a] occurs in [s] as a substring. *)
Fixpoint str_in (a s : pystr) : bool :=
  starts_with a s ||
  match s with
  | [] => false
  | _ :: s' => str_in a s'
  end.

Definition zeros (n : nat) : pystr := repeat "0"%char n.

(** [s.zfill(width)]: zeros on the left up to [width] characters, placed
    after a leading sign. *)
Definition zfill (width : nat) (s : pystr) : pystr :=
  if (width <=? List.length s)%nat then s
  else
    let fill := zeros (width - List.length s) in
    match s with
    | c :: r =>
        if Ascii.eqb c "+" || Ascii.eqb c "-" then c :: fill ++ r
        else fill ++ s
    | [] => fill
    end.

(** [s[:n]] *)
Definition slice_to (n : nat) (s : pystr) : pystr := firstn n s.

(** Value of a decimal digit character. *)
Definition digit_value (c : ascii) : Z := Z.of_N (code c) - 48.

(** [int(s)] for a string of decimal digits. *)
Definition int_of_digits (s : pystr) : Z :=
  fold_left (fun acc c => 10 * acc + digit_value c) s 0.

(** [str(n)] for an integer. *)
Definition str_of_int (n : Z) : pystr :=
  txt (NilEmpty.string_of_int (Z.to_int n)).

(** [re.sub(r'[^a-z0-9]', '', s)] *)
Definition re_sub_non_alnum (s : pystr) : pystr :=
  filter (fun c => is_lower_letter c || is_decimal c) s.

(** The characters of the class in [safe_filename]: backslash, slash,
    star, question mark, colon, double quote, angle brackets and bar. *)
Definition illegal_chars : pystr :=
  [ "\"; "/"; "*"; "?"; ":"; ascii_of_N 34; "<"; ">"; "|" ]%char.

Definition is_illegal (c : ascii) : bool :=
  existsb (Ascii.eqb c) illegal_chars.

(** [re.sub] of the class of illegal characters by an underscore. *)
Definition re_sub_illegal (s : pystr) : pystr :=
  map (fun c => if is_illegal c then "_"%char else c) s.

(** [re.sub(r'\s+', '_', s)]: every maximal run of white space becomes one
    underscore.  [in_run] says that the previous character was white space,
    so that the run's underscore is already written. *)
Fixpoint re_sub_spaces_from (in_run : bool) (s : pystr) : pystr :=
  match s with
  | [] => []
  | c :: r =>
      if isspace c then
        if in_run then re_sub_spaces_from true r
        else "_"%char :: re_sub_spaces_from true r
      else c :: re_sub_spaces_from false r
  end.

Definition re_sub_spaces (s : pystr) : pystr := re_sub_spaces_from false s.

(** ** Python floats: IEEE-754 binary64 *)

Definition prec : Z := 53.
Definition emax : Z := 1024.

Definition float : Type := spec_float.

Definition fadd : float -> float -> float := SFadd prec emax.
Definition fsub : float -> float -> float := SFsub prec emax.
Definition fmul : float -> float -> float := SFmul prec emax.
Definition fdiv : float -> float -> float := SFdiv prec emax.

(** The float nearest to the integer [n] (ties to even, infinite past the
    largest float). *)
Definition float_of_Z (n : Z) : float := binary_normalize prec emax n 0 false.

(** The float nearest to [m * 10 ^ e10], for [0 <= m]; this is what a float
    literal of the source and [float] of a decimal string denote. *)
Definition float_of_decimal (neg : bool) (m e10 : Z) : float :=
  if m <=? 0 then S754_zero neg
  else if 0 <=? e10 then
    binary_normalize prec emax (cond_Zopp neg (m * 10 ^ e10)) 0 neg
  else
    let '(q, e, l) := SFdiv_core_binary prec emax m 0 (10 ^ (- e10)) 0 in
    binary_round_aux prec emax neg q e l.

(** A float literal of the source: [lit 101 (-1)] is [10.1]. *)
Definition lit (m e10 : Z) : float := float_of_decimal false m e10.

(** [float(n)] for an integer: [OverflowError] when [n] rounds past the
    largest float. *)
Definition float_of_int (n : Z) : result float :=
  match float_of_Z n with
  | S754_infinity _ => Raise OverflowError
  | f => Ok f
  end.

(** [int(f)]: truncation towards zero. *)
Definition int_of_float (f : float) : result Z :=
  match f with
  | S754_nan => Raise ValueError
  | S754_infinity _ => Raise OverflowError
  | S754_zero _ => Ok 0
  | S754_finite s m e =>
      Ok (cond_Zopp s (if 0 <=? e then Z.shiftl (Zpos m) e
                       else Z.shiftr (Zpos m) (- e)))
  end.

(** The exact value of a float, as a rational (0 for nan and the
    infinities). *)
Definition float_to_Q (f : float) : Q :=
  match f with
  | S754_finite s m e =>
      let n := cond_Zopp s (Zpos m) in
      if 0 <=? e then inject_Z (n * 2 ^ e) else Qmake n (Z.to_pos (2 ^ (- e)))
  | _ => 0%Q
  end.

(** *** [float] of a string *)

Fixpoint take_digits (s : pystr) : pystr :=
  match s with
  | c :: r => if is_decimal c then c :: take_digits r else []
  | [] => []
  end.

Definition drop_digits (s : pystr) : pystr := lstrip_by is_decimal s.

Definition split_sign (s : pystr) : bool * pystr :=
  match s with
  | c :: r =>
      if Ascii.eqb c "-" then (true, r)
      else if Ascii.eqb c "+" then (false, r)
      else (false, s)
  | [] => (false, [])
  end.

(** Underscores are accepted between two digits only, and dropped;
    [prev] is the character before [s]. *)
Fixpoint remove_underscores (prev : ascii) (s : pystr) : option pystr :=
  match s with
  | [] => if Ascii.eqb prev "_" then None else Some []
  | c :: r =>
      if Ascii.eqb c "_" then
        if is_decimal prev then remove_underscores c r else None
      else if Ascii.eqb prev "_" && negb (is_decimal c) then None
      else option_map (cons c) (remove_underscores c r)
  end.

(** What follows the mantissa: nothing, or [e] or [E], a sign if any, and
    at least one digit. *)
Definition parse_exponent (s : pystr) : option Z :=
  match s with
  | [] => Some 0
  | c :: r =>
      if Ascii.eqb (lower_char c) "e" then
        let '(neg, ds) := split_sign r in
        if decimal_text ds then Some (cond_Zopp neg (int_of_digits ds))
        else None
      else None
  end.

(** An unsigned decimal: digits with at most one point and at least one
    digit, then the exponent.  The answer [(m, e)] stands for [m * 10 ^ e]. *)
Definition parse_decimal (s : pystr) : option (Z * Z) :=
  let ip := take_digits s in
  let r1 := drop_digits s in
  let '(fp, r2) :=
    match r1 with
    | c :: r => if Ascii.eqb c "." then (take_digits r, drop_digits r)
                else ([], r1)
    | [] => ([], [])
    end in
  match ip ++ fp with
  | [] => None
  | ds =>
      match parse_exponent r2 with
      | Some e => Some (int_of_digits ds, e - Z.of_nat (List.length fp))
      | None => None
      end
  end.

Definition parse_inf_or_nan (neg : bool) (s : pystr) : option float :=
  let t := lower s in
  if str_eqb t "inf" || str_eqb t "infinity" then Some (S754_infinity neg)
  else if str_eqb t "nan" then Some S754_nan
  else None.

(** [float(s)] for a string: [ValueError] unless [s], without the white
    space around it, is a decimal number, an infinity or a nan. *)
Definition float_of_str (s : pystr) : result float :=
  match remove_underscores zero (strip_by number_space s) with
  | None => Raise ValueError
  | Some t =>
      let '(neg, body) := split_sign t in
      match parse_decimal body with
      | Some (m, e) => Ok (float_of_decimal neg m e)
      | None =>
          match parse_inf_or_nan neg body with
          | Some f => Ok f
          | None => Raise ValueError
          end
      end
  end.

(** [int(s)] for a string: a sign if any and decimal digits, the white
    space around them skipped and single underscores between digits
    dropped; [ValueError] for anything else. *)
Definition int_of_str (s : pystr) : result Z :=
  match remove_underscores zero (strip_by number_space s) with
  | None => Raise ValueError
  | Some t =>
      let '(neg, ds) := split_sign t in
      if decimal_text ds then Ok (cond_Zopp neg (int_of_digits ds))
      else Raise ValueError
  end.

(** *** [str] of a float: the shortest decimal that reads back as it *)

(** A finite float [m * 2 ^ e] as an exact decimal [M * 10 ^ E]. *)
Definition exact_decimal (m : positive) (e : Z) : Z * Z :=
  if 0 <=? e then (Zpos m * 2 ^ e, 0) else (Zpos m * 5 ^ (- e), e).

(** [M] without its last [drop] digits, rounded to nearest (ties to even),
    and the neighbour on the other side. *)
Definition nearest_digits (M drop : Z) : Z * Z :=
  let p := 10 ^ drop in
  let q := M / p in
  match (2 * (M mod p) ?= p) with
  | Lt => (q, q + 1)
  | Gt => (q + 1, q)
  | Eq => if Z.even q then (q, q + 1) else (q + 1, q)
  end.

Definition reads_back (x : float) (c ex : Z) : bool :=
  SFeqb (float_of_decimal false c ex) x.

(** The decimal of [n], [n + 1], ... digits (at most [count] tries) that is
    nearest to [x = M * 10 ^ E] and reads back as [x]; [M] has [D] digits,
    and is the answer when no shorter one is found. *)
Fixpoint shortest_decimal (count n : nat) (x : float) (M E : Z) (D : nat)
  : Z * Z :=
  match count with
  | O => (M, E)
  | S count' =>
      if (D <=? n)%nat then (M, E)
      else
        let drop := Z.of_nat (D - n) in
        let '(c1, c2) := nearest_digits M drop in
        if reads_back x c1 (E + drop) then (c1, E + drop)
        else if reads_back x c2 (E + drop) then (c2, E + drop)
        else shortest_decimal count' (S n) x M E D
  end.

Definition rstrip_zeros (s : pystr) : pystr :=
  rev (lstrip_by (Ascii.eqb "0") (rev s)).

(** The digits [0.d1d2... * 10 ^ decpt] as Python prints them: with an
    exponent when [decpt <= -4] or [decpt > 16], else in positional
    notation with at least one digit after the point. *)
Definition format_short (digits : pystr) (decpt : Z) : pystr :=
  let nd := Z.of_nat (List.length digits) in
  if (decpt <=? -4) || (16 <? decpt) then
    let e := decpt - 1 in
    firstn 1 digits
      ++ match skipn 1 digits with [] => [] | r => "."%char :: r end
      ++ ["e"%char; if e <? 0 then "-"%char else "+"%char]
      ++ zfill 2 (str_of_int (Z.abs e))
  else if decpt <=? 0 then
    txt "0." ++ zeros (Z.to_nat (- decpt)) ++ digits
  else if decpt <? nd then
    firstn (Z.to_nat decpt) digits ++ "."%char :: skipn (Z.to_nat decpt) digits
  else digits ++ zeros (Z.to_nat (decpt - nd)) ++ txt ".0".

(** [str(f)] for a float. *)
Definition float_repr (f : float) : pystr :=
  match f with
  | S754_nan => "nan"
  | S754_infinity s => if s then txt "-inf" else txt "inf"
  | S754_zero s => if s then txt "-0.0" else txt "0.0"
  | S754_finite s m e =>
      let '(M, E) := exact_decimal m e in
      let D := List.length (str_of_int M) in
      let '(c, ex) := shortest_decimal 17 1 (S754_finite false m e) M E D in
      let all := str_of_int c in
      (if s then ["-"%char] else [])
        ++ format_short (rstrip_zeros all) (Z.of_nat (List.length all) + ex)
  end.

(** ** Cell values *)

Inductive pyval : Type :=
| VNone
| VInt (n : Z)
| VFloat (f : float)
| VStr (s : pystr).

(** [str(v)] *)
Definition py_str (v : pyval) : pystr :=
  match v with
  | VNone => "None"
  | VInt n => str_of_int n
  | VFloat f => float_repr f
  | VStr s => s
  end.

(** Truth value of a cell: [if v], [v or ...]. *)
Definition py_truthy (v : pyval) : bool :=
  match v with
  | VNone => false
  | VInt n => negb (n =? 0)
  | VFloat (S754_zero _) => false
  | VFloat _ => true
  | VStr s => truthy s
  end.

(** [pd.isna(v)] on a scalar: [None] and the float nan. *)
Definition pd_isna (v : pyval) : bool :=
  match v with
  | VNone => true
  | VFloat S754_nan => true
  | _ => false
  end.

(** [float(v)] *)
Definition py_float (v : pyval) : result float :=
  match v with
  | VNone => Raise TypeError
  | VInt n => float_of_int n
  | VFloat f => Ok f
  | VStr s => float_of_str s
  end.

(** [l[i]] on a list *)
Definition index {A : Type} (l : list A) (i : nat) : result A :=
  match nth_error l i with
  | Some a => Ok a
  | None => Raise IndexError
  end.

(** ** app.py: bubble positions *)

(** [reportlab.lib.units]: [inch = 72.0], [cm = inch / 2.54]. *)
Definition cm : float := fdiv (lit 72 0) (lit 254 (-2)).

Definition MASTER_ROLL_X_CM : list float :=
  [lit 101 (-1); lit 115 (-1); lit 129 (-1)].
Definition MASTER_BUBBLE_Y_TOP_CM : list Z := [22; 22; 22].
Definition MASTER_BUBBLE_SPACING_CM : float := lit 62 (-2).
Definition MASTER_BUBBLE_RADIUS_CM : float := lit 24 (-2).

Definition SHIFT_X_CM : Z := 6.
Definition SHIFT_Y_CM : float := SFopp (lit 3 (-1)).
Definition CHILD_ROLL_X_CM : list float :=
  [fadd (lit 99 (-1)) (float_of_Z SHIFT_X_CM);
   fadd (lit 113 (-1)) (float_of_Z SHIFT_X_CM);
   fadd (lit 126 (-1)) (float_of_Z SHIFT_X_CM)].
Definition CHILD_BUBBLE_Y_TOP_CM : list float :=
  [fadd (lit 215 (-1)) SHIFT_Y_CM;
   fadd (lit 215 (-1)) SHIFT_Y_CM;
   fadd (lit 215 (-1)) SHIFT_Y_CM].
Definition CHILD_BUBBLE_SPACING_CM : float := lit 61 (-2).
Definition CHILD_BUBBLE_RADIUS_CM : float := lit 23 (-2).

(** ** app.py: utility functions *)

(** [normalize_col_name(s)] for a column label that is a string. *)
Definition normalize_col_name (s : pystr) : pystr :=
  if truthy s then re_sub_non_alnum (strip (lower s)) else "".

(** A dict with string keys, as the list of its items in insertion order. *)
Definition dict (V : Type) : Type := list (pystr * V).

(** [d[k] = v]: a present key keeps its place and takes the new value. *)
Fixpoint dict_set {V : Type} (d : dict V) (k : pystr) (v : V) : dict V :=
  match d with
  | [] => [(k, v)]
  | (k', v') :: r =>
      if str_eqb k' k then (k', v) :: r else (k', v') :: dict_set r k v
  end.

Fixpoint dict_get {V : Type} (d : dict V) (k : pystr) : option V :=
  match d with
  | [] => None
  | (k', v) :: r => if str_eqb k' k then Some v else dict_get r k
  end.

(** [{orig: normalize_col_name(orig) for orig in df.columns}] *)
Definition df_cols_norm (columns : list pystr) : dict pystr :=
  fold_left (fun d orig => dict_set d orig (normalize_col_name orig))
            columns [].

(** First loop of [find_column]: the first item whose normalized name
    equals an alias. *)
Fixpoint find_exact (items : dict pystr) (aliases : list pystr)
  : option pystr :=
  match items with
  | [] => None
  | (orig_col, norm) :: rest =>
      if existsb (fun a => str_eqb norm a) aliases then Some orig_col
      else find_exact rest aliases
  end.

(** Second loop of [find_column]: the first item whose normalized name
    holds an alias. *)
Fixpoint find_containing (items : dict pystr) (aliases : list pystr)
  : option pystr :=
  match items with
  | [] => None
  | (orig_col, norm) :: rest =>
      if existsb (fun a => str_in a norm) aliases then Some orig_col
      else find_containing rest aliases
  end.

Definition find_column (df_cols_norm : dict pystr) (aliases : list pystr)
  : option pystr :=
  match find_exact df_cols_norm aliases with
  | Some orig_col => Some orig_col
  | None => find_containing df_cols_norm aliases
  end.

Definition safe_filename (s : pystr) : pystr :=
  let s := strip s in
  let s := re_sub_illegal s in
  let s := re_sub_spaces s in
  slice_to 200 s.

Definition format_roll_value (v : pyval) : result pystr :=
  if pd_isna v || negb (truthy (strip (py_str v))) then Ok (txt "000")
  else
    match (f <- py_float v ;; int_of_float f) with
    | Ok n => Ok (zfill 3 (str_of_int n))
    | Raise ValueError => Ok (slice_to 3 (zfill 3 (py_str v)))
    | Raise e => Raise e
    end.

(** ** app.py: roll filling functions *)

Inductive variant : Type := Master | Child.

(** A drawing operation of the reportlab canvas. *)
Inductive op : Type :=
| DrawImage (template : variant)
| SetFillColorBlack
| Circle (x y r : float)
| SetFont (name : string) (size : Z)
| DrawCentredString (x y : float) (text : pystr)
| DrawTable (data : list pystr)
| ShowPage.

Definition canvas : Type := list op.

(** The loop of [fill_roll_bubbles_master] over [enumerate(roll_no)], from
    index [i] on. *)
Fixpoint fill_roll_bubbles_master_from (c : canvas) (i : nat) (roll_no : pystr)
  : result canvas :=
  match roll_no with
  | [] => Ok c
  | digit_char :: rest =>
      if negb (is_digit digit_char) then
        fill_roll_bubbles_master_from c (S i) rest
      else
        digit <- int_of_str [digit_char] ;;
        x_cm <- index MASTER_ROLL_X_CM i ;;
        let x := fdiv (fmul x_cm cm) (lit 22 (-1)) in
        y_top <- index MASTER_BUBBLE_Y_TOP_CM i ;;
        let y :=
          fadd (fsub (fsub (fmul (float_of_Z y_top) cm)
                           (fmul (fmul (float_of_Z digit)
                                       MASTER_BUBBLE_SPACING_CM) cm))
                     (fmul (lit 26 (-1)) cm))
               (fmul (lit 3 (-2)) cm) in
        fill_roll_bubbles_master_from
          (c ++ [SetFillColorBlack; Circle x y (fmul MASTER_BUBBLE_RADIUS_CM cm)])
          (S i) rest
  end.

Definition fill_roll_bubbles_master (c : canvas) (roll_no : pystr)
  : result canvas :=
  let roll_no := zfill 3 roll_no in
  fill_roll_bubbles_master_from c 0 roll_no.

Fixpoint fill_roll_bubbles_child_from (c : canvas) (i : nat) (roll_no : pystr)
  : result canvas :=
  match roll_no with
  | [] => Ok c
  | digit_char :: rest =>
      if negb (is_digit digit_char) then
        fill_roll_bubbles_child_from c (S i) rest
      else
        digit <- int_of_str [digit_char] ;;
        x_cm <- index CHILD_ROLL_X_CM i ;;
        let x := fdiv (fmul x_cm cm) (lit 22 (-1)) in
        y_top <- index CHILD_BUBBLE_Y_TOP_CM i ;;
        let y :=
          fadd (fsub (fsub (fmul y_top cm)
                           (fmul (fmul (float_of_Z digit)
                                       CHILD_BUBBLE_SPACING_CM) cm))
                     (fmul (lit 26 (-1)) cm))
               (fmul (lit 2 (-1)) cm) in
        fill_roll_bubbles_child_from
          (c ++ [SetFillColorBlack; Circle x y (fmul CHILD_BUBBLE_RADIUS_CM cm)])
          (S i) rest
  end.

Definition fill_roll_bubbles_child (c : canvas) (roll_no : pystr)
  : result canvas :=
  let roll_no := zfill 3 roll_no in
  fill_roll_bubbles_child_from c 0 roll_no.

Fixpoint draw_digits_from (c : canvas) (x_positions : list float)
  (text_y : float) (i : nat) (roll_no : pystr) : result canvas :=
  match roll_no with
  | [] => Ok c
  | digit_char :: rest =>
      x_cm <- index x_positions i ;;
      let x := fdiv (fmul x_cm cm) (lit 22 (-1)) in
      draw_digits_from (c ++ [DrawCentredString x text_y [digit_char]])
                       x_positions text_y (S i) rest
  end.

Definition draw_roll_number_text (c : canvas) (roll_no : pystr)
  (template : variant) : result canvas :=
  let roll_no := zfill 3 roll_no in
  layout <-
    match template with
    | Master =>
        y_top <- index MASTER_BUBBLE_Y_TOP_CM 0 ;;
        Ok (fsub (fmul (float_of_Z y_top) cm) (fmul (lit 21 (-1)) cm),
            MASTER_ROLL_X_CM)
    | Child =>
        y_top <- index CHILD_BUBBLE_Y_TOP_CM 0 ;;
        Ok (fsub (fmul y_top cm) (fmul (lit 20 (-1)) cm), CHILD_ROLL_X_CM)
    end ;;
  let '(text_y, x_positions) := layout in
  draw_digits_from (c ++ [SetFont "Helvetica-Bold" 14; SetFillColorBlack])
                   x_positions text_y 0 roll_no.

(** ** app.py: class parsing *)

(** [re.search(r'(\d+)', s)]: the first maximal run of digits, if any. *)
Definition re_search_digits (s : pystr) : option pystr :=
  match take_digits (lstrip_by (fun c => negb (is_decimal c)) s) with
  | [] => None
  | run => Some run
  end.

Definition roman_map : dict Z :=
  [ (txt "i", 1); (txt "ii", 2); (txt "iii", 3); (txt "iv", 4);
    (txt "v", 5); (txt "vi", 6); (txt "vii", 7); (txt "viii", 8);
    (txt "ix", 9); (txt "x", 10); (txt "xi", 11); (txt "xii", 12) ].

Definition words_map : dict Z :=
  [ (txt "first", 1); (txt "second", 2); (txt "third", 3);
    (txt "fourth", 4); (txt "fifth", 5); (txt "sixth", 6);
    (txt "seventh", 7); (txt "eighth", 8); (txt "ninth", 9);
    (txt "tenth", 10); (txt "eleventh", 11); (txt "twelfth", 12) ].

(** [parse_class_value(class_val)]; [None] is the unknown class. *)
Definition parse_class_value (class_val : pyval) : result (option Z) :=
  if pd_isna class_val then Ok None
  else
    let s := lower (strip (py_str class_val)) in
    if isdigit s then n <- int_of_str s ;; Ok (Some n)
    else
      match re_search_digits s with
      | Some group1 => n <- int_of_str group1 ;; Ok (Some n)
      | None =>
          match dict_get roman_map s with
          | Some n => Ok (Some n)
          | None =>
              match dict_get words_map s with
              | Some n => Ok (Some n)
              | None => Ok None
              end
          end
      end.

(** ** app.py: the Streamlit app *)

(** A sheet of the uploaded workbook: its name, its column labels and its
    rows, each row giving one cell per column. *)
Record sheet : Type := {
  sheet_name : pystr;
  columns : list pystr;
  rows : list (list pyval)
}.

(** The files beside the program: whether a template exists, and whether
    [ImageReader] can load it. *)
Record files : Type := {
  template_exists : variant -> bool;
  template_loads : variant -> bool
}.

Inductive canon : Type :=
| school_name | class | division | roll_no | student_name.

Definition aliases (field : canon) : list pystr :=
  match field with
  | school_name => [txt "schoolname"; txt "scoolname"; txt "school"]
  | class => [txt "class"; txt "grade"; txt "standard"]
  | division => [txt "division"; txt "section"]
  | roll_no => [txt "rollno"; txt "rollnumber"; txt "roll_no"]
  | student_name => [txt "nameofthestudent"; txt "name"; txt "studentname"]
  end.

(** [col_map[field]] *)
Definition col_map (cols : list pystr) (field : canon) : option pystr :=
  find_column (df_cols_norm cols) (aliases field).

(** [row.get(label, "")] for a row of the sheet with columns [cols]. *)
Fixpoint row_get (cols : list pystr) (row : list pyval) (label : pystr)
  : pyval :=
  match cols, row with
  | k :: cols', v :: row' =>
      if str_eqb k label then v else row_get cols' row' label
  | _, _ => VStr ""
  end.

(** [row.get(col_map[field], "") if col_map[field] else ""] *)
Definition cell (cols : list pystr) (row : list pyval) (field : canon)
  : pyval :=
  match col_map cols field with
  | Some label => if truthy label then row_get cols row label else VStr ""
  | None => VStr ""
  end.

(** The choice of the template from the parsed class (the [if] on
    [parsed_class] in the loop over the rows). *)
Definition template_type (parsed_class : option Z) : variant :=
  match parsed_class with
  | Some n => if existsb (Z.eqb n) [1; 2; 3] then Child else Master
  | None => Master
  end.

(** [f"{v or ' '}"] *)
Definition or_blank (v : pyval) : pystr :=
  if py_truthy v then py_str v else " ".

(** The body of the loop over the rows: one page drawn on [c]. *)
Definition draw_row (fs : files) (cols : list pystr) (c : canvas)
  (row : list pyval) : result canvas :=
  let student := cell cols row student_name in
  let school := cell cols row school_name in
  let class_name := cell cols row class in
  let div := cell cols row division in
  let roll_no_raw := cell cols row roll_no in
  roll <- format_roll_value roll_no_raw ;;
  parsed_class <- parse_class_value class_name ;;
  let template := template_type parsed_class in
  c <- (if template_loads fs template then Ok (c ++ [DrawImage template])
        else Raise StopException) ;;
  c <- match template with
       | Child => fill_roll_bubbles_child c roll
       | Master => fill_roll_bubbles_master c roll
       end ;;
  c <- draw_roll_number_text c roll template ;;
  let data :=
    [ txt "Student Name: " ++ or_blank student;
      txt "School: " ++ or_blank school;
      txt "Class: " ++ or_blank class_name ++ txt "      Division: "
        ++ or_blank div;
      txt "Question Paper Set: _____________" ] in
  Ok (c ++ [DrawTable data; ShowPage]).

(** The loop over the rows of one sheet. *)
Fixpoint draw_rows (fs : files) (cols : list pystr) (c : canvas)
  (rs : list (list pyval)) : result canvas :=
  match rs with
  | [] => Ok c
  | row :: rest => c <- draw_row fs cols c row ;; draw_rows fs cols c rest
  end.

(** The archive: its entries in the order they were written. *)
Definition archive : Type := list (pystr * canvas).

(** The loop over the sheets: one PDF per sheet, written to the archive
    under the sheet's file name. *)
Fixpoint write_sheets (fs : files) (zipf : archive) (sheets : list sheet)
  : result archive :=
  match sheets with
  | [] => Ok zipf
  | sh :: rest =>
      pdf_data <- draw_rows fs (columns sh) [] (rows sh) ;;
      let pdf_filename := safe_filename (sheet_name sh) ++ txt ".pdf" in
      write_sheets fs (zipf ++ [(pdf_filename, pdf_data)]) rest
  end.

(** What the app does with an uploaded workbook. *)
Definition generate (fs : files) (sheets : list sheet) : result archive :=
  if negb (template_exists fs Child) || negb (template_exists fs Master)
  then Raise StopException
  else write_sheets fs [] sheets.

(** ** The specification's reading of the functions *)

(** The calibration constants of one template variant, as the
    specification lists them: column x-positions, y-origins, row spacing,
    radius and fine-tune offset, all in centimetres. *)
Record layout : Type := {
  roll_x_cm : list float;
  bubble_y_top_cm : list float;
  bubble_spacing_cm : float;
  bubble_radius_cm : float;
  fine_tune_cm : float
}.

Definition layout_of (v : variant) : layout :=
  match v with
  | Master =>
      {| roll_x_cm := MASTER_ROLL_X_CM;
         bubble_y_top_cm := map float_of_Z MASTER_BUBBLE_Y_TOP_CM;
         bubble_spacing_cm := MASTER_BUBBLE_SPACING_CM;
         bubble_radius_cm := MASTER_BUBBLE_RADIUS_CM;
         fine_tune_cm := lit 3 (-2) |}
  | Child =>
      {| roll_x_cm := CHILD_ROLL_X_CM;
         bubble_y_top_cm := CHILD_BUBBLE_Y_TOP_CM;
         bubble_spacing_cm := CHILD_BUBBLE_SPACING_CM;
         bubble_radius_cm := CHILD_BUBBLE_RADIUS_CM;
         fine_tune_cm := lit 2 (-1) |}
  end.

(** x = (column x in cm * cm) / 2.2 *)
Definition bubble_x (x_cm : float) : float :=
  fdiv (fmul x_cm cm) (lit 22 (-1)).

(** y = y_top - d * spacing - 2.6 cm + fine-tune offset, every length
    converted from centimetres to points. *)
Definition bubble_y (L : layout) (y_top : float) (d : Z) : float :=
  fadd (fsub (fsub (fmul y_top cm)
                   (fmul (fmul (float_of_Z d) (bubble_spacing_cm L)) cm))
             (fmul (lit 26 (-1)) cm))
       (fmul (fine_tune_cm L) cm).

(** What the character [ch] of column [i] puts on the sheet: one black disc
    for a decimal digit, nothing for any other character. *)
Definition bubble (v : variant) (i : nat) (ch : ascii) : list op :=
  let L := layout_of v in
  if is_decimal ch then
    match nth_error (roll_x_cm L) i, nth_error (bubble_y_top_cm L) i with
    | Some x_cm, Some y_top =>
        [SetFillColorBlack;
         Circle (bubble_x x_cm) (bubble_y L y_top (digit_value ch))
                (fmul (bubble_radius_cm L) cm)]
    | _, _ => []
    end
  else [].

(** The bubbles of a roll string whose first character is in column [i],
    from left to right. *)
Fixpoint bubbles_from (v : variant) (i : nat) (roll : pystr) : list op :=
  match roll with
  | [] => []
  | ch :: rest => bubble v i ch ++ bubbles_from v (S i) rest
  end.

Definition bubbles (v : variant) (roll : pystr) : list op :=
  bubbles_from v 0 roll.

Definition fill_roll_bubbles (v : variant) (c : canvas) (roll : pystr)
  : result canvas :=
  match v with
  | Master => fill_roll_bubbles_master c roll
  | Child => fill_roll_bubbles_child c roll
  end.

Definition is_circle (o : op) : bool :=
  match o with
  | Circle _ _ _ => true
  | _ => false
  end.

(** Lower-casing and dropping every character that is not alphanumeric. *)
Definition spec_normalize (header : pystr) : pystr :=
  filter (fun c => is_lower_letter c || is_decimal c) (lower header).

(** [a] occurs in [s]: [s] is some text, then [a], then some text. *)
Definition substring (a s : pystr) : Prop :=
  exists pre post, s = pre ++ a ++ post.

(** The first header, in header order, that satisfies [test]. *)
Definition first_header (test : pystr -> bool) (headers : list pystr)
  : option pystr := find test headers.

(** Column resolution as the specification words it. *)
Definition spec_find_column (headers aliases : list pystr) : option pystr :=
  match first_header
          (fun h => existsb (str_eqb (spec_normalize h)) aliases) headers with
  | Some h => Some h
  | None =>
      first_header
        (fun h => existsb (fun a => str_in a (spec_normalize h)) aliases)
        headers
  end.

Definition digit_char (d : Z) : ascii := ascii_of_N (Z.to_N (48 + d)).

(** The decimal digits of [n], three of them. *)
Definition three_digits (n : Z) : pystr :=
  [digit_char (n / 100); digit_char (n / 10 mod 10); digit_char (n mod 10)].

(** The name of the archive entry of a sheet. *)
Definition entry_name (sh : sheet) : pystr :=
  safe_filename (sheet_name sh) ++ txt ".pdf".

(** A superscript digit: a character that [str.isdigit] accepts and [int]
    rejects. *)
Definition is_superscript (c : ascii) : bool :=
  is_digit c && negb (is_decimal c).

(** No character of [s] is a superscript digit. *)
Definition plain (s : pystr) : bool :=
  forallb (fun c => negb (is_superscript c)) s.

(** The superscript two. *)
Definition superscript_two : ascii := ascii_of_N 178.

(** What stops the loop of the filling functions on the characters of
    [roll], the first of them in column [i]: a superscript digit, which
    [int] rejects, or a decimal digit in column 3 or further right, where
    the lists of the layout end. *)
Fixpoint roll_error (i : nat) (roll : pystr) : option exn :=
  match roll with
  | [] => None
  | ch :: rest =>
      if is_superscript ch then Some ValueError
      else if is_decimal ch && (3 <=? i)%nat then Some IndexError
      else roll_error (S i) rest
  end.

(** The first maximal run of digits of [s] (empty when [s] has no digit). *)
Definition first_digit_run (s : pystr) : pystr :=
  take_digits (lstrip_by (fun c => negb (is_decimal c)) s).

Definition has_decimal (s : pystr) : bool := existsb is_decimal s.

(** The first item of a dict whose value passes [test]. *)
Fixpoint first_item (test : pystr -> bool) (items : dict pystr)
  : option pystr :=
  match items with
  | [] => None
  | (orig_col, norm) :: rest =>
      if test norm then Some orig_col else first_item test rest
  end.

(** Every value of the dict is the normal form of its key. *)
Definition normalized (d : dict pystr) : Prop :=
  forall k v, In (k, v) d -> v = normalize_col_name k.

Definition not_decimal (c : ascii) : bool := negb (is_decimal c).

(** Both templates are there and can be loaded. *)
Definition templates_ready (fs : files) : Prop :=
  forall v, template_exists fs v = true /\ template_loads fs v = true.

(** The roll number of the row normalizes to three characters without a
    superscript digit, and its class is parsed without an error. *)
Definition row_fits (cols : list pystr) (row : list pyval) : Prop :=
  exists roll parsed_class,
    format_roll_value (cell cols row roll_no) = Ok roll /\
    List.length roll = 3%nat /\ plain roll = true /\
    parse_class_value (cell cols row class) = Ok parsed_class.

Definition rows_fit (sheets : list sheet) : Prop :=
  forall sh row, In sh sheets -> In row (rows sh) -> row_fits (columns sh) row.

(** [r] is the string [s]. *)
Definition returns (r : result pystr) (s : pystr) : bool :=
  match r with
  | Ok t => str_eqb t s
  | Raise _ => false
  end.

(** The four ways to write the roll number [n] give its three digits. *)
Definition roll_forms_agree (n : Z) : bool :=
  returns (format_roll_value (VInt n)) (three_digits n)
  && returns (format_roll_value (VFloat (float_of_Z n))) (three_digits n)
  && returns (format_roll_value (VStr (str_of_int n))) (three_digits n)
  && returns (format_roll_value (VStr (str_of_int n ++ txt ".0")))
             (three_digits n).

Arguments lit : simpl never.
Arguments cm : simpl never.
Arguments fadd : simpl never.
Arguments fsub : simpl never.
Arguments fmul : simpl never.
Arguments fdiv : simpl never.
Arguments float_of_Z : simpl never.
Arguments float_repr : simpl never.
Arguments str_of_int : simpl never.

(** ** Further readings of the functions *)

(** Kept by the normal form of a column name: a small letter a to z or a
    decimal digit. *)
Definition alnum (c : ascii) : bool := is_lower_letter c || is_decimal c.

(** How far below the top of the first column the roll number is written,
    in centimetres. *)
Definition text_offset_cm (v : variant) : float :=
  match v with
  | Master => lit 21 (-1)
  | Child => lit 20 (-1)
  end.

(** The height of the roll number written above the bubbles. *)
Definition text_y (v : variant) : float :=
  match bubble_y_top_cm (layout_of v) with
  | y_top :: _ => fsub (fmul y_top cm) (fmul (text_offset_cm v) cm)
  | [] => S754_nan
  end.

(** The characters of [roll] written one per column, the first of them in
    column [i]. *)
Fixpoint overlay_from (xs : list float) (y : float) (i : nat) (roll : pystr)
  : list op :=
  match roll with
  | [] => []
  | ch :: rest =>
      match nth_error xs i with
      | Some x_cm => [DrawCentredString (bubble_x x_cm) y [ch]]
      | None => []
      end ++ overlay_from xs y (S i) rest
  end.

(** What [draw_roll_number_text] puts on the sheet for a padded roll
    string. *)
Definition overlay (v : variant) (roll : pystr) : list op :=
  [SetFont "Helvetica-Bold" 14; SetFillColorBlack]
    ++ overlay_from (roll_x_cm (layout_of v)) (text_y v) 0 roll.

(** The lines of the table at the foot of a page. *)
Definition table_data (cols : list pystr) (row : list pyval) : list pystr :=
  [ txt "Student Name: " ++ or_blank (cell cols row student_name);
    txt "School: " ++ or_blank (cell cols row school_name);
    txt "Class: " ++ or_blank (cell cols row class) ++ txt "      Division: "
      ++ or_blank (cell cols row division);
    txt "Question Paper Set: _____________" ].

(** One page: the template, the bubbles of the roll, the roll written
    above them, the table and the page break. *)
Definition page (v : variant) (roll : pystr) (data : list pystr) : list op :=
  DrawImage v :: bubbles v roll ++ overlay v roll ++ [DrawTable data; ShowPage].

Definition is_show_page (o : op) : bool :=
  match o with
  | ShowPage => true
  | _ => false
  end.

(** The page breaks ([showPage]) made on a canvas. *)
Definition pages (pdf : canvas) : nat :=
  List.length (filter is_show_page pdf).

(** The decimal digits 0 to 9 as integers. *)
Definition digit_values : list Z := [0; 1; 2; 3; 4; 5; 6; 7; 8; 9].

(** The headers whose normal form holds one of the aliases. *)
Definition holds_alias (alias_list : list pystr) (h : pystr) : bool :=
  existsb (fun a => str_in a (normalize_col_name h)) alias_list.

(** The headers whose normal form is one of the aliases. *)
Definition is_alias (alias_list : list pystr) (h : pystr) : bool :=
  existsb (fun a => str_eqb (normalize_col_name h) a) alias_list.

(** The black disc of the digit [d] in column [i]. *)
Definition disc (v : variant) (i : nat) (d : Z) : list op :=
  let L := layout_of v in
  match nth_error (roll_x_cm L) i, nth_error (bubble_y_top_cm L) i with
  | Some x_cm, Some y_top =>
      [SetFillColorBlack;
       Circle (bubble_x x_cm) (bubble_y L y_top d)
              (fmul (bubble_radius_cm L) cm)]
  | _, _ => []
  end.

(** The class cell that holds the number [n] as a float is parsed as [n]. *)
Definition class_of_float_agrees (n : Z) : bool :=
  match parse_class_value (VFloat (float_of_Z n)) with
  | Ok (Some k) => k =? n
  | _ => false
  end.

(** The two digits of [k], after a minus sign. *)
Definition signed_two_digits (k : Z) : pystr :=
  "-"%char :: [digit_char (k / 10); digit_char (k mod 10)].

(** The roll number [- k] is normalized to its sign and two digits. *)
Definition negative_roll_agrees (k : Z) : bool :=
  returns (format_roll_value (VInt (- k))) (signed_two_digits k).

(** * Properties *)

(** ** Strings *)

Lemma zfill_id (w : nat) (s : pystr) :
  (w <= List.length s)%nat -> zfill w s = s.
Proof.
  intros H. unfold zfill.
  destruct (Nat.leb_spec w (List.length s)) as [_ | Hlt]; [reflexivity | lia].
Qed.

Lemma zeros_length (n : nat) : List.length (zeros n) = n.
Proof. apply repeat_length. Qed.

Lemma zfill_short_length (w : nat) (s : pystr) :
  (List.length s <= w)%nat -> List.length (zfill w s) = w.
Proof.
  intros H. unfold zfill.
  destruct (Nat.leb_spec w (List.length s)) as [Hle | Hlt]; [lia |].
  destruct s as [| c r]; cbn [List.length] in *.
  - rewrite zeros_length. lia.
  - destruct (Ascii.eqb c "+" || Ascii.eqb c "-");
      cbn [List.length]; rewrite ?length_app, zeros_length;
      cbn [List.length]; lia.
Qed.

Lemma zfill_length_ge (w : nat) (s : pystr) :
  (w <= List.length (zfill w s))%nat.
Proof.
  destruct (Nat.le_gt_cases w (List.length s)) as [H | H].
  - rewrite zfill_id by exact H. exact H.
  - rewrite zfill_short_length by lia. lia.
Qed.

Lemma slice_zfill_length (s : pystr) :
  List.length (slice_to 3 (zfill 3 s)) = 3%nat.
Proof.
  unfold slice_to. rewrite length_firstn.
  pose proof (zfill_length_ge 3 s). lia.
Qed.

Lemma string_of_uint_digits (d : Decimal.uint) :
  forallb is_decimal (txt (NilEmpty.string_of_uint d)) = true.
Proof.
  induction d; cbn; try reflexivity; exact IHd.
Qed.

Lemma pos_to_uint_nonempty (p : positive) :
  txt (NilEmpty.string_of_uint (Pos.to_uint p)) <> [].
Proof.
  pose proof (DecimalPos.Unsigned.to_uint_nonnil p) as H.
  destruct (Pos.to_uint p); try discriminate. contradiction.
Qed.

(** The text of an integer: digits, after a minus sign when it is
    negative. *)
Lemma str_of_int_shape (n : Z) :
  exists ds, ds <> [] /\ forallb is_decimal ds = true /\
             str_of_int n = (if n <? 0 then ["-"%char] else []) ++ ds.
Proof.
  unfold str_of_int. destruct n as [| p | p]; cbn [Z.to_int Z.ltb Z.compare].
  - exists (txt "0"). repeat split; discriminate.
  - exists (txt (NilEmpty.string_of_uint (Pos.to_uint p))).
    repeat split; [apply pos_to_uint_nonempty | apply string_of_uint_digits].
  - exists (txt (NilEmpty.string_of_uint (Pos.to_uint p))).
    repeat split; [apply pos_to_uint_nonempty | apply string_of_uint_digits].
Qed.

Lemma forallb_skipn {A : Type} (f : A -> bool) (n : nat) (l : list A) :
  forallb f l = true -> forallb f (skipn n l) = true.
Proof.
  revert l. induction n as [| n IH]; intros [| a l] H; cbn in *; auto.
  apply andb_prop in H. apply IH, H.
Qed.

(** Past its first character, the text of an integer holds digits only. *)
Lemma str_of_int_tail_digits (n : Z) (k : nat) :
  (1 <= k)%nat -> forallb is_decimal (skipn k (str_of_int n)) = true.
Proof.
  intros Hk. destruct (str_of_int_shape n) as (ds & _ & Hds & ->).
  destruct k as [| k]; [lia |].
  destruct (n <? 0); cbn [app skipn].
  - apply forallb_skipn, Hds.
  - destruct ds as [| d ds]; [reflexivity |].
    cbn in Hds. apply andb_prop in Hds. apply forallb_skipn, Hds.
Qed.

(** ** Characters *)

(** A case for each of the 256 characters. *)
Ltac each_char c := destruct c as [[] [] [] [] [] [] [] []].

Lemma decimal_is_digit (c : ascii) : is_decimal c = true -> is_digit c = true.
Proof. intros H. unfold is_digit. rewrite H. reflexivity. Qed.

Lemma not_digit_not_decimal (c : ascii) :
  is_digit c = false -> is_decimal c = false.
Proof.
  intros H. destruct (is_decimal c) eqn:E; [| reflexivity].
  apply decimal_is_digit in E. congruence.
Qed.

(** [int] of one character: its value for a decimal digit, [ValueError]
    for any other character, the superscript digits among them. *)
Lemma int_of_char (c : ascii) :
  int_of_str [c] = if is_decimal c then Ok (digit_value c) else Raise ValueError.
Proof. each_char c; reflexivity. Qed.

Lemma space_not_alnum (c : ascii) :
  isspace c = true -> is_lower_letter c || is_decimal c = false.
Proof. each_char c; vm_compute; intros; try reflexivity; discriminate. Qed.

Lemma space_not_decimal (c : ascii) :
  isspace c = true -> not_decimal c = true.
Proof.
  intros H. apply space_not_alnum in H. apply orb_false_iff in H.
  unfold not_decimal. destruct H as [_ ->]. reflexivity.
Qed.

Lemma space_not_superscript (c : ascii) :
  isspace c = true -> is_superscript c = false.
Proof. each_char c; vm_compute; intros; try reflexivity; discriminate. Qed.

Lemma lower_char_decimal (c : ascii) :
  is_decimal (lower_char c) = is_decimal c /\
  (is_decimal c = true -> lower_char c = c).
Proof. each_char c; vm_compute; split; intros; try reflexivity; discriminate. Qed.

Lemma lower_char_digit (c : ascii) :
  is_digit (lower_char c) = is_digit c.
Proof. each_char c; reflexivity. Qed.

Lemma plain_digit_decimal (c : ascii) :
  is_superscript c = false -> is_digit c = true -> is_decimal c = true.
Proof.
  unfold is_superscript. intros H Hd. rewrite Hd in H.
  destruct (is_decimal c); [reflexivity | discriminate].
Qed.

Lemma decimal_not_superscript (c : ascii) :
  is_decimal c = true -> is_superscript c = false.
Proof.
  intros H. unfold is_superscript. rewrite H. apply andb_false_r.
Qed.

Lemma forallb_impl {A : Type} (f g : A -> bool) (l : list A) :
  (forall a, f a = true -> g a = true) ->
  forallb f l = true -> forallb g l = true.
Proof.
  intros Hfg. induction l as [| a l IH]; cbn; [reflexivity |].
  intros H. apply andb_prop in H. destruct H as [Ha Hl].
  rewrite (Hfg a Ha), (IH Hl). reflexivity.
Qed.

Lemma decimals_plain (s : pystr) : forallb is_decimal s = true -> plain s = true.
Proof.
  apply forallb_impl. intros c H. rewrite decimal_not_superscript by exact H.
  reflexivity.
Qed.

(** ** The bubble filling functions *)

Lemma bubble_not_decimal (v : variant) (i : nat) (ch : ascii) :
  is_decimal ch = false -> bubble v i ch = [].
Proof. intros H. unfold bubble. rewrite H. reflexivity. Qed.

Ltac fill_loop_case IH i ch rest c :=
  rewrite int_of_char; unfold is_superscript;
  destruct (is_digit ch) eqn:Hd; cbn [negb andb];
  [ destruct (is_decimal ch) eqn:Hc; cbn [negb andb bind];
    [ destruct i as [| [| [| i]]];
      [ cbn [index nth_error bind MASTER_ROLL_X_CM MASTER_BUBBLE_Y_TOP_CM
             CHILD_ROLL_X_CM CHILD_BUBBLE_Y_TOP_CM Nat.leb];
        rewrite IH; unfold bubble; rewrite Hc;
        destruct (roll_error _ rest); [reflexivity |];
        rewrite <- app_assoc; reflexivity ..
      | destruct i; reflexivity ]
    | reflexivity ]
  | rewrite (not_digit_not_decimal ch Hd); cbn [andb];
    rewrite IH, (bubble_not_decimal _ _ ch (not_digit_not_decimal ch Hd));
    reflexivity ].

(** The loop of the master function on every string: it stops at the first
    character that [roll_error] finds, and otherwise draws the bubbles of
    the string. *)
Lemma fill_roll_bubbles_master_from_spec (roll : pystr) :
  forall (c : canvas) (i : nat),
    fill_roll_bubbles_master_from c i roll =
    match roll_error i roll with
    | Some e => Raise e
    | None => Ok (c ++ bubbles_from Master i roll)
    end.
Proof.
  induction roll as [| ch rest IH]; intros c i.
  - cbn. rewrite app_nil_r. reflexivity.
  - cbn [fill_roll_bubbles_master_from roll_error bubbles_from].
    fill_loop_case IH i ch rest c.
Qed.

Lemma fill_roll_bubbles_child_from_spec (roll : pystr) :
  forall (c : canvas) (i : nat),
    fill_roll_bubbles_child_from c i roll =
    match roll_error i roll with
    | Some e => Raise e
    | None => Ok (c ++ bubbles_from Child i roll)
    end.
Proof.
  induction roll as [| ch rest IH]; intros c i.
  - cbn. rewrite app_nil_r. reflexivity.
  - cbn [fill_roll_bubbles_child_from roll_error bubbles_from].
    fill_loop_case IH i ch rest c.
Qed.

(** Both functions, on every roll string. *)
Lemma fill_roll_bubbles_spec (v : variant) (c : canvas) (roll : pystr) :
  fill_roll_bubbles v c roll =
  match roll_error 0 (zfill 3 roll) with
  | Some e => Raise e
  | None => Ok (c ++ bubbles v (zfill 3 roll))
  end.
Proof.
  destruct v; unfold fill_roll_bubbles, fill_roll_bubbles_master,
    fill_roll_bubbles_child, bubbles.
  - apply fill_roll_bubbles_master_from_spec.
  - apply fill_roll_bubbles_child_from_spec.
Qed.

Lemma bubble_circles (v : variant) (i : nat) (ch : ascii) :
  (List.length (filter is_circle (bubble v i ch)) <= 1)%nat.
Proof.
  unfold bubble. destruct (is_decimal ch); [| cbn; lia].
  destruct (nth_error _ i); [| cbn; lia].
  destruct (nth_error _ i); cbn; lia.
Qed.

Lemma bubbles_from_circles (v : variant) (roll : pystr) :
  forall i,
    (List.length (filter is_circle (bubbles_from v i roll))
     <= List.length roll)%nat.
Proof.
  induction roll as [| ch rest IH]; intros i; cbn [bubbles_from List.length].
  - cbn. lia.
  - rewrite filter_app, length_app.
    pose proof (bubble_circles v i ch). specialize (IH (S i)). lia.
Qed.

Lemma plain_app (a b : pystr) : plain (a ++ b) = plain a && plain b.
Proof. apply forallb_app. Qed.

Lemma plain_zfill (w : nat) (s : pystr) : plain s = true -> plain (zfill w s) = true.
Proof.
  intros H. unfold zfill. destruct (w <=? List.length s)%nat; [exact H |].
  assert (Hz : forall n, plain (zeros n) = true)
    by (intros n; induction n; [reflexivity | exact IHn]).
  destruct s as [| c r]; [apply Hz |].
  destruct (Ascii.eqb c "+" || Ascii.eqb c "-").
  - change (c :: zeros (w - List.length (c :: r)) ++ r)
      with ([c] ++ zeros (w - List.length (c :: r)) ++ r).
    change (c :: r) with ([c] ++ r) in H.
    rewrite plain_app in H. apply andb_prop in H. destruct H as [Hc Hr].
    rewrite !plain_app, Hc, Hz, Hr. reflexivity.
  - rewrite plain_app, Hz, H. reflexivity.
Qed.

(** Without a superscript digit, the only error is a decimal digit in
    column 3 or further right. *)
Lemma roll_error_plain (roll : pystr) :
  forall i,
    plain roll = true ->
    roll_error i roll =
    if existsb is_decimal (skipn (3 - i) roll) then Some IndexError else None.
Proof.
  induction roll as [| ch rest IH]; intros i Hp.
  - rewrite skipn_nil. reflexivity.
  - cbn [plain forallb] in Hp. apply andb_prop in Hp.
    destruct Hp as [Hch Hrest]. apply negb_true_iff in Hch.
    cbn [roll_error]. rewrite Hch.
    destruct (Nat.leb_spec 3 i) as [Hi | Hi].
    + replace (3 - i)%nat with 0%nat by lia. cbn [skipn existsb].
      destruct (is_decimal ch); cbn [andb orb]; [reflexivity |].
      rewrite (IH (S i) Hrest). replace (3 - S i)%nat with 0%nat by lia.
      reflexivity.
    + rewrite andb_false_r. rewrite (IH (S i) Hrest).
      replace (3 - i)%nat with (S (3 - S i)) by lia. reflexivity.
Qed.

(** In the first three columns there is no out-of-range index. *)
Lemma roll_error_short (roll : pystr) :
  forall i,
    (i + List.length roll <= 3)%nat -> roll_error i roll <> Some IndexError.
Proof.
  induction roll as [| ch rest IH]; intros i Hlen; cbn [roll_error].
  - discriminate.
  - cbn [List.length] in Hlen. destruct (is_superscript ch); [discriminate |].
    destruct (Nat.leb_spec 3 i) as [Hi | Hi]; [lia |].
    rewrite andb_false_r. apply IH. lia.
Qed.

(** ** The roll normalizer *)

Lemma str_eqb_eq (a b : pystr) : str_eqb a b = true <-> a = b.
Proof.
  unfold str_eqb. destruct (list_eq_dec ascii_dec a b); split;
    intros; congruence.
Qed.

Lemma returns_eq (r : result pystr) (s : pystr) :
  returns r s = true -> r = Ok s.
Proof.
  destruct r as [t | e]; cbn; [| discriminate].
  intros H. apply str_eqb_eq in H. congruence.
Qed.

(** Where a result of the normalizer comes from: the blank default, the
    padded integer, or the padded and cut text. *)
Lemma format_roll_value_cases (v : pyval) (s : pystr) :
  format_roll_value v = Ok s ->
  s = txt "000" \/
  (exists n, s = zfill 3 (str_of_int n)) \/
  s = slice_to 3 (zfill 3 (py_str v)).
Proof.
  unfold format_roll_value.
  destruct (pd_isna v || negb (truthy (strip (py_str v)))).
  - intros [= <-]. left. reflexivity.
  - destruct (f <- py_float v ;; int_of_float f) as [n | e].
    + intros [= <-]. right. left. exists n. reflexivity.
    + destruct e; try discriminate. intros [= <-]. right. right. reflexivity.
Qed.

Lemma format_roll_value_length (v : pyval) (s : pystr) :
  format_roll_value v = Ok s -> (3 <= List.length s)%nat.
Proof.
  intros H. destruct (format_roll_value_cases v s H) as [-> | [[n ->] | ->]].
  - cbn. lia.
  - apply zfill_length_ge.
  - rewrite slice_zfill_length. lia.
Qed.

Lemma forallb_existsb_nonempty {A : Type} (f : A -> bool) (l : list A) :
  l <> [] -> forallb f l = true -> existsb f l = true.
Proof.
  destruct l as [| a l]; [congruence |].
  cbn. intros _ H. apply andb_prop in H. destruct H as [-> _]. reflexivity.
Qed.

(** A result of more than three characters is the text of an integer: it
    has no superscript digit, and a decimal digit in column 3. *)
Lemma format_roll_value_long (v : pyval) (s : pystr) :
  format_roll_value v = Ok s -> (3 < List.length s)%nat ->
  plain s = true /\ has_decimal (skipn 3 s) = true.
Proof.
  intros H Hlen.
  destruct (format_roll_value_cases v s H) as [-> | [[n ->] | ->]].
  - cbn in Hlen. lia.
  - destruct (Nat.le_gt_cases 3 (List.length (str_of_int n))) as [Hn | Hn].
    + rewrite zfill_id in * by exact Hn. split.
      * destruct (str_of_int_shape n) as (ds & _ & Hds & ->).
        rewrite plain_app, (decimals_plain ds Hds).
        destruct (n <? 0); reflexivity.
      * apply forallb_existsb_nonempty.
        -- intros E. apply (f_equal (@List.length ascii)) in E.
           rewrite length_skipn in E. cbn in E. lia.
        -- apply str_of_int_tail_digits. lia.
    + rewrite zfill_short_length in Hlen by lia. lia.
  - rewrite slice_zfill_length in Hlen. lia.
Qed.

Lemma roll_forms_agree_all :
  forallb roll_forms_agree (map Z.of_nat (seq 0 1000)) = true.
Proof. vm_compute. reflexivity. Qed.

(** C1 (the code departs from the claim). The normalizer does not always
    return three characters: the roll number 1000, as a string or as an
    integer, comes back as the four characters 1000, which the bubble
    filling functions then reject with an out-of-range error; and the
    string inf is not answered at all, for the overflow of its conversion
    to an integer is not caught.  The examples of the claim hold. *)
Theorem format_roll_value_1000 :
  format_roll_value (VStr (txt "1000")) = Ok (txt "1000") /\
  format_roll_value (VInt 1000) = Ok (txt "1000") /\
  List.length (txt "1000") = 4%nat /\
  fill_roll_bubbles_master [] (txt "1000") = Raise IndexError /\
  format_roll_value (VStr (txt "inf")) = Raise OverflowError /\
  format_roll_value (VStr (txt "7")) = Ok (txt "007") /\
  format_roll_value (VStr (txt "")) = Ok (txt "000") /\
  format_roll_value (VStr (txt "12.0")) = Ok (txt "012") /\
  format_roll_value (VStr (txt "abc")) = Ok (txt "abc").
Proof. vm_compute. repeat split; reflexivity. Qed.

(** C10. For every integer n with 0 <= n <= 999, the normalizer returns
    the same string, the three decimal digits of n, for the integer n, for
    the float n, for the decimal string of n and for that string followed by
    .0 *)
Theorem format_roll_value_representation_invariant (n : Z) :
  0 <= n <= 999 ->
  format_roll_value (VInt n) = Ok (three_digits n) /\
  format_roll_value (VFloat (float_of_Z n)) = Ok (three_digits n) /\
  format_roll_value (VStr (str_of_int n)) = Ok (three_digits n) /\
  format_roll_value (VStr (str_of_int n ++ txt ".0")) = Ok (three_digits n) /\
  List.length (three_digits n) = 3%nat.
Proof.
  intros Hn.
  assert (Hin : In n (map Z.of_nat (seq 0 1000))).
  { apply in_map_iff. exists (Z.to_nat n). split; [lia |].
    apply in_seq. lia. }
  pose proof (proj1 (forallb_forall _ _) roll_forms_agree_all n Hin) as H.
  unfold roll_forms_agree in H.
  repeat (apply andb_prop in H; destruct H as [H ?]).
  repeat split; try (apply returns_eq; assumption).
Qed.

Lemma format_roll_value_representation_invariant_witness :
  0 <= 42 <= 999 /\
  format_roll_value (VInt 42) = Ok (three_digits 42) /\
  format_roll_value (VFloat (float_of_Z 42)) = Ok (three_digits 42) /\
  format_roll_value (VStr (str_of_int 42)) = Ok (three_digits 42) /\
  format_roll_value (VStr (str_of_int 42 ++ txt ".0")) = Ok (three_digits 42) /\
  List.length (three_digits 42) = 3%nat.
Proof.
  split; [lia | apply (format_roll_value_representation_invariant 42); lia].
Defined.

(** A roll string of three characters without a superscript digit is
    drawn in full. *)
Lemma fill_roll_bubbles_three (v : variant) (c : canvas) (roll : pystr) :
  List.length roll = 3%nat -> plain roll = true ->
  fill_roll_bubbles v c roll = Ok (c ++ bubbles v roll).
Proof.
  intros Hlen Hp. rewrite fill_roll_bubbles_spec.
  rewrite zfill_id by lia. rewrite roll_error_plain by exact Hp.
  rewrite skipn_all2 by (cbn; lia). reflexivity.
Qed.

(** C6 (the code departs from the claim). The superscript two is a digit
    for [str.isdigit] and no number for [int]: the roll number made of it
    normalizes to two zeros and the superscript two, and on this string of
    three characters both filling functions raise [ValueError] instead of
    skipping the character.  For every variant and every roll string of
    three characters without a superscript digit the claim holds: the
    function draws, from left to right, one black disc per decimal digit
    and nothing for any other character; the disc of the digit d in column
    i has x = (column x in cm * cm) / 2.2 and
    y = y_top[i] * cm - d * spacing * cm - 2.6 * cm + fine-tune * cm, with
    the fine-tune offset 0.03 for the master and 0.2 for the child sheet;
    what is drawn depends on the variant and the roll string only. *)
Theorem fill_roll_bubbles_positions (v : variant) (c : canvas) :
  (is_digit superscript_two = true /\
   int_of_str [superscript_two] = Raise ValueError /\
   format_roll_value (VStr [superscript_two])
     = Ok (txt "00" ++ [superscript_two]) /\
   List.length (txt "00" ++ [superscript_two]) = 3%nat /\
   fill_roll_bubbles v c (txt "00" ++ [superscript_two]) = Raise ValueError) /\
  (forall roll,
     List.length roll = 3%nat -> plain roll = true ->
     fill_roll_bubbles v c roll = Ok (c ++ bubbles v roll)) /\
  (forall a b d,
     bubbles v [a; b; d] = bubble v 0 a ++ bubble v 1 b ++ bubble v 2 d) /\
  (forall i ch, is_decimal ch = false -> bubble v i ch = []) /\
  (forall i ch, (i < 3)%nat -> is_decimal ch = true ->
     exists x_cm y_top,
       nth_error (roll_x_cm (layout_of v)) i = Some x_cm /\
       nth_error (bubble_y_top_cm (layout_of v)) i = Some y_top /\
       bubble v i ch =
       [SetFillColorBlack;
        Circle (fdiv (fmul x_cm cm) (lit 22 (-1)))
               (fadd (fsub (fsub (fmul y_top cm)
                                 (fmul (fmul (float_of_Z (digit_value ch))
                                             (bubble_spacing_cm (layout_of v)))
                                       cm))
                           (fmul (lit 26 (-1)) cm))
                     (fmul (fine_tune_cm (layout_of v)) cm))
               (fmul (bubble_radius_cm (layout_of v)) cm)]) /\
  fine_tune_cm (layout_of Master) = lit 3 (-2) /\
  fine_tune_cm (layout_of Child) = lit 2 (-1).
Proof.
  split; [| split; [| split; [| split; [| split; [| split]]]]].
  - repeat split; try reflexivity.
    rewrite fill_roll_bubbles_spec. reflexivity.
  - intros roll. apply fill_roll_bubbles_three.
  - intros a b d. unfold bubbles. cbn [bubbles_from].
    rewrite app_nil_r. reflexivity.
  - intros i ch. apply bubble_not_decimal.
  - intros i ch Hi Hd. unfold bubble. rewrite Hd.
    destruct v; destruct i as [| [| [| i]]]; try lia;
      cbn [layout_of roll_x_cm bubble_y_top_cm nth_error map
           MASTER_ROLL_X_CM MASTER_BUBBLE_Y_TOP_CM
           CHILD_ROLL_X_CM CHILD_BUBBLE_Y_TOP_CM];
      eexists; eexists; repeat split.
  - reflexivity.
  - reflexivity.
Qed.

Lemma fill_roll_bubbles_positions_witness :
  List.length (txt "0a7") = 3%nat /\ plain (txt "0a7") = true /\
  fill_roll_bubbles Child [] (txt "0a7") = Ok ([] ++ bubbles Child (txt "0a7")).
Proof.
  split; [reflexivity | split; [reflexivity |]].
  apply (proj1 (proj2 (fill_roll_bubbles_positions Child [])) (txt "0a7"));
    reflexivity.
Defined.

(** C9 (the claim as amended). On a roll string without a superscript
    digit, the filling functions raise the out-of-range error exactly when
    the zero-padded string has a decimal digit in column 3 or further
    right, and otherwise draw its bubbles.  Every result of the normalizer
    of more than three characters is such a string with such a digit, and
    1000 gives one.  A roll string of at most three characters never
    reaches the out-of-range index, and when it is drawn, at most one disc
    per character of the padded string is drawn. *)
Theorem fill_roll_bubbles_out_of_range (v : variant) (c : canvas) :
  (forall roll,
     plain roll = true ->
     (fill_roll_bubbles v c roll = Raise IndexError <->
      has_decimal (skipn 3 (zfill 3 roll)) = true)) /\
  (forall roll,
     plain roll = true ->
     has_decimal (skipn 3 (zfill 3 roll)) = false ->
     fill_roll_bubbles v c roll = Ok (c ++ bubbles v (zfill 3 roll))) /\
  (forall value roll,
     format_roll_value value = Ok roll -> (3 < List.length roll)%nat ->
     fill_roll_bubbles v c roll = Raise IndexError) /\
  format_roll_value (VInt 1000) = Ok (txt "1000") /\
  (forall roll,
     (List.length roll <= 3)%nat ->
     fill_roll_bubbles v c roll <> Raise IndexError /\
     (forall c', fill_roll_bubbles v c roll = Ok c' ->
                 c' = c ++ bubbles v (zfill 3 roll)) /\
     (List.length (filter is_circle (bubbles v (zfill 3 roll)))
      <= List.length (zfill 3 roll))%nat).
Proof.
  split; [| split; [| split; [| split]]].
  - intros roll Hp. rewrite fill_roll_bubbles_spec.
    rewrite roll_error_plain by (apply plain_zfill, Hp).
    unfold has_decimal. cbn [Nat.sub].
    destruct (existsb is_decimal (skipn 3 (zfill 3 roll))); split;
      intros; congruence.
  - intros roll Hp H. rewrite fill_roll_bubbles_spec.
    rewrite roll_error_plain by (apply plain_zfill, Hp).
    unfold has_decimal in H. cbn [Nat.sub]. rewrite H. reflexivity.
  - intros value roll H Hlen.
    destruct (format_roll_value_long value roll H Hlen) as [Hp Hd].
    rewrite fill_roll_bubbles_spec. rewrite zfill_id by lia.
    rewrite roll_error_plain by exact Hp.
    unfold has_decimal in Hd. cbn [Nat.sub]. rewrite Hd. reflexivity.
  - vm_compute. reflexivity.
  - intros roll Hlen.
    pose proof (zfill_short_length 3 roll Hlen) as Hz.
    pose proof (roll_error_short (zfill 3 roll) 0) as Hshort.
    rewrite fill_roll_bubbles_spec.
    destruct (roll_error 0 (zfill 3 roll)) as [e |]; repeat split.
    + intros [= ->]. apply Hshort; [cbn; lia | reflexivity].
    + discriminate.
    + apply bubbles_from_circles.
    + discriminate.
    + intros c' [= <-]. reflexivity.
    + apply bubbles_from_circles.
Qed.

Lemma fill_roll_bubbles_out_of_range_witness :
  plain (txt "1000") = true /\
  has_decimal (skipn 3 (zfill 3 (txt "1000"))) = true /\
  fill_roll_bubbles Master [] (txt "1000") = Raise IndexError.
Proof.
  split; [reflexivity | split; [reflexivity |]].
  apply (proj1 (fill_roll_bubbles_out_of_range Master []) (txt "1000"));
    reflexivity.
Defined.

(** C9 (the claim as it stands fails). The four characters abcd hold no
    digit: both functions return without an error and draw nothing, on a
    roll string longer than three characters. *)
Lemma fill_roll_bubbles_total_on_abcd :
  (3 < List.length (txt "abcd"))%nat /\
  fill_roll_bubbles_master [] (txt "abcd") = Ok [] /\
  fill_roll_bubbles_child [] (txt "abcd") = Ok [].
Proof. repeat split; cbn; lia. Qed.

(** ** The calibration constants *)

(** C2 (the claim as it stands fails). In column 0 the child x-position is
    15.9, not the master's 10.1 plus 6, and the child y-origin is 21.2, not
    the master's 22 minus 0.3; this holds for the floats and for their
    exact values. *)
Lemma child_is_not_master_shifted :
  nth_error MASTER_ROLL_X_CM 0 = Some (lit 101 (-1)) /\
  nth_error CHILD_ROLL_X_CM 0 = Some (lit 159 (-1)) /\
  lit 159 (-1) <> fadd (lit 101 (-1)) (float_of_Z 6) /\
  ~ (float_to_Q (lit 159 (-1)) - float_to_Q (lit 101 (-1)) == 6)%Q /\
  nth_error MASTER_BUBBLE_Y_TOP_CM 0 = Some 22 /\
  nth_error CHILD_BUBBLE_Y_TOP_CM 0 = Some (lit 212 (-1)) /\
  lit 212 (-1) <> fadd (float_of_Z 22) (SFopp (lit 3 (-1))) /\
  ~ (float_to_Q (lit 212 (-1)) - float_to_Q (float_of_Z 22) == - (3 # 10))%Q.
Proof.
  repeat split; try (vm_compute; reflexivity);
    try (vm_compute; discriminate).
Qed.

(** C2 (the claim as amended). The child x-positions are 9.9, 11.3 and 12.6
    shifted by 6, which is 15.9, 17.3 and 18.6: between 5.69 and 5.81 to
    the right of the master's 10.1, 11.5 and 12.9.  The child y-origin is
    21.5 shifted by -0.3, which is 21.2: between 0.79 and 0.81 below the
    master's 22.  Spacing, radius and fine-tune offset are separate values
    per variant. *)
Theorem child_layout_constants :
  CHILD_ROLL_X_CM = [lit 159 (-1); lit 173 (-1); lit 186 (-1)] /\
  MASTER_ROLL_X_CM = [lit 101 (-1); lit 115 (-1); lit 129 (-1)] /\
  Forall2 (fun m c => (569 # 100 < float_to_Q c - float_to_Q m)%Q /\
                      (float_to_Q c - float_to_Q m < 581 # 100)%Q)
          MASTER_ROLL_X_CM CHILD_ROLL_X_CM /\
  CHILD_BUBBLE_Y_TOP_CM = [lit 212 (-1); lit 212 (-1); lit 212 (-1)] /\
  MASTER_BUBBLE_Y_TOP_CM = [22; 22; 22] /\
  Forall2 (fun m c => (- (81 # 100) < float_to_Q c - inject_Z m)%Q /\
                      (float_to_Q c - inject_Z m < - (79 # 100))%Q)
          MASTER_BUBBLE_Y_TOP_CM CHILD_BUBBLE_Y_TOP_CM /\
  (MASTER_BUBBLE_SPACING_CM = lit 62 (-2) /\
   CHILD_BUBBLE_SPACING_CM = lit 61 (-2) /\
   MASTER_BUBBLE_SPACING_CM <> CHILD_BUBBLE_SPACING_CM) /\
  (MASTER_BUBBLE_RADIUS_CM = lit 24 (-2) /\
   CHILD_BUBBLE_RADIUS_CM = lit 23 (-2) /\
   MASTER_BUBBLE_RADIUS_CM <> CHILD_BUBBLE_RADIUS_CM) /\
  (fine_tune_cm (layout_of Master) = lit 3 (-2) /\
   fine_tune_cm (layout_of Child) = lit 2 (-1) /\
   fine_tune_cm (layout_of Master) <> fine_tune_cm (layout_of Child)).
Proof.
  repeat match goal with
         | |- _ /\ _ => split
         | |- Forall2 _ _ _ => constructor
         end;
    try (vm_compute; reflexivity); try (vm_compute; discriminate).
Qed.

(** ** The choice of the template *)

Lemma fill_roll_bubbles_extends (v : variant) (c c' : canvas) (roll : pystr) :
  fill_roll_bubbles v c roll = Ok c' -> exists drawn, c' = c ++ drawn.
Proof.
  rewrite fill_roll_bubbles_spec.
  destruct (roll_error 0 (zfill 3 roll)); [discriminate |].
  intros [= <-]. eexists. reflexivity.
Qed.

Lemma draw_digits_from_extends (roll : pystr) :
  forall c xs y i c',
    draw_digits_from c xs y i roll = Ok c' -> exists drawn, c' = c ++ drawn.
Proof.
  induction roll as [| ch rest IH]; intros c xs y i c'; cbn [draw_digits_from].
  - intros [= <-]. exists []. symmetry. apply app_nil_r.
  - destruct (index xs i) as [x | e]; cbn [bind]; [| discriminate].
    intros H. apply IH in H. destruct H as [drawn ->].
    rewrite <- app_assoc. eexists. reflexivity.
Qed.

Lemma draw_roll_number_text_extends (c c' : canvas) (roll : pystr)
  (t : variant) :
  draw_roll_number_text c roll t = Ok c' -> exists drawn, c' = c ++ drawn.
Proof.
  unfold draw_roll_number_text. destruct t; cbn [index nth_error bind
    MASTER_BUBBLE_Y_TOP_CM CHILD_BUBBLE_Y_TOP_CM];
    intros H; apply draw_digits_from_extends in H; destruct H as [drawn ->];
    rewrite <- app_assoc; eexists; reflexivity.
Qed.

(** A drawn row starts with the image of the template chosen from the
    parsed class of the row. *)
Lemma draw_row_image (fs : files) (cols : list pystr) (c c' : canvas)
  (row : list pyval) :
  draw_row fs cols c row = Ok c' ->
  exists parsed_class page,
    parse_class_value (cell cols row class) = Ok parsed_class /\
    c' = c ++ DrawImage (template_type parsed_class) :: page.
Proof.
  unfold draw_row.
  destruct (format_roll_value _) as [roll | e]; cbn [bind]; [| discriminate].
  destruct (parse_class_value _) as [parsed_class | e]; cbn [bind];
    [| discriminate].
  set (t := template_type parsed_class).
  destruct (template_loads fs t); cbn [bind]; [| discriminate].
  assert (Hfill : forall c0, match t with
                             | Child => fill_roll_bubbles_child c0 roll
                             | Master => fill_roll_bubbles_master c0 roll
                             end = fill_roll_bubbles t c0 roll)
    by (intros; destruct t; reflexivity).
  rewrite Hfill.
  destruct (fill_roll_bubbles t _ roll) as [c1 | e] eqn:H1; cbn [bind];
    [| discriminate].
  destruct (draw_roll_number_text c1 roll t) as [c2 | e] eqn:H2; cbn [bind];
    [| discriminate].
  intros [= <-].
  apply fill_roll_bubbles_extends in H1. destruct H1 as [d1 ->].
  apply draw_roll_number_text_extends in H2. destruct H2 as [d2 ->].
  repeat rewrite <- app_assoc. cbn [app].
  exists parsed_class. eexists. split; reflexivity.
Qed.

(** C5. For every row the child template is chosen if and only if the
    parsed class is 1, 2 or 3; for every other integer and for the unknown
    class the master template is chosen. *)
Theorem template_type_child_iff :
  (forall p, template_type p = Child <-> p = Some 1 \/ p = Some 2 \/ p = Some 3) /\
  (forall p, template_type p = Master <->
             ~ (p = Some 1 \/ p = Some 2 \/ p = Some 3)) /\
  template_type None = Master /\
  (forall fs cols c row c',
     draw_row fs cols c row = Ok c' ->
     exists parsed_class page,
       parse_class_value (cell cols row class) = Ok parsed_class /\
       c' = c ++ DrawImage (template_type parsed_class) :: page).
Proof.
  assert (H : forall p, template_type p = Child <->
                        p = Some 1 \/ p = Some 2 \/ p = Some 3).
  { intros [n |]; cbn [template_type existsb].
    - destruct (Z.eqb_spec n 1) as [-> | H1]; [cbn; intuition |].
      destruct (Z.eqb_spec n 2) as [-> | H2]; [cbn; intuition |].
      destruct (Z.eqb_spec n 3) as [-> | H3]; [cbn; intuition |].
      cbn. split; [discriminate |].
      intros [[= ?] | [[= ?] | [= ?]]]; congruence.
    - split; [discriminate |]. intros [? | [? | ?]]; discriminate. }
  repeat split.
  - apply H.
  - apply H.
  - intros Hm Hc. apply H in Hc. congruence.
  - intros Hn. destruct (template_type p) eqn:E; [reflexivity |].
    apply H in E. contradiction.
  - intros. eapply draw_row_image. eassumption.
Qed.

Lemma template_type_child_iff_witness :
  (Some 2 = Some 1 \/ Some 2 = Some 2 \/ Some 2 = Some 3) /\
  template_type (Some 2) = Child.
Proof.
  assert (H : Some 2 = Some 1 \/ Some 2 = Some 2 \/ Some 2 = Some 3)
    by (right; left; reflexivity).
  split; [exact H |].
  apply (proj1 template_type_child_iff (Some 2)). exact H.
Defined.

(** ** The filename sanitizer *)

Lemma underscore_is_clean :
  is_illegal "_" = false /\ isspace "_" = false.
Proof. split; reflexivity. Qed.

Lemma re_sub_illegal_clean (s : pystr) (c : ascii) :
  In c (re_sub_illegal s) -> is_illegal c = false.
Proof.
  unfold re_sub_illegal. rewrite in_map_iff. intros (x & <- & _).
  destruct (is_illegal x) eqn:E; [reflexivity | exact E].
Qed.

Lemma re_sub_spaces_from_chars (s : pystr) :
  forall in_run c,
    In c (re_sub_spaces_from in_run s) ->
    isspace c = false /\ (c = "_"%char \/ In c s).
Proof.
  induction s as [| x s IH]; intros in_run c; cbn [re_sub_spaces_from].
  - intros [].
  - destruct (isspace x) eqn:Ex.
    + destruct in_run.
      * intros H. apply IH in H. cbn [In]. tauto.
      * intros [<- | H].
        -- split; [reflexivity | left; reflexivity].
        -- apply IH in H. cbn [In]. tauto.
    + intros [<- | H].
      * split; [exact Ex | right; left; reflexivity].
      * apply IH in H. cbn [In]. tauto.
Qed.

(** Text that ends a run of white space: the run has its underscore
    already, and the text goes on as if it began the string. *)
Lemma re_sub_spaces_after_run (ws b : pystr) :
  forallb isspace ws = true ->
  (forall c b', b = c :: b' -> isspace c = false) ->
  re_sub_spaces_from true (ws ++ b) = re_sub_spaces_from false b.
Proof.
  intros Hws Hb. induction ws as [| w ws IH]; cbn [app].
  - destruct b as [| c b']; [reflexivity |].
    cbn [re_sub_spaces_from]. rewrite (Hb c b' eq_refl). reflexivity.
  - cbn [forallb] in Hws. apply andb_prop in Hws. destruct Hws as [Hw Hws].
    cbn [re_sub_spaces_from]. rewrite Hw. apply IH, Hws.
Qed.

Lemma re_sub_spaces_from_app (a : pystr) :
  forall in_run rest,
    (forall a' c, a = a' ++ [c] -> isspace c = false) ->
    (a = [] -> in_run = false) ->
    re_sub_spaces_from in_run (a ++ rest) =
    re_sub_spaces_from in_run a ++ re_sub_spaces_from false rest.
Proof.
  induction a as [| x a IH]; intros in_run rest Hend Hnil.
  - rewrite (Hnil eq_refl). reflexivity.
  - assert (Hend' : forall a' c, a = a' ++ [c] -> isspace c = false).
    { intros a' c ->. apply (Hend (x :: a') c). reflexivity. }
    cbn [app re_sub_spaces_from]. destruct (isspace x) eqn:Ex.
    + assert (Ha : a = [] -> true = false).
      { intros ->. rewrite (Hend [] x eq_refl) in Ex. discriminate. }
      destruct in_run; cbn [app]; rewrite (IH true rest Hend' Ha); reflexivity.
    + cbn [app]. rewrite (IH false rest Hend' (fun _ => eq_refl)). reflexivity.
Qed.

(** One maximal run of white space inside a string becomes one
    underscore. *)
Lemma re_sub_spaces_run (a ws b : pystr) :
  ws <> [] -> forallb isspace ws = true ->
  (forall a' c, a = a' ++ [c] -> isspace c = false) ->
  (forall c b', b = c :: b' -> isspace c = false) ->
  re_sub_spaces (a ++ ws ++ b) =
  re_sub_spaces a ++ "_"%char :: re_sub_spaces b.
Proof.
  intros Hne Hws Ha Hb. unfold re_sub_spaces.
  rewrite (re_sub_spaces_from_app a false (ws ++ b) Ha (fun _ => eq_refl)).
  f_equal. destruct ws as [| w ws]; [congruence |].
  cbn [forallb] in Hws. apply andb_prop in Hws. destruct Hws as [Hw Hws].
  cbn [app re_sub_spaces_from]. rewrite Hw. f_equal.
  apply re_sub_spaces_after_run; assumption.
Qed.

Lemma lstrip_by_spaces (sp : ascii -> bool) (ws s : pystr) :
  forallb sp ws = true -> lstrip_by sp (ws ++ s) = lstrip_by sp s.
Proof.
  induction ws as [| w ws IH]; cbn [app forallb lstrip_by]; [reflexivity |].
  intros H. apply andb_prop in H. destruct H as [-> H]. apply IH, H.
Qed.

Lemma forallb_rev {A : Type} (f : A -> bool) (l : list A) :
  forallb f (rev l) = forallb f l.
Proof.
  induction l as [| a l IH]; [reflexivity |].
  cbn [rev forallb]. rewrite forallb_app, IH. cbn. rewrite andb_true_r.
  apply andb_comm.
Qed.

Lemma lstrip_by_all (sp : ascii -> bool) (ws : pystr) :
  forallb sp ws = true -> lstrip_by sp ws = [].
Proof.
  intros H. rewrite <- (app_nil_r ws). rewrite lstrip_by_spaces by exact H.
  reflexivity.
Qed.

Lemma lstrip_by_app (sp : ascii -> bool) (s t : pystr) :
  lstrip_by sp (s ++ t) =
  if forallb sp s then lstrip_by sp t else lstrip_by sp s ++ t.
Proof.
  induction s as [| c s IH]; cbn [app forallb lstrip_by]; [reflexivity |].
  destruct (sp c); cbn [andb]; [exact IH | reflexivity].
Qed.

Lemma lstrip_by_split (sp : ascii -> bool) (s : pystr) :
  exists ws, s = ws ++ lstrip_by sp s /\ forallb sp ws = true.
Proof.
  induction s as [| c s (ws & IH & Hws)]; cbn [lstrip_by].
  - exists []. split; reflexivity.
  - destruct (sp c) eqn:E.
    + exists (c :: ws). cbn [app forallb]. rewrite E, Hws.
      split; [f_equal; exact IH | reflexivity].
    + exists []. split; reflexivity.
Qed.

(** A string is its stripped form between two runs of white space. *)
Lemma strip_by_split (sp : ascii -> bool) (s : pystr) :
  exists ws1 ws2,
    s = ws1 ++ strip_by sp s ++ ws2 /\
    forallb sp ws1 = true /\ forallb sp ws2 = true.
Proof.
  destruct (lstrip_by_split sp s) as (ws1 & H1 & Hws1).
  destruct (lstrip_by_split sp (rev (lstrip_by sp s))) as (ws & H2 & Hws).
  exists ws1, (rev ws). unfold strip_by. repeat split.
  - rewrite <- rev_app_distr, <- H2, rev_involutive. exact H1.
  - exact Hws1.
  - rewrite forallb_rev. exact Hws.
Qed.

(** White space around a string does not change its stripped form. *)
Lemma strip_by_around (sp : ascii -> bool) (ws1 s ws2 : pystr) :
  forallb sp ws1 = true -> forallb sp ws2 = true ->
  strip_by sp (ws1 ++ s ++ ws2) = strip_by sp s.
Proof.
  intros H1 H2. unfold strip_by.
  rewrite lstrip_by_spaces by exact H1.
  rewrite lstrip_by_app. destruct (forallb sp s) eqn:Hs.
  - rewrite (lstrip_by_all sp ws2 H2), (lstrip_by_all sp s Hs). reflexivity.
  - rewrite rev_app_distr, lstrip_by_spaces; [reflexivity |].
    rewrite forallb_rev. exact H2.
Qed.

Lemma firstn_In {A : Type} (n : nat) (l : list A) (a : A) :
  In a (firstn n l) -> In a l.
Proof.
  revert l. induction n as [| n IH]; intros [| x l]; cbn; try tauto.
  intros [-> | H]; [left; reflexivity | right; apply IH, H].
Qed.

(** C8 (the claim as it stands fails). A leading run of white space is not
    turned into an underscore but dropped: the sanitizer maps a space and
    the letter a to the letter a, whereas replacing, collapsing and cutting
    alone would give an underscore and the letter a. *)
Lemma safe_filename_drops_leading_space :
  safe_filename (txt " a") = txt "a" /\
  slice_to 200 (re_sub_spaces (re_sub_illegal (txt " a"))) = txt "_a".
Proof. split; reflexivity. Qed.

(** C8 (the claim as amended). For every string the sanitizer strips the
    white space around it, replaces each illegal character by an
    underscore, collapses each remaining run of white space to one
    underscore and keeps at most 200 characters; the result holds no
    illegal character and no white space, and has at most 200
    characters. *)
Theorem safe_filename_clean (s : pystr) :
  safe_filename s = slice_to 200 (re_sub_spaces (re_sub_illegal (strip s))) /\
  (forall ws1 ws2,
     forallb isspace ws1 = true -> forallb isspace ws2 = true ->
     safe_filename (ws1 ++ s ++ ws2) = safe_filename s) /\
  (forall c, In c illegal_chars ->
     re_sub_illegal [c] = ["_"%char]) /\
  (forall c, ~ In c illegal_chars -> re_sub_illegal [c] = [c]) /\
  (forall a ws b,
     ws <> [] -> forallb isspace ws = true ->
     (forall a' c, a = a' ++ [c] -> isspace c = false) ->
     (forall c b', b = c :: b' -> isspace c = false) ->
     re_sub_spaces (a ++ ws ++ b) =
     re_sub_spaces a ++ "_"%char :: re_sub_spaces b) /\
  (List.length (safe_filename s) <= 200)%nat /\
  (forall c, In c (safe_filename s) ->
     ~ In c illegal_chars /\ isspace c = false) /\
  safe_filename (txt "My/Sheet:1") = txt "My_Sheet_1".
Proof.
  assert (Hill : forall c, is_illegal c = true <-> In c illegal_chars).
  { intros c. unfold is_illegal. rewrite existsb_exists. split.
    - intros (x & Hx & E). apply Ascii.eqb_eq in E. subst. exact Hx.
    - intros H. exists c. split; [exact H | apply Ascii.eqb_refl]. }
  split; [reflexivity |].
  split.
  { intros ws1 ws2 H1 H2. unfold safe_filename, strip.
    rewrite strip_by_around by assumption. reflexivity. }
  split.
  { intros c Hc. apply Hill in Hc. unfold re_sub_illegal. cbn [map].
    rewrite Hc. reflexivity. }
  split.
  { intros c Hc. unfold re_sub_illegal. cbn [map].
    destruct (is_illegal c) eqn:E; [| reflexivity].
    apply Hill in E. contradiction. }
  split; [apply re_sub_spaces_run |].
  split.
  { unfold safe_filename, slice_to. rewrite length_firstn. lia. }
  split; [| reflexivity].
  intros c Hc. unfold safe_filename, slice_to in Hc.
  apply firstn_In in Hc. apply re_sub_spaces_from_chars in Hc.
  destruct Hc as [Hsp [-> | Hc]].
  - split; [| reflexivity]. intros H. apply Hill in H. discriminate.
  - split; [| exact Hsp]. apply re_sub_illegal_clean in Hc.
    intros H. apply Hill in H. congruence.
Qed.

Lemma safe_filename_clean_witness :
  In "_"%char (safe_filename (txt "a b")) /\
  ~ In "_"%char illegal_chars /\ isspace "_" = false.
Proof.
  assert (H : In "_"%char (safe_filename (txt "a b")))
    by (right; left; reflexivity).
  split; [exact H |].
  apply (proj1 (proj2 (proj2 (proj2 (proj2 (proj2 (proj2
           (safe_filename_clean (txt "a b"))))))))).
  exact H.
Defined.

(** ** Column resolution *)

Lemma filter_none {A : Type} (f g : A -> bool) (l : list A) :
  (forall a, g a = true -> f a = false) ->
  forallb g l = true -> filter f l = [].
Proof.
  intros Hfg. induction l as [| a l IH]; cbn [forallb filter]; [reflexivity |].
  intros H. apply andb_prop in H. destruct H as [Ha Hl].
  rewrite (Hfg a Ha). apply IH, Hl.
Qed.

(** Stripping before the characters outside a-z and 0-9 are removed
    changes nothing. *)
Lemma normalize_col_name_spec (h : pystr) :
  normalize_col_name h = spec_normalize h.
Proof.
  unfold normalize_col_name, spec_normalize, re_sub_non_alnum.
  destruct h as [| c h]; [reflexivity |]. cbn [truthy].
  destruct (strip_by_split isspace (lower (c :: h)))
    as (ws1 & ws2 & E & H1 & H2).
  fold (strip (lower (c :: h))) in E.
  rewrite E at 2. rewrite !filter_app.
  rewrite (filter_none _ isspace ws1 space_not_alnum H1).
  rewrite (filter_none _ isspace ws2 space_not_alnum H2).
  rewrite app_nil_r. reflexivity.
Qed.

Lemma starts_with_prefix (a s : pystr) :
  starts_with a s = true <-> exists post, s = a ++ post.
Proof.
  revert s. induction a as [| x a IH]; intros s.
  - cbn. split; [intros _; exists s; reflexivity | reflexivity].
  - destruct s as [| y s]; cbn [starts_with app].
    + split; [discriminate | intros [post H]; discriminate].
    + rewrite andb_true_iff, Ascii.eqb_eq, IH. split.
      * intros [-> [post ->]]. exists post. reflexivity.
      * intros [post [= -> ->]]. split; [reflexivity | exists post; reflexivity].
Qed.

(** [a in s] holds exactly when [a] occurs in [s]. *)
Lemma str_in_substring (a s : pystr) :
  str_in a s = true <-> substring a s.
Proof.
  unfold substring. induction s as [| y s IH].
  - cbn [str_in]. rewrite orb_false_r, starts_with_prefix. split.
    + intros [post H]. exists [], post. exact H.
    + intros (pre & post & H). destruct pre as [| p pre]; [| discriminate].
      exists post. exact H.
  - cbn [str_in]. rewrite orb_true_iff, starts_with_prefix, IH. split.
    + intros [[post H] | (pre & post & H)].
      * exists [], post. exact H.
      * exists (y :: pre), post. cbn [app]. f_equal. exact H.
    + intros (pre & post & H). destruct pre as [| p pre].
      * left. exists post. exact H.
      * right. injection H as _ H. exists pre, post. exact H.
Qed.

Lemma find_exact_first_item (aliases : list pystr) (items : dict pystr) :
  find_exact items aliases =
  first_item (fun norm => existsb (fun a => str_eqb norm a) aliases) items.
Proof.
  induction items as [| [k v] items IH]; cbn; [reflexivity |].
  rewrite IH. reflexivity.
Qed.

Lemma find_containing_first_item (aliases : list pystr) (items : dict pystr) :
  find_containing items aliases =
  first_item (fun norm => existsb (fun a => str_in a norm) aliases) items.
Proof.
  induction items as [| [k v] items IH]; cbn; [reflexivity |].
  rewrite IH. reflexivity.
Qed.

Lemma dict_set_normalized (d : dict pystr) (k : pystr) :
  normalized d -> normalized (dict_set d k (normalize_col_name k)).
Proof.
  unfold normalized. induction d as [| [k' v'] d IH]; intros Hd k0 v0;
    cbn [dict_set].
  - intros [[= <- <-] | []]. reflexivity.
  - destruct (str_eqb k' k) eqn:E.
    + apply str_eqb_eq in E. subst k'.
      intros [[= <- <-] | H]; [reflexivity |]. apply Hd. right. exact H.
    + intros [[= <- <-] | H]; [apply Hd; left; reflexivity |].
      apply IH; [| exact H]. intros k1 v1 H1. apply Hd. right. exact H1.
Qed.

(** Setting the entry of a column does not disturb a search that already
    succeeded, and adds the column at the end otherwise. *)
Lemma first_item_dict_set (test : pystr -> bool) (d : dict pystr) (k : pystr) :
  normalized d ->
  first_item test (dict_set d k (normalize_col_name k)) =
  match first_item test d with
  | Some c => Some c
  | None => if test (normalize_col_name k) then Some k else None
  end.
Proof.
  induction d as [| [k' v'] d IH]; intros Hd; cbn [dict_set first_item].
  - reflexivity.
  - assert (Hv : v' = normalize_col_name k') by (apply Hd; left; reflexivity).
    destruct (str_eqb k' k) eqn:E; cbn [first_item].
    + apply str_eqb_eq in E. subst k' v'.
      destruct (test (normalize_col_name k)) eqn:T; [reflexivity |].
      destruct (first_item test d); reflexivity.
    + destruct (test v'); [reflexivity |].
      apply IH. intros k0 v0 H0. apply Hd. right. exact H0.
Qed.

(** A search in the dict of the columns is a search in the list of the
    headers, in their order. *)
Lemma first_item_df_cols_norm (test : pystr -> bool) (headers : list pystr) :
  forall d,
    normalized d ->
    first_item test
      (fold_left (fun d orig => dict_set d orig (normalize_col_name orig))
                 headers d) =
    match first_item test d with
    | Some c => Some c
    | None => find (fun h => test (normalize_col_name h)) headers
    end.
Proof.
  induction headers as [| h headers IH]; intros d Hd; cbn [fold_left find].
  - destruct (first_item test d); reflexivity.
  - rewrite IH by (apply dict_set_normalized; exact Hd).
    rewrite first_item_dict_set by exact Hd.
    destruct (first_item test d); [reflexivity |].
    destruct (test (normalize_col_name h)); reflexivity.
Qed.

Lemma find_ext_in {A : Type} (f g : A -> bool) (l : list A) :
  (forall a, f a = g a) -> find f l = find g l.
Proof.
  intros H. induction l as [| a l IH]; cbn; [reflexivity |].
  rewrite H, IH. reflexivity.
Qed.

(** C7. For every list of headers and every list of aliases, column
    resolution returns the first header, in header order, whose normal form
    (lower case, characters outside a-z and 0-9 dropped) equals an alias;
    if there is none, the first header whose normal form holds an alias as
    a substring; if there is none, nothing.  The headers Roll No., ROLLNO
    and roll_no all have the normal form rollno, an alias of the roll
    number, and so resolve to it by an exact match. *)
Theorem find_column_spec (headers alias_list : list pystr) :
  find_column (df_cols_norm headers) alias_list =
    spec_find_column headers alias_list /\
  (forall h, normalize_col_name h = spec_normalize h) /\
  (forall a s, str_in a s = true <-> substring a s) /\
  (forall a s, str_eqb a s = true <-> a = s) /\
  (forall h,
     In h [txt "Roll No."; txt "ROLLNO"; txt "roll_no"] ->
     normalize_col_name h = txt "rollno" /\
     In (txt "rollno") (aliases roll_no) /\
     find_exact (df_cols_norm [h]) (aliases roll_no) = Some h /\
     col_map [h] roll_no = Some h).
Proof.
  split; [| split; [| split; [| split]]].
  - unfold find_column, spec_find_column, first_header, df_cols_norm.
    rewrite find_exact_first_item, find_containing_first_item.
    rewrite !first_item_df_cols_norm by (intros k v []).
    cbn [first_item].
    rewrite (find_ext_in
               (fun h => existsb (str_eqb (spec_normalize h)) alias_list)
               (fun h => existsb (fun a => str_eqb (normalize_col_name h) a)
                                 alias_list))
      by (intros h; rewrite normalize_col_name_spec; reflexivity).
    rewrite (find_ext_in
               (fun h => existsb (fun a => str_in a (spec_normalize h)) alias_list)
               (fun h => existsb (fun a => str_in a (normalize_col_name h))
                                 alias_list))
      by (intros h; rewrite normalize_col_name_spec; reflexivity).
    reflexivity.
  - apply normalize_col_name_spec.
  - apply str_in_substring.
  - apply str_eqb_eq.
  - intros h [<- | [<- | [<- | []]]]; repeat split;
      try (vm_compute; reflexivity); cbn; tauto.
Qed.

Lemma find_column_spec_witness :
  In (txt "ROLLNO") [txt "Roll No."; txt "ROLLNO"; txt "roll_no"] /\
  col_map [txt "ROLLNO"] roll_no = Some (txt "ROLLNO").
Proof.
  assert (H : In (txt "ROLLNO") [txt "Roll No."; txt "ROLLNO"; txt "roll_no"])
    by (right; left; reflexivity).
  split; [exact H |].
  apply (proj2 (proj2 (proj2 (proj2 (find_column_spec [] [])))) (txt "ROLLNO")).
  exact H.
Defined.

(** ** The class parser *)

Lemma decimal_char_facts (c : ascii) :
  is_decimal c = true ->
  Ascii.eqb c "_" = false /\ Ascii.eqb c "-" = false /\
  Ascii.eqb c "+" = false /\ number_space c = false.
Proof.
  each_char c; vm_compute; intros; repeat split; try reflexivity; discriminate.
Qed.

Lemma lower_char_superscript (c : ascii) :
  is_superscript (lower_char c) = is_superscript c.
Proof. each_char c; reflexivity. Qed.

Lemma lstrip_by_head (sp : ascii -> bool) (s : pystr) :
  forallb (fun c => negb (sp c)) s = true -> lstrip_by sp s = s.
Proof.
  destruct s as [| c s]; [reflexivity |]. cbn [forallb lstrip_by].
  intros H. apply andb_prop in H. destruct H as [H _].
  apply negb_true_iff in H. rewrite H. reflexivity.
Qed.

(** Text without white space is its own stripped form. *)
Lemma strip_by_none (sp : ascii -> bool) (s : pystr) :
  forallb (fun c => negb (sp c)) s = true -> strip_by sp s = s.
Proof.
  intros H. unfold strip_by. rewrite (lstrip_by_head sp s H).
  rewrite lstrip_by_head by (rewrite forallb_rev; exact H).
  apply rev_involutive.
Qed.

Lemma remove_underscores_decimal (s : pystr) :
  forall prev,
    Ascii.eqb prev "_" = false -> forallb is_decimal s = true ->
    remove_underscores prev s = Some s.
Proof.
  induction s as [| c s IH]; intros prev Hprev Hs; cbn [remove_underscores].
  - rewrite Hprev. reflexivity.
  - cbn [forallb] in Hs. apply andb_prop in Hs. destruct Hs as [Hc Hs].
    destruct (decimal_char_facts c Hc) as (Hu & _).
    rewrite Hu, Hprev. cbn [andb]. rewrite (IH c Hu Hs). reflexivity.
Qed.

(** [int] of a text of decimal digits is its value. *)
Lemma int_of_str_decimal (s : pystr) :
  decimal_text s = true -> int_of_str s = Ok (int_of_digits s).
Proof.
  intros H. unfold int_of_str.
  assert (Hs : forallb is_decimal s = true)
    by (destruct s; [discriminate | exact H]).
  rewrite strip_by_none.
  - rewrite remove_underscores_decimal by (reflexivity || exact Hs).
    destruct s as [| c s]; [discriminate |].
    pose proof Hs as Hc. cbn [forallb] in Hc. apply andb_prop in Hc.
    destruct (decimal_char_facts c (proj1 Hc)) as (_ & Hm & Hp & _).
    cbn [split_sign]. rewrite Hm, Hp, H. reflexivity.
  - eapply forallb_impl; [| exact Hs]. intros c Hc.
    destruct (decimal_char_facts c Hc) as (_ & _ & _ & ->). reflexivity.
Qed.

Lemma take_digits_decimal (s : pystr) :
  forallb is_decimal (take_digits s) = true.
Proof.
  induction s as [| c s IH]; [reflexivity |]. cbn [take_digits].
  destruct (is_decimal c) eqn:E; [| reflexivity].
  cbn [forallb]. rewrite E, IH. reflexivity.
Qed.

Lemma plain_lower (s : pystr) : plain (lower s) = plain s.
Proof.
  unfold plain, lower. induction s as [| c s IH]; [reflexivity |].
  cbn [map forallb]. rewrite lower_char_superscript, IH. reflexivity.
Qed.

Lemma plain_strip_lower (s : pystr) :
  plain s = true -> plain (lower (strip s)) = true.
Proof.
  intros H. rewrite plain_lower.
  destruct (strip_by_split isspace s) as (ws1 & ws2 & E & _ & _).
  fold (strip s) in E. rewrite E in H. rewrite !plain_app in H.
  apply andb_prop in H. destruct H as [_ H].
  apply andb_prop in H. apply H.
Qed.

(** Without a superscript digit, [str.isdigit] holds of the texts of
    decimal digits only. *)
Lemma isdigit_plain (t : pystr) :
  plain t = true -> isdigit t = decimal_text t.
Proof.
  destruct t as [| c t]; [reflexivity |]. unfold isdigit, decimal_text.
  generalize (c :: t). clear. intros s H.
  induction s as [| c s IH]; [reflexivity |].
  cbn [plain forallb] in *. apply andb_prop in H. destruct H as [Hc Hs].
  apply negb_true_iff in Hc. rewrite (IH Hs).
  destruct (is_digit c) eqn:Ed.
  - rewrite (plain_digit_decimal c Hc Ed). reflexivity.
  - rewrite (not_digit_not_decimal c Ed). reflexivity.
Qed.

Lemma first_digit_run_lower (s : pystr) :
  first_digit_run (lower s) = first_digit_run s.
Proof.
  unfold first_digit_run, lower.
  induction s as [| c s IH]; [reflexivity |].
  cbn [map lstrip_by]. destruct (lower_char_decimal c) as [E1 E2]. rewrite E1.
  destruct (is_decimal c) eqn:Ed; cbn [negb]; [| exact IH].
  rewrite (E2 eq_refl). cbn [take_digits]. rewrite Ed. f_equal.
  clear. induction s as [| c s IH]; [reflexivity |].
  cbn [map take_digits]. destruct (lower_char_decimal c) as [E1 E2]. rewrite E1.
  destruct (is_decimal c); [| reflexivity].
  rewrite (E2 eq_refl). f_equal. exact IH.
Qed.

Lemma has_decimal_lower (s : pystr) : has_decimal (lower s) = has_decimal s.
Proof.
  unfold has_decimal, lower. induction s as [| c s IH]; [reflexivity |].
  cbn [map existsb]. rewrite IH, (proj1 (lower_char_decimal c)). reflexivity.
Qed.

Lemma has_decimal_not_decimal (s : pystr) :
  has_decimal s = false <-> forallb not_decimal s = true.
Proof.
  unfold has_decimal, not_decimal. induction s as [| c s IH]; cbn; [tauto |].
  rewrite orb_false_iff, andb_true_iff, IH, negb_true_iff. tauto.
Qed.

Lemma take_digits_app_not_decimal (u ws : pystr) :
  forallb not_decimal ws = true -> take_digits (u ++ ws) = take_digits u.
Proof.
  intros H. induction u as [| c u IH]; cbn [app take_digits].
  - destruct ws as [| w ws]; [reflexivity |].
    cbn [forallb] in H. apply andb_prop in H. destruct H as [H _].
    unfold not_decimal in H. apply negb_true_iff in H.
    cbn [take_digits]. rewrite H. reflexivity.
  - destruct (is_decimal c); [f_equal; exact IH | reflexivity].
Qed.

Lemma take_digits_app_digits (run post : pystr) :
  forallb is_decimal run = true ->
  take_digits (run ++ post) = run ++ take_digits post.
Proof.
  induction run as [| c run IH]; cbn [app forallb take_digits]; [reflexivity |].
  intros H. apply andb_prop in H. destruct H as [-> H]. f_equal. apply IH, H.
Qed.

Lemma first_digit_run_around (ws1 s ws2 : pystr) :
  forallb not_decimal ws1 = true -> forallb not_decimal ws2 = true ->
  first_digit_run (ws1 ++ s ++ ws2) = first_digit_run s.
Proof.
  intros H1 H2. unfold first_digit_run. fold not_decimal.
  rewrite lstrip_by_spaces by exact H1.
  rewrite lstrip_by_app. destruct (forallb not_decimal s) eqn:Hs.
  - rewrite (lstrip_by_all _ ws2 H2), (lstrip_by_all _ s Hs). reflexivity.
  - apply take_digits_app_not_decimal, H2.
Qed.

(** Stripping and lower-casing leave the first run of digits as it is. *)
Lemma first_digit_run_strip_lower (s : pystr) :
  first_digit_run (lower (strip s)) = first_digit_run s.
Proof.
  rewrite first_digit_run_lower.
  destruct (strip_by_split isspace s) as (ws1 & ws2 & E & H1 & H2).
  fold (strip s) in E. rewrite E at 2. symmetry.
  apply first_digit_run_around;
    eapply forallb_impl; try eassumption; apply space_not_decimal.
Qed.

Lemma has_decimal_strip_lower (s : pystr) :
  has_decimal (lower (strip s)) = has_decimal s.
Proof.
  rewrite has_decimal_lower.
  destruct (strip_by_split isspace s) as (ws1 & ws2 & E & H1 & H2).
  fold (strip s) in E. rewrite E at 2. unfold has_decimal.
  rewrite !existsb_app.
  assert (Hws : forall ws, forallb isspace ws = true ->
                           existsb is_decimal ws = false).
  { intros ws H. apply has_decimal_not_decimal.
    eapply forallb_impl; try eassumption. apply space_not_decimal. }
  rewrite (Hws ws1 H1), (Hws ws2 H2), orb_false_r. reflexivity.
Qed.

Lemma first_digit_run_all_digits (t : pystr) :
  forallb is_decimal t = true -> first_digit_run t = t.
Proof.
  intros H. unfold first_digit_run. destruct t as [| c t]; [reflexivity |].
  cbn [forallb] in H. apply andb_prop in H. destruct H as [Hc Ht].
  cbn [lstrip_by]. rewrite Hc. cbn [negb].
  rewrite <- (app_nil_r (c :: t)) at 1.
  rewrite take_digits_app_digits by (cbn; rewrite Hc, Ht; reflexivity).
  apply app_nil_r.
Qed.

Lemma first_digit_run_none (t : pystr) :
  has_decimal t = false -> first_digit_run t = [].
Proof.
  intros H. apply has_decimal_not_decimal in H. unfold first_digit_run.
  fold not_decimal. rewrite (lstrip_by_all _ t H). reflexivity.
Qed.

Lemma decimal_text_forallb (t : pystr) :
  decimal_text t = true -> t <> [] /\ forallb is_decimal t = true.
Proof.
  destruct t as [| c t]; [discriminate |]. cbn [decimal_text].
  intros H. split; [discriminate | exact H].
Qed.

Lemma decimal_text_has_decimal (t : pystr) :
  decimal_text t = true -> has_decimal t = true.
Proof.
  intros H. apply decimal_text_forallb in H. destruct H as [Hne H].
  apply forallb_existsb_nonempty; assumption.
Qed.

Lemma first_digit_run_decimal_text (t : pystr) :
  has_decimal t = true -> decimal_text (first_digit_run t) = true.
Proof.
  intros H. unfold decimal_text.
  destruct (first_digit_run t) as [| d run] eqn:Er.
  - exfalso. unfold first_digit_run in Er. unfold has_decimal in H.
    induction t as [| c t IH]; [discriminate |].
    cbn [existsb lstrip_by] in *.
    destruct (is_decimal c) eqn:Ec; cbn [negb] in *.
    + cbn [take_digits] in Er. rewrite Ec in Er. discriminate.
    + apply IH; assumption.
  - rewrite <- Er. apply take_digits_decimal.
Qed.

(** The first run of digits of a string given as text without a digit,
    then digits, then text that does not begin with a digit. *)
Lemma first_digit_run_split (pre run post : pystr) :
  has_decimal pre = false -> decimal_text run = true ->
  (forall c post', post = c :: post' -> is_decimal c = false) ->
  first_digit_run (pre ++ run ++ post) = run.
Proof.
  intros Hpre Hrun Hpost. apply has_decimal_not_decimal in Hpre.
  apply decimal_text_forallb in Hrun. destruct Hrun as [Hne Hrun].
  unfold first_digit_run. fold not_decimal.
  rewrite lstrip_by_spaces by exact Hpre.
  destruct run as [| d run]; [congruence |].
  pose proof Hrun as Hrun'. cbn [forallb] in Hrun'.
  apply andb_prop in Hrun'. destruct Hrun' as [Hd _].
  cbn [app lstrip_by]. unfold not_decimal at 1. rewrite Hd. cbn [negb].
  change (d :: run ++ post) with ((d :: run) ++ post).
  rewrite take_digits_app_digits by exact Hrun.
  destruct post as [| c post']; cbn [take_digits].
  - apply app_nil_r.
  - rewrite (Hpost c post' eq_refl). apply app_nil_r.
Qed.

(** A string with a decimal digit and no superscript digit parses to the
    integer of its first run of digits. *)
Lemma parse_class_value_digits (s : pystr) :
  plain s = true -> has_decimal s = true ->
  parse_class_value (VStr s) = Ok (Some (int_of_digits (first_digit_run s))).
Proof.
  intros Hp H. unfold parse_class_value. cbn [pd_isna py_str].
  rewrite <- (first_digit_run_strip_lower s).
  rewrite <- has_decimal_strip_lower in H.
  apply plain_strip_lower in Hp.
  set (t := lower (strip s)) in *.
  rewrite (isdigit_plain t Hp).
  destruct (decimal_text t) eqn:Ed.
  - rewrite (int_of_str_decimal t Ed). cbn [bind].
    apply decimal_text_forallb in Ed. destruct Ed as [_ Ed].
    rewrite (first_digit_run_all_digits t Ed). reflexivity.
  - unfold re_search_digits. fold (first_digit_run t).
    pose proof (first_digit_run_decimal_text t H) as Hrun.
    destruct (first_digit_run t) as [| d run] eqn:Er; [discriminate |].
    rewrite (int_of_str_decimal _ Hrun). reflexivity.
Qed.

(** A string without a digit of either kind is looked up among the Roman
    numerals, then among the ordinal words. *)
Lemma parse_class_value_no_digit (s : pystr) :
  plain s = true -> has_decimal s = false ->
  parse_class_value (VStr s) =
  Ok match dict_get roman_map (lower (strip s)) with
     | Some n => Some n
     | None => dict_get words_map (lower (strip s))
     end.
Proof.
  intros Hp H. unfold parse_class_value. cbn [pd_isna py_str].
  rewrite <- has_decimal_strip_lower in H.
  apply plain_strip_lower in Hp.
  set (t := lower (strip s)) in *.
  rewrite (isdigit_plain t Hp).
  destruct (decimal_text t) eqn:Ed.
  - apply decimal_text_has_decimal in Ed. congruence.
  - unfold re_search_digits. fold (first_digit_run t).
    rewrite (first_digit_run_none t H).
    destruct (dict_get roman_map t); [reflexivity |].
    destruct (dict_get words_map t); reflexivity.
Qed.

Lemma dict_get_none {V : Type} (d : dict V) (k : pystr) :
  ~ In k (map fst d) -> dict_get d k = None.
Proof.
  induction d as [| [k' v] d IH]; cbn [map fst In dict_get]; [reflexivity |].
  intros H. destruct (str_eqb k' k) eqn:E.
  - apply str_eqb_eq in E. tauto.
  - apply IH. tauto.
Qed.

(** C4 (the code departs from the claim). The digit one followed by the
    superscript two holds the run of digits 1, and is all digits for
    [str.isdigit]: the parser calls [int] on the whole string, which raises
    [ValueError], instead of answering 1.  For the strings without a
    superscript digit the claim holds: a missing value is unknown; a string
    of digits is its integer; a string with a run of digits is the integer
    of its first run, whatever else it holds, so that the digits are tried
    before the Roman numerals and the words; a string without a digit
    that is, stripped and in lower case, one of the Roman numerals i to xii
    or one of the words first to twelfth is 1 to 12; any other string is
    unknown. *)
Theorem parse_class_value_chain :
  (isdigit (txt "1" ++ [superscript_two]) = true /\
   first_digit_run (txt "1" ++ [superscript_two]) = txt "1" /\
   parse_class_value (VStr (txt "1" ++ [superscript_two])) = Raise ValueError) /\
  (forall v, pd_isna v = true -> parse_class_value v = Ok None) /\
  (forall v, pd_isna v = false ->
     parse_class_value v = parse_class_value (VStr (py_str v))) /\
  (forall s, decimal_text s = true ->
     parse_class_value (VStr s) = Ok (Some (int_of_digits s))) /\
  (forall pre run post,
     plain (pre ++ run ++ post) = true ->
     has_decimal pre = false -> decimal_text run = true ->
     (forall c post', post = c :: post' -> is_decimal c = false) ->
     parse_class_value (VStr (pre ++ run ++ post))
     = Ok (Some (int_of_digits run))) /\
  Forall (fun '(numeral, n) =>
            forall s, lower (strip s) = txt numeral ->
                      parse_class_value (VStr s) = Ok (Some n))
         [("i", 1); ("ii", 2); ("iii", 3); ("iv", 4); ("v", 5); ("vi", 6);
          ("vii", 7); ("viii", 8); ("ix", 9); ("x", 10); ("xi", 11);
          ("xii", 12)] /\
  Forall (fun '(word, n) =>
            forall s, lower (strip s) = txt word ->
                      parse_class_value (VStr s) = Ok (Some n))
         [("first", 1); ("second", 2); ("third", 3); ("fourth", 4);
          ("fifth", 5); ("sixth", 6); ("seventh", 7); ("eighth", 8);
          ("ninth", 9); ("tenth", 10); ("eleventh", 11); ("twelfth", 12)] /\
  (forall s,
     plain s = true -> has_decimal s = false ->
     ~ In (lower (strip s))
          (map txt ["i"; "ii"; "iii"; "iv"; "v"; "vi"; "vii"; "viii"; "ix";
                    "x"; "xi"; "xii"; "first"; "second"; "third"; "fourth";
                    "fifth"; "sixth"; "seventh"; "eighth"; "ninth"; "tenth";
                    "eleventh"; "twelfth"]) ->
     parse_class_value (VStr s) = Ok None) /\
  parse_class_value (VStr (txt "Class 7B")) = Ok (Some 7) /\
  parse_class_value (VStr (txt "VII")) = Ok (Some 7) /\
  parse_class_value (VStr (txt "seventh")) = Ok (Some 7) /\
  parse_class_value (VStr (txt "")) = Ok None.
Proof.
  split; [| split; [| split; [| split; [| split; [| split; [| split;
    [| split]]]]]]].
  - repeat split; reflexivity.
  - intros v H. unfold parse_class_value. rewrite H. reflexivity.
  - intros v H. unfold parse_class_value. rewrite H. reflexivity.
  - intros s H.
    pose proof (decimal_text_forallb s H) as [_ Hs].
    rewrite parse_class_value_digits.
    + rewrite (first_digit_run_all_digits s Hs). reflexivity.
    + apply decimals_plain, Hs.
    + apply decimal_text_has_decimal, H.
  - intros pre run post Hp Hpre Hrun Hpost.
    rewrite parse_class_value_digits.
    + rewrite first_digit_run_split by assumption. reflexivity.
    + exact Hp.
    + unfold has_decimal. rewrite !existsb_app.
      apply decimal_text_has_decimal in Hrun. unfold has_decimal in Hrun.
      rewrite Hrun. apply orb_true_iff. right. reflexivity.
  - repeat constructor; intros s H; unfold parse_class_value;
      cbn [pd_isna py_str]; rewrite H; reflexivity.
  - repeat constructor; intros s H; unfold parse_class_value;
      cbn [pd_isna py_str]; rewrite H; reflexivity.
  - intros s Hp Hd Hnot. rewrite parse_class_value_no_digit by assumption.
    rewrite !dict_get_none; [reflexivity | |];
      intros Hin; apply Hnot; cbn [map fst roman_map words_map In] in *;
      tauto.
  - repeat split; reflexivity.
Qed.

Lemma parse_class_value_chain_witness :
  decimal_text (txt "12") = true /\
  parse_class_value (VStr (txt "12")) = Ok (Some (int_of_digits (txt "12"))).
Proof.
  split; [reflexivity |].
  apply (proj1 (proj2 (proj2 (proj2 parse_class_value_chain))) (txt "12")).
  reflexivity.
Defined.

(** ** The archive *)

Lemma draw_digits_from_ok (roll : pystr) :
  forall c xs y i,
    (i + List.length roll <= List.length xs)%nat ->
    exists c', draw_digits_from c xs y i roll = Ok c'.
Proof.
  induction roll as [| ch rest IH]; intros c xs y i Hlen;
    cbn [draw_digits_from List.length] in *.
  - eexists. reflexivity.
  - unfold index. destruct (nth_error xs i) as [x |] eqn:E.
    + cbn [bind]. apply IH. lia.
    + apply nth_error_None in E. lia.
Qed.

Lemma draw_roll_number_text_ok (c : canvas) (roll : pystr) (t : variant) :
  (List.length roll <= 3)%nat ->
  exists c', draw_roll_number_text c roll t = Ok c'.
Proof.
  intros Hlen. pose proof (zfill_short_length 3 roll Hlen) as Hz.
  unfold draw_roll_number_text.
  destruct t; cbn [index nth_error bind MASTER_BUBBLE_Y_TOP_CM
                   CHILD_BUBBLE_Y_TOP_CM];
    apply draw_digits_from_ok; rewrite Hz; cbn; lia.
Qed.

Lemma draw_row_ok (fs : files) (cols : list pystr) (c : canvas)
  (row : list pyval) :
  templates_ready fs -> row_fits cols row ->
  exists c', draw_row fs cols c row = Ok c'.
Proof.
  intros Hfs (roll & parsed_class & Hroll & Hlen & Hplain & Hclass).
  unfold draw_row. rewrite Hroll. cbn [bind]. rewrite Hclass. cbn [bind].
  set (t := template_type parsed_class).
  rewrite (proj2 (Hfs t)). cbn [bind].
  assert (Hfill : forall c0, match t with
                             | Child => fill_roll_bubbles_child c0 roll
                             | Master => fill_roll_bubbles_master c0 roll
                             end = fill_roll_bubbles t c0 roll)
    by (intros; destruct t; reflexivity).
  rewrite Hfill.
  rewrite (fill_roll_bubbles_three t _ roll Hlen Hplain). cbn [bind].
  destruct (draw_roll_number_text_ok
              ((c ++ [DrawImage t]) ++ bubbles t roll) roll t) as [c2 H2];
    [lia |].
  rewrite H2. cbn [bind]. eexists. reflexivity.
Qed.

Lemma draw_rows_ok (fs : files) (cols : list pystr) (rs : list (list pyval)) :
  templates_ready fs ->
  (forall row, In row rs -> row_fits cols row) ->
  forall c, exists c', draw_rows fs cols c rs = Ok c'.
Proof.
  intros Hfs. induction rs as [| row rest IH]; intros Hrows c;
    cbn [draw_rows].
  - eexists. reflexivity.
  - destruct (draw_row_ok fs cols c row Hfs (Hrows row (or_introl eq_refl)))
      as [c1 H1].
    rewrite H1. cbn [bind]. apply IH.
    intros r Hr. apply Hrows. right. exact Hr.
Qed.

Lemma write_sheets_ok (fs : files) (sheets : list sheet) :
  templates_ready fs -> rows_fit sheets ->
  forall zipf, exists arch, write_sheets fs zipf sheets = Ok arch.
Proof.
  intros Hfs. induction sheets as [| sh rest IH]; intros Hfit zipf;
    cbn [write_sheets].
  - eexists. reflexivity.
  - destruct (draw_rows_ok fs (columns sh) (rows sh) Hfs) with (c := @nil op)
      as [pdf Hpdf].
    { intros row Hrow. apply (Hfit sh row); [left; reflexivity | exact Hrow]. }
    rewrite Hpdf. cbn [bind]. apply IH.
    intros sh' row Hsh Hrow. apply (Hfit sh' row); [right |]; assumption.
Qed.

(** The entries written by the loop over the sheets: one per sheet, after
    those already in the archive, under the name of the sheet. *)
Lemma write_sheets_names (fs : files) (sheets : list sheet) :
  forall zipf arch,
    write_sheets fs zipf sheets = Ok arch ->
    map fst arch = map fst zipf ++ map entry_name sheets.
Proof.
  induction sheets as [| sh rest IH]; intros zipf arch; cbn [write_sheets].
  - intros [= <-]. cbn [map]. symmetry. apply app_nil_r.
  - destruct (draw_rows fs (columns sh) [] (rows sh)) as [pdf | e];
      cbn [bind]; [| discriminate].
    intros H. apply IH in H. rewrite H, map_app, <- app_assoc. reflexivity.
Qed.

Lemma NoDup_map_suffix (suffix : pystr) (names : list pystr) :
  NoDup names -> NoDup (map (fun n => n ++ suffix) names).
Proof.
  induction 1 as [| n names Hn Hnames IH]; cbn [map]; constructor.
  - rewrite in_map_iff. intros (m & E & Hm).
    apply app_inv_tail in E. subst m. contradiction.
  - exact IH.
Qed.

(** C3 (the claim as it stands fails). The sheets named a b and a_b have
    distinct names and the same sanitized name: the archive gets two
    entries called a_b.pdf. *)
Lemma archive_names_collide :
  let fs := {| template_exists := fun _ => true;
               template_loads := fun _ => true |} in
  let sheets := [ {| sheet_name := txt "a b"; columns := []; rows := [] |};
                  {| sheet_name := txt "a_b"; columns := []; rows := [] |} ] in
  NoDup (map sheet_name sheets) /\
  generate fs sheets = Ok [(txt "a_b.pdf", []); (txt "a_b.pdf", [])] /\
  ~ NoDup (map fst [(txt "a_b.pdf", @nil op); (txt "a_b.pdf", [])]).
Proof.
  cbv zeta. split; [| split].
  - repeat constructor; cbn; intros H; repeat destruct H as [H | H];
      try discriminate; exact H.
  - reflexivity.
  - intros H. inversion H as [| x l Hin _]. apply Hin. left. reflexivity.
Qed.

(** C3 (the claim as amended). Whenever the generation completes, the
    archive holds exactly one entry per sheet, in the order of the sheets,
    named by the sanitized sheet name followed by .pdf, and these names
    are pairwise distinct whenever the sanitized sheet names are.  The
    generation completes when both templates are there and load and, in
    every row, the roll number normalizes to three characters without a
    superscript digit and the class is parsed without an error. *)
Theorem archive_entries (fs : files) (sheets : list sheet) :
  (forall arch,
     generate fs sheets = Ok arch ->
     map fst arch =
       map (fun sh => safe_filename (sheet_name sh) ++ txt ".pdf") sheets /\
     List.length arch = List.length sheets /\
     (NoDup (map (fun sh => safe_filename (sheet_name sh)) sheets) ->
      NoDup (map fst arch))) /\
  (templates_ready fs -> rows_fit sheets ->
   exists arch, generate fs sheets = Ok arch).
Proof.
  split.
  - intros arch H. unfold generate in H.
    destruct (negb (template_exists fs Child) || negb (template_exists fs Master));
      [discriminate |].
    apply write_sheets_names in H. cbn [map app] in H.
    split; [exact H | split].
    + apply (f_equal (@List.length pystr)) in H.
      rewrite !length_map in H. exact H.
    + intros Hnd. rewrite H.
      rewrite <- (map_map (fun sh => safe_filename (sheet_name sh))
                          (fun n => n ++ txt ".pdf")).
      apply NoDup_map_suffix, Hnd.
  - intros Hfs Hfit. unfold generate.
    rewrite (proj1 (Hfs Child)), (proj1 (Hfs Master)). cbn [negb orb].
    apply write_sheets_ok; assumption.
Qed.

Lemma archive_entries_witness :
  let fs := {| template_exists := fun _ => true;
               template_loads := fun _ => true |} in
  let sheets :=
    [ {| sheet_name := txt "Class 1";
         columns := [txt "Roll No."; txt "Class"];
         rows := [[VInt 7; VStr (txt "2")]; [VStr (txt "12.0"); VStr (txt "X")]] |} ] in
  templates_ready fs /\ rows_fit sheets /\
  exists arch, generate fs sheets = Ok arch /\
               map fst arch = [txt "Class_1.pdf"].
Proof.
  cbv zeta.
  assert (Hfs : templates_ready {| template_exists := fun _ => true;
                                   template_loads := fun _ => true |})
    by (intros v; split; reflexivity).
  assert (Hfit : rows_fit
            [ {| sheet_name := txt "Class 1";
                 columns := [txt "Roll No."; txt "Class"];
                 rows := [[VInt 7; VStr (txt "2")];
                          [VStr (txt "12.0"); VStr (txt "X")]] |} ]).
  { intros sh row [<- | []] [<- | [<- | []]]; eexists; eexists;
      repeat split; vm_compute; reflexivity. }
  split; [exact Hfs | split; [exact Hfit |]].
  destruct (proj2 (archive_entries _ _) Hfs Hfit) as [arch Harch].
  exists arch. split; [exact Harch |].
  apply (proj1 (archive_entries _ _) arch Harch).
Defined.

(** * Further properties *)

(** ** The roll normalizer: blank cells and errors *)







(** ** The roll number written above the bubbles *)

Lemma draw_digits_from_spec (roll : pystr) :
  forall c xs y i,
    (i + List.length roll <= List.length xs)%nat ->
    draw_digits_from c xs y i roll = Ok (c ++ overlay_from xs y i roll).
Proof.
  induction roll as [| ch rest IH]; intros c xs y i Hlen.
  - cbn. rewrite app_nil_r. reflexivity.
  - cbn [draw_digits_from overlay_from List.length] in *.
    unfold index.
    destruct (nth_error xs i) as [x_cm |] eqn:Hx.
    + cbn [bind]. rewrite IH by lia. rewrite <- app_assoc. reflexivity.
    + apply nth_error_None in Hx. lia.
Qed.

Lemma draw_digits_from_beyond (roll : pystr) :
  forall c xs y i,
    roll <> [] -> (List.length xs < i + List.length roll)%nat ->
    draw_digits_from c xs y i roll = Raise IndexError.
Proof.
  induction roll as [| ch rest IH]; intros c xs y i Hne Hlen; [congruence |].
  cbn [draw_digits_from List.length] in *. unfold index.
  destruct (nth_error xs i) as [x_cm |] eqn:Hx; [| reflexivity].
  cbn [bind].
  assert (Hi : (i < List.length xs)%nat)
    by (apply nth_error_Some; congruence).
  apply IH; [| lia].
  destruct rest; [cbn in Hlen; lia | discriminate].
Qed.

Lemma draw_roll_number_text_closed (c : canvas) (roll : pystr) (t : variant) :
  draw_roll_number_text c roll t =
  if (List.length roll <=? 3)%nat then Ok (c ++ overlay t (zfill 3 roll))
  else Raise IndexError.
Proof.
  unfold draw_roll_number_text, overlay.
  destruct (List.length roll <=? 3)%nat eqn:Hlen.
  - apply Nat.leb_le in Hlen.
    pose proof (zfill_short_length 3 roll Hlen) as Hz.
    destruct t; cbn [index nth_error MASTER_BUBBLE_Y_TOP_CM
                     CHILD_BUBBLE_Y_TOP_CM bind];
      rewrite draw_digits_from_spec by (rewrite Hz; cbn; lia);
      rewrite <- app_assoc; reflexivity.
  - apply Nat.leb_gt in Hlen.
    assert (Hz : zfill 3 roll = roll) by (apply zfill_id; lia).
    rewrite Hz.
    destruct t; cbn [index nth_error MASTER_BUBBLE_Y_TOP_CM
                     CHILD_BUBBLE_Y_TOP_CM bind];
      apply draw_digits_from_beyond;
      try (destruct roll; [cbn in Hlen; lia | discriminate]);
      cbn; lia.
Qed.

(** X2. The roll number is written above the bubbles character by
    character, digit or not, each centred on the x-position of its bubble
    column and all at one height; a roll string of more than three
    characters raises [IndexError], also one without any digit, which the
    filling functions accept. *)
Theorem draw_roll_number_text_spec (c : canvas) (roll : pystr) (t : variant) :
  draw_roll_number_text c roll t =
    (if (List.length roll <=? 3)%nat then Ok (c ++ overlay t (zfill 3 roll))
     else Raise IndexError) /\
  (forall a b d,
     exists x0 x1 x2,
       roll_x_cm (layout_of t) = [x0; x1; x2] /\
       overlay t [a; b; d] =
       [SetFont "Helvetica-Bold" 14; SetFillColorBlack;
        DrawCentredString (bubble_x x0) (text_y t) [a];
        DrawCentredString (bubble_x x1) (text_y t) [b];
        DrawCentredString (bubble_x x2) (text_y t) [d]]) /\
  (fill_roll_bubbles t c (txt "abcd") = Ok c /\
   draw_roll_number_text c (txt "abcd") t = Raise IndexError).
Proof.
  split; [apply draw_roll_number_text_closed |]. split.
  - intros a b d. destruct t; do 3 eexists; split; reflexivity.
  - split.
    + rewrite fill_roll_bubbles_spec. cbn. rewrite app_nil_r. reflexivity.
    + rewrite draw_roll_number_text_closed. reflexivity.
Qed.

(** ** Pages, PDFs and the archive *)

Lemma roll_error_superscript (roll : pystr) :
  forall i,
    plain roll = false -> (i + List.length roll <= 3)%nat ->
    roll_error i roll = Some ValueError.
Proof.
  induction roll as [| ch rest IH]; intros i Hp Hlen; [discriminate |].
  cbn [plain forallb roll_error List.length] in *.
  destruct (is_superscript ch) eqn:Hs; [reflexivity |].
  cbn [negb andb] in Hp.
  replace (3 <=? i)%nat with false by (symmetry; apply Nat.leb_gt; lia).
  rewrite andb_false_r. apply IH; [exact Hp | lia].
Qed.

Lemma draw_row_closed (fs : files) (cols : list pystr) (c : canvas)
  (row : list pyval) :
  draw_row fs cols c row =
  (roll <- format_roll_value (cell cols row roll_no) ;;
   parsed_class <- parse_class_value (cell cols row class) ;;
   let t := template_type parsed_class in
   if negb (template_loads fs t) then Raise StopException
   else match roll_error 0 (zfill 3 roll) with
        | Some e => Raise e
        | None =>
            if (List.length roll <=? 3)%nat
            then Ok (c ++ page t (zfill 3 roll) (table_data cols row))
            else Raise IndexError
        end).
Proof.
  unfold draw_row.
  destruct (format_roll_value (cell cols row roll_no)) as [roll | e];
    [| reflexivity].
  cbn [bind].
  destruct (parse_class_value (cell cols row class)) as [parsed_class | e];
    [| reflexivity].
  cbn [bind]. cbv zeta.
  destruct (template_loads fs (template_type parsed_class));
    [| reflexivity].
  cbn [bind negb].
  change (match template_type parsed_class with
          | Master => fill_roll_bubbles_master
                        (c ++ [DrawImage (template_type parsed_class)]) roll
          | Child => fill_roll_bubbles_child
                       (c ++ [DrawImage (template_type parsed_class)]) roll
          end)
    with (fill_roll_bubbles (template_type parsed_class)
            (c ++ [DrawImage (template_type parsed_class)]) roll).
  rewrite fill_roll_bubbles_spec.
  destruct (roll_error 0 (zfill 3 roll)); [reflexivity |].
  cbn [bind]. rewrite draw_roll_number_text_closed.
  destruct (List.length roll <=? 3)%nat; [| reflexivity].
  cbn [bind]. unfold page, table_data.
  repeat rewrite <- app_assoc. reflexivity.
Qed.

Lemma draw_row_on_canvas (fs : files) (cols : list pystr) (c : canvas)
  (row : list pyval) :
  draw_row fs cols c row =
  match draw_row fs cols [] row with
  | Ok p => Ok (c ++ p)
  | Raise e => Raise e
  end.
Proof.
  rewrite !draw_row_closed.
  destruct (format_roll_value (cell cols row roll_no)) as [roll | e];
    [| reflexivity].
  cbn [bind].
  destruct (parse_class_value (cell cols row class)) as [parsed_class | e];
    [| reflexivity].
  cbn [bind]. cbv zeta.
  destruct (negb (template_loads fs (template_type parsed_class)));
    [reflexivity |].
  destruct (roll_error 0 (zfill 3 roll)); [reflexivity |].
  destruct (List.length roll <=? 3)%nat; reflexivity.
Qed.

(** X3. A row gives a page exactly when its roll number normalizes to
    three characters without a superscript digit, its class is parsed
    without an error and the template of its class can be loaded; the page
    is then the template, the bubbles of the roll, the roll written above
    them, the table and one page break, in this order, after all that was
    on the canvas before. *)
Theorem draw_row_page (fs : files) (cols : list pystr) (c c' : canvas)
  (row : list pyval) :
  draw_row fs cols c row = Ok c' <->
  exists roll parsed_class,
    format_roll_value (cell cols row roll_no) = Ok roll /\
    parse_class_value (cell cols row class) = Ok parsed_class /\
    template_loads fs (template_type parsed_class) = true /\
    List.length roll = 3%nat /\ plain roll = true /\
    c' = c ++ page (template_type parsed_class) roll (table_data cols row).
Proof.
  rewrite draw_row_closed. split.
  - destruct (format_roll_value (cell cols row roll_no)) as [roll | e] eqn:Hr;
      [| discriminate].
    cbn [bind].
    destruct (parse_class_value (cell cols row class)) as [pc | e] eqn:Hc;
      [| discriminate].
    cbn [bind]. cbv zeta.
    destruct (template_loads fs (template_type pc)) eqn:Hl; [| discriminate].
    cbn [negb].
    destruct (roll_error 0 (zfill 3 roll)) as [e |] eqn:He; [discriminate |].
    destruct (List.length roll <=? 3)%nat eqn:Hlen; [| discriminate].
    apply Nat.leb_le in Hlen.
    pose proof (format_roll_value_length _ _ Hr) as Hge.
    assert (H3 : List.length roll = 3%nat) by lia.
    assert (Hz : zfill 3 roll = roll) by (apply zfill_id; lia).
    rewrite Hz in *. intros [= <-].
    exists roll, pc. repeat split; try assumption.
    destruct (plain roll) eqn:Hp; [reflexivity |].
    rewrite (roll_error_superscript roll 0 Hp) in He by (cbn; lia).
    discriminate.
  - intros (roll & pc & Hr & Hc & Hl & H3 & Hp & ->).
    rewrite Hr, Hc. cbn [bind]. cbv zeta. rewrite Hl. cbn [negb].
    assert (Hz : zfill 3 roll = roll) by (apply zfill_id; lia).
    rewrite Hz, (roll_error_plain roll 0 Hp). cbn [Nat.sub].
    rewrite skipn_all2 by lia. cbn [existsb].
    rewrite H3. reflexivity.
Qed.

Lemma draw_rows_on_canvas (fs : files) (cols : list pystr)
  (rs : list (list pyval)) :
  forall c,
    draw_rows fs cols c rs =
    match draw_rows fs cols [] rs with
    | Ok p => Ok (c ++ p)
    | Raise e => Raise e
    end.
Proof.
  induction rs as [| row rest IH]; intros c.
  - cbn. rewrite app_nil_r. reflexivity.
  - cbn [draw_rows]. rewrite (draw_row_on_canvas fs cols c row).
    destruct (draw_row fs cols [] row) as [p | e]; [| reflexivity].
    cbn [bind]. rewrite (IH (c ++ p)), (IH p).
    destruct (draw_rows fs cols [] rest) as [q | e]; [| reflexivity].
    rewrite app_assoc. reflexivity.
Qed.

(** X4. The pages of a sheet do not depend on one another: the PDF of a
    sheet is the pages of its rows, each as it is drawn on an empty
    canvas, one after the other in the order of the rows; and the first
    row that raises, raises for the whole sheet. *)
Theorem draw_rows_concat (fs : files) (cols : list pystr)
  (rs : list (list pyval)) (c : canvas) :
  (forall c',
     draw_rows fs cols c rs = Ok c' <->
     exists ps,
       Forall2 (fun row p => draw_row fs cols [] row = Ok p) rs ps /\
       c' = c ++ List.concat ps) /\
  (forall done row rest e,
     rs = done ++ row :: rest ->
     (forall r, In r done -> exists p, draw_row fs cols [] r = Ok p) ->
     draw_row fs cols [] row = Raise e ->
     draw_rows fs cols c rs = Raise e).
Proof.
  split.
  - revert c. induction rs as [| row rest IH]; intros c c'.
    + cbn. split.
      * intros [= <-]. exists []. split; [constructor |].
        cbn. rewrite app_nil_r. reflexivity.
      * intros (ps & HF & ->). inversion HF; subst. cbn.
        rewrite app_nil_r. reflexivity.
    + cbn [draw_rows]. rewrite (draw_row_on_canvas fs cols c row). split.
      * destruct (draw_row fs cols [] row) as [p | e] eqn:Hp; [| discriminate].
        cbn [bind]. intros H. apply IH in H. destruct H as (ps & HF & ->).
        exists (p :: ps). split; [constructor; assumption |].
        cbn [List.concat]. rewrite !app_assoc. reflexivity.
      * intros (ps & HF & ->). inversion HF as [| r p rs' ps' Hp HF']; subst.
        rewrite Hp. cbn [bind]. apply IH. exists ps'. split; [assumption |].
        cbn [List.concat]. rewrite !app_assoc. reflexivity.
  - intros done. revert c rs.
    induction done as [| r done IH]; intros c rs row rest e -> Hdone Hrow.
    + cbn [app draw_rows]. rewrite (draw_row_on_canvas fs cols c row), Hrow.
      reflexivity.
    + cbn [app draw_rows]. rewrite (draw_row_on_canvas fs cols c r).
      destruct (Hdone r (or_introl eq_refl)) as [p Hp]. rewrite Hp.
      cbn [bind]. apply (IH (c ++ p) _ row rest e eq_refl); [| assumption].
      intros r' Hr'. apply Hdone. right. assumption.
Qed.

Lemma draw_rows_concat_witness :
  let fs := {| template_exists := fun _ => true;
               template_loads := fun _ => true |} in
  draw_rows fs [txt "Roll No"] [] [[VInt 7]; [VInt 1000]; [VInt 8]]
  = Raise IndexError.
Proof.
  intros fs.
  apply (proj2 (draw_rows_concat fs [txt "Roll No"]
                  [[VInt 7]; [VInt 1000]; [VInt 8]] [])
               [[VInt 7]] [VInt 1000] [[VInt 8]] IndexError eq_refl).
  - intros r [<- | []]. eexists. vm_compute. reflexivity.
  - vm_compute. reflexivity.
Defined.

Lemma pages_app (a b : canvas) : pages (a ++ b) = (pages a + pages b)%nat.
Proof. unfold pages. rewrite filter_app, length_app. reflexivity. Qed.

Lemma bubbles_from_no_break (v : variant) (roll : pystr) :
  forall i, pages (bubbles_from v i roll) = 0%nat.
Proof.
  induction roll as [| ch rest IH]; intros i; [reflexivity |].
  cbn [bubbles_from]. rewrite pages_app, IH. unfold bubble.
  destruct (is_decimal ch); [| reflexivity].
  destruct (nth_error (roll_x_cm (layout_of v)) i); [| reflexivity].
  destruct (nth_error (bubble_y_top_cm (layout_of v)) i); reflexivity.
Qed.

Lemma overlay_from_no_break (xs : list float) (y : float) (roll : pystr) :
  forall i, pages (overlay_from xs y i roll) = 0%nat.
Proof.
  induction roll as [| ch rest IH]; intros i; [reflexivity |].
  cbn [overlay_from]. rewrite pages_app, IH.
  destruct (nth_error xs i); reflexivity.
Qed.

Lemma page_one_break (v : variant) (roll : pystr) (data : list pystr) :
  pages (page v roll data) = 1%nat.
Proof.
  unfold page, overlay, bubbles.
  change (DrawImage v :: ?l) with ([DrawImage v] ++ l).
  rewrite !pages_app, bubbles_from_no_break, overlay_from_no_break.
  reflexivity.
Qed.

Lemma draw_row_one_break (fs : files) (cols : list pystr) (row : list pyval)
  (p : canvas) :
  draw_row fs cols [] row = Ok p -> pages p = 1%nat.
Proof.
  rewrite draw_row_closed.
  destruct (format_roll_value (cell cols row roll_no)) as [roll | e];
    [| discriminate].
  cbn [bind].
  destruct (parse_class_value (cell cols row class)) as [pc | e];
    [| discriminate].
  cbn [bind]. cbv zeta.
  destruct (negb (template_loads fs (template_type pc))); [discriminate |].
  destruct (roll_error 0 (zfill 3 roll)); [discriminate |].
  destruct (List.length roll <=? 3)%nat; [| discriminate].
  intros [= <-]. apply page_one_break.
Qed.

Lemma draw_rows_breaks (fs : files) (cols : list pystr)
  (rs : list (list pyval)) :
  forall c c',
    draw_rows fs cols c rs = Ok c' ->
    pages c' = (pages c + List.length rs)%nat.
Proof.
  induction rs as [| row rest IH]; intros c c'.
  - cbn. intros [= <-]. lia.
  - cbn [draw_rows List.length]. rewrite (draw_row_on_canvas fs cols c row).
    destruct (draw_row fs cols [] row) as [p | e] eqn:Hp; [| discriminate].
    cbn [bind]. intros H. apply IH in H.
    rewrite H, pages_app, (draw_row_one_break _ _ _ _ Hp). lia.
Qed.

Lemma draw_rows_every_row (fs : files) (cols : list pystr)
  (rs : list (list pyval)) :
  forall c c',
    draw_rows fs cols c rs = Ok c' ->
    forall row, In row rs -> exists p, draw_row fs cols [] row = Ok p.
Proof.
  induction rs as [| r rest IH]; intros c c' H row Hin; [destruct Hin |].
  cbn [draw_rows] in H. rewrite (draw_row_on_canvas fs cols c r) in H.
  destruct (draw_row fs cols [] r) as [p | e] eqn:Hp; [| discriminate].
  cbn [bind] in H. destruct Hin as [<- | Hin].
  - exists p. exact Hp.
  - exact (IH _ _ H row Hin).
Qed.

Lemma write_sheets_closed (fs : files) (sheets : list sheet) :
  forall zipf arch,
    write_sheets fs zipf sheets = Ok arch <->
    exists entries,
      Forall2 (fun sh entry =>
                 fst entry = entry_name sh /\
                 draw_rows fs (columns sh) [] (rows sh) = Ok (snd entry))
              sheets entries /\
      arch = zipf ++ entries.
Proof.
  induction sheets as [| sh rest IH]; intros zipf arch.
  - cbn. split.
    + intros [= <-]. exists []. split; [constructor |].
      rewrite app_nil_r. reflexivity.
    + intros (entries & HF & ->). inversion HF; subst.
      rewrite app_nil_r. reflexivity.
  - cbn [write_sheets]. split.
    + destruct (draw_rows fs (columns sh) [] (rows sh)) as [pdf | e] eqn:Hpdf;
        [| discriminate].
      cbn [bind]. cbv zeta. intros H. apply IH in H.
      destruct H as (entries & HF & ->).
      exists ((entry_name sh, pdf) :: entries). split.
      * constructor; [split; [reflexivity | exact Hpdf] | exact HF].
      * rewrite <- app_assoc. reflexivity.
    + intros (entries & HF & ->).
      inversion HF as [| sh' [name pdf] rest' entries' [Hn Hpdf] HF']; subst.
      cbn [fst snd] in *. rewrite Hpdf. cbn [bind]. cbv zeta.
      apply IH. exists entries'. split; [exact HF' |].
      rewrite <- app_assoc. subst name. reflexivity.
Qed.

(** X5. The app gives an archive exactly when both templates exist and
    every sheet is drawn without an error; the archive then has one entry
    per sheet, in the order of the sheets, named by the sanitized sheet
    name and holding the PDF of the rows of this sheet, drawn on a canvas
    of its own. *)
Theorem generate_archive (fs : files) (sheets : list sheet) (arch : archive) :
  generate fs sheets = Ok arch <->
  template_exists fs Child = true /\ template_exists fs Master = true /\
  Forall2 (fun sh entry =>
             fst entry = safe_filename (sheet_name sh) ++ txt ".pdf" /\
             draw_rows fs (columns sh) [] (rows sh) = Ok (snd entry))
          sheets arch.
Proof.
  unfold generate.
  destruct (template_exists fs Child), (template_exists fs Master);
    cbn [negb orb];
    try (split; [discriminate | intros (H1 & H2 & _); discriminate]).
  rewrite write_sheets_closed. split.
  - intros (entries & HF & ->). repeat split; try reflexivity. exact HF.
  - intros (_ & _ & HF). exists arch. split; [exact HF | reflexivity].
Qed.

(** X6. The canvas of every PDF of the archive has exactly one page break
    per row of its sheet. *)
Theorem archive_page_breaks (fs : files) (sheets : list sheet)
  (arch : archive) :
  generate fs sheets = Ok arch ->
  Forall2 (fun sh entry => pages (snd entry) = List.length (rows sh))
          sheets arch.
Proof.
  unfold generate.
  destruct (negb (template_exists fs Child) || negb (template_exists fs Master));
    [discriminate |].
  intros H. apply write_sheets_closed in H. destruct H as (entries & HF & ->).
  cbn [app]. induction HF as [| sh entry rest entries' [_ Hpdf] _ IH];
    constructor; [| exact IH].
  apply draw_rows_breaks in Hpdf. exact Hpdf.
Qed.

Lemma archive_page_breaks_witness :
  let fs := {| template_exists := fun _ => true;
               template_loads := fun _ => true |} in
  let sheets :=
    [ {| sheet_name := txt "Class 1";
         columns := [txt "Roll No."; txt "Class"];
         rows := [[VInt 7; VStr (txt "2")]; [VStr (txt "12.0"); VStr (txt "X")]] |} ] in
  exists arch,
    generate fs sheets = Ok arch /\
    Forall2 (fun sh entry => pages (snd entry) = List.length (rows sh))
            sheets arch.
Proof.
  intros fs sheets.
  destruct (generate fs sheets) as [arch | e] eqn:H.
  - exists arch. split; [reflexivity |].
    exact (archive_page_breaks fs sheets arch H).
  - exfalso. vm_compute in H. discriminate.
Defined.

(** X7. The app fails fast and keeps nothing: a single row, in any sheet,
    that does not give a page makes the whole run raise, whatever the
    other rows and sheets are; no archive is given. *)
Theorem generate_fails_fast (fs : files) (sheets : list sheet) (sh : sheet)
  (row : list pyval) (e : exn) :
  In sh sheets -> In row (rows sh) ->
  draw_row fs (columns sh) [] row = Raise e ->
  exists e', generate fs sheets = Raise e'.
Proof.
  intros Hsh Hrow Hfail.
  destruct (generate fs sheets) as [arch | e'] eqn:H; [| exists e'; reflexivity].
  exfalso. unfold generate in H.
  destruct (negb (template_exists fs Child) || negb (template_exists fs Master));
    [discriminate |].
  apply write_sheets_closed in H. destruct H as (entries & HF & _).
  clear arch. induction HF as [| sh' entry rest entries' [_ Hpdf] _ IH];
    [destruct Hsh |].
  destruct Hsh as [-> | Hsh]; [| exact (IH Hsh)].
  destruct (draw_rows_every_row _ _ _ _ _ Hpdf row Hrow) as [p Hp].
  congruence.
Qed.

Lemma generate_fails_fast_witness :
  let fs := {| template_exists := fun _ => true;
               template_loads := fun _ => true |} in
  let good := {| sheet_name := txt "A"; columns := [txt "Roll No"];
                 rows := [[VInt 7]] |} in
  let bad := {| sheet_name := txt "B"; columns := [txt "Roll No"];
                rows := [[VInt 8]; [VInt 1000]] |} in
  exists e', generate fs [good; bad] = Raise e'.
Proof.
  intros fs good bad.
  apply (generate_fails_fast fs [good; bad] bad [VInt 1000] IndexError).
  - right. left. reflexivity.
  - right. left. reflexivity.
  - vm_compute. reflexivity.
Defined.

(** ** Column resolution *)

Lemma find_column_find (headers alias_list : list pystr) :
  find_column (df_cols_norm headers) alias_list =
  match find (is_alias alias_list) headers with
  | Some h => Some h
  | None => find (holds_alias alias_list) headers
  end.
Proof.
  unfold find_column, df_cols_norm.
  rewrite find_exact_first_item, find_containing_first_item.
  rewrite !first_item_df_cols_norm by (intros k v []).
  reflexivity.
Qed.

Lemma starts_with_refl (a : pystr) : forall s, starts_with a (a ++ s) = true.
Proof.
  induction a as [| c a IH]; intros s; [destruct s; reflexivity |].
  cbn. rewrite Ascii.eqb_refl. apply IH.
Qed.

Lemma str_in_refl (a : pystr) : str_in a a = true.
Proof.
  pose proof (starts_with_refl a []) as H. rewrite app_nil_r in H.
  destruct a; cbn [str_in]; rewrite H; reflexivity.
Qed.

Lemma is_alias_holds (alias_list : list pystr) (h : pystr) :
  is_alias alias_list h = true -> holds_alias alias_list h = true.
Proof.
  unfold is_alias, holds_alias. rewrite !existsb_exists.
  intros (a & Ha & E). apply str_eqb_eq in E. exists a. split; [exact Ha |].
  rewrite E. apply str_in_refl.
Qed.

Lemma find_none_iff {A : Type} (f : A -> bool) (l : list A) :
  find f l = None <-> forall a, In a l -> f a = false.
Proof.
  induction l as [| x l IH]; cbn.
  - split; [intros _ a [] | reflexivity].
  - destruct (f x) eqn:E.
    + split; [discriminate |]. intros H. rewrite (H x) in E by auto.
      discriminate.
    + rewrite IH. split.
      * intros H a [<- | Ha]; auto.
      * intros H a Ha. apply H. auto.
Qed.

(** X8. What column resolution returns is one of the headers, and its
    normal form holds one of the aliases; it returns nothing exactly when
    no header's normal form holds an alias; and as soon as some header's
    normal form is an alias, the header returned is one whose normal form
    is an alias, also when a header before it only holds one. *)
Theorem find_column_sound (headers alias_list : list pystr) :
  (forall h,
     find_column (df_cols_norm headers) alias_list = Some h ->
     In h headers /\
     exists a, In a alias_list /\ substring a (normalize_col_name h)) /\
  (find_column (df_cols_norm headers) alias_list = None <->
   forall h a, In h headers -> In a alias_list ->
               ~ substring a (normalize_col_name h)) /\
  (forall h0,
     In h0 headers -> In (normalize_col_name h0) alias_list ->
     exists h,
       find_column (df_cols_norm headers) alias_list = Some h /\
       In (normalize_col_name h) alias_list).
Proof.
  rewrite find_column_find.
  assert (Hholds : forall h, holds_alias alias_list h = true <->
            exists a, In a alias_list /\ substring a (normalize_col_name h)).
  { intros h. unfold holds_alias. rewrite existsb_exists.
    split; intros (a & Ha & E); exists a; (split; [exact Ha |]);
      apply str_in_substring; exact E. }
  assert (HIs : forall h, is_alias alias_list h = true <->
            In (normalize_col_name h) alias_list).
  { intros h. unfold is_alias. rewrite existsb_exists. split.
    - intros (a & Ha & E). apply str_eqb_eq in E. rewrite E. exact Ha.
    - intros H. exists (normalize_col_name h). split; [exact H |].
      apply str_eqb_eq. reflexivity. }
  split; [| split].
  - intros h.
    destruct (find (is_alias alias_list) headers) as [h' |] eqn:E.
    + intros [= <-]. apply find_some in E. destruct E as [Hin E].
      split; [exact Hin |]. apply Hholds, is_alias_holds, E.
    + intros H. apply find_some in H. destruct H as [Hin H].
      split; [exact Hin |]. apply Hholds, H.
  - destruct (find (is_alias alias_list) headers) as [h' |] eqn:E.
    + split; [discriminate |]. intros H. exfalso.
      apply find_some in E. destruct E as [Hin E].
      apply is_alias_holds, Hholds in E. destruct E as (a & Ha & Hsub).
      exact (H h' a Hin Ha Hsub).
    + rewrite find_none_iff. split.
      * intros H h a Hin Ha Hsub.
        assert (Ht : holds_alias alias_list h = true)
          by (apply Hholds; exists a; auto).
        rewrite (H h Hin) in Ht. discriminate.
      * intros H h Hin. destruct (holds_alias alias_list h) eqn:Ht;
          [| reflexivity].
        apply Hholds in Ht. destruct Ht as (a & Ha & Hsub).
        destruct (H h a Hin Ha Hsub).
  - intros h0 Hin H0.
    destruct (find (is_alias alias_list) headers) as [h' |] eqn:E.
    + exists h'. split; [reflexivity |]. apply find_some in E.
      apply HIs, E.
    + exfalso. rewrite find_none_iff in E. apply HIs in H0.
      rewrite (E h0 Hin) in H0. discriminate.
Qed.

Lemma find_column_sound_witness :
  let headers := [txt "Surname"; txt "Name"] in
  exists h,
    find_column (df_cols_norm headers) (aliases student_name) = Some h /\
    In (normalize_col_name h) (aliases student_name).
Proof.
  intros headers.
  apply (proj2 (proj2 (find_column_sound headers (aliases student_name)))
               (txt "Name")).
  - right. left. reflexivity.
  - right. left. reflexivity.
Defined.

Lemma normalize_col_name_alnum (h : pystr) :
  forallb alnum (normalize_col_name h) = true.
Proof.
  rewrite normalize_col_name_spec. unfold spec_normalize.
  apply forallb_forall. intros c Hc. apply filter_In in Hc. apply Hc.
Qed.

Lemma starts_with_forallb (f : ascii -> bool) (a : pystr) :
  forall s,
    starts_with a s = true -> forallb f s = true -> forallb f a = true.
Proof.
  induction a as [| c a IH]; intros s H Hs; [reflexivity |].
  destruct s as [| y s]; [discriminate |].
  cbn in H, Hs |- *. apply andb_true_iff in H. destruct H as [E H].
  apply Ascii.eqb_eq in E. subst y.
  apply andb_true_iff in Hs. destruct Hs as [Hc Hs].
  rewrite Hc. exact (IH s H Hs).
Qed.

Lemma str_in_forallb (f : ascii -> bool) (a s : pystr) :
  str_in a s = true -> forallb f s = true -> forallb f a = true.
Proof.
  induction s as [| y s IH]; cbn [str_in]; intros H Hs.
  - rewrite orb_false_r in H. exact (starts_with_forallb f a [] H Hs).
  - apply orb_true_iff in H. destruct H as [H | H].
    + exact (starts_with_forallb f a _ H Hs).
    + cbn in Hs. apply andb_true_iff in Hs. apply IH; [exact H | apply Hs].
Qed.

Lemma dead_alias (a h : pystr) :
  forallb alnum a = false ->
  str_in a (normalize_col_name h) = false /\
  str_eqb (normalize_col_name h) a = false.
Proof.
  intros Ha.
  assert (Hin : str_in a (normalize_col_name h) = false).
  { destruct (str_in a (normalize_col_name h)) eqn:E; [| reflexivity].
    rewrite (str_in_forallb alnum _ _ E (normalize_col_name_alnum h)) in Ha.
    discriminate. }
  split; [exact Hin |].
  destruct (str_eqb (normalize_col_name h) a) eqn:E; [| reflexivity].
  apply str_eqb_eq in E. rewrite E, str_in_refl in Hin. discriminate.
Qed.

(** X9. An alias with a character that is no small letter a to z and no
    decimal digit is dead: no normal form is it or holds it, so that
    column resolution gives the same with and without it.  The alias
    roll_no of the roll number is one. *)
Theorem find_column_dead_alias (headers before after : list pystr)
  (a : pystr) :
  forallb alnum a = false ->
  find_column (df_cols_norm headers) (before ++ a :: after) =
  find_column (df_cols_norm headers) (before ++ after).
Proof.
  intros Ha. rewrite !find_column_find.
  rewrite (find_ext_in (is_alias (before ++ a :: after))
                       (is_alias (before ++ after))).
  - rewrite (find_ext_in (holds_alias (before ++ a :: after))
                         (holds_alias (before ++ after))); [reflexivity |].
    intros h. unfold holds_alias. rewrite !existsb_app. cbn [existsb].
    rewrite (proj1 (dead_alias a h Ha)). reflexivity.
  - intros h. unfold is_alias. rewrite !existsb_app. cbn [existsb].
    rewrite (proj2 (dead_alias a h Ha)). reflexivity.
Qed.

Lemma find_column_dead_alias_witness :
  forallb alnum (txt "roll_no") = false /\
  col_map [txt "Name"; txt "Roll_No"] roll_no =
  find_column (df_cols_norm [txt "Name"; txt "Roll_No"])
              [txt "rollno"; txt "rollnumber"].
Proof.
  split; [reflexivity |].
  exact (find_column_dead_alias [txt "Name"; txt "Roll_No"]
           [txt "rollno"; txt "rollnumber"] [] (txt "roll_no") eq_refl).
Defined.

(** ** Normal forms of column names *)

Lemma lower_char_idem (c : ascii) : lower_char (lower_char c) = lower_char c.
Proof. each_char c; reflexivity. Qed.

Lemma lower_char_alnum (c : ascii) : alnum c = true -> lower_char c = c.
Proof. each_char c; vm_compute; intros; try reflexivity; discriminate. Qed.

Lemma lower_idem (s : pystr) : lower (lower s) = lower s.
Proof.
  unfold lower. rewrite map_map. apply map_ext. apply lower_char_idem.
Qed.

Lemma lower_alnum (s : pystr) : forallb alnum s = true -> lower s = s.
Proof.
  unfold lower. induction s as [| c s IH]; [reflexivity |].
  cbn [map forallb]. intros H. apply andb_true_iff in H.
  destruct H as [Hc Hs].
  rewrite (lower_char_alnum c Hc), (IH Hs). reflexivity.
Qed.

Lemma filter_all {A : Type} (f : A -> bool) (l : list A) :
  forallb f l = true -> filter f l = l.
Proof.
  induction l as [| a l IH]; [reflexivity |]. cbn.
  intros H. apply andb_true_iff in H. destruct H as [Ha Hl].
  rewrite Ha, (IH Hl). reflexivity.
Qed.

Lemma normalize_col_name_filter (h : pystr) :
  normalize_col_name h = filter alnum (lower h).
Proof. apply normalize_col_name_spec. Qed.

(** X10. The normal form of a column name is made of small letters a to z
    and decimal digits only; normalizing is idempotent; it does not see
    the case of letters; and it does not see a character that is, also
    after lower-casing, no letter a to z and no digit, wherever it stands
    in the name. *)
Theorem normalize_col_name_stable (h : pystr) :
  forallb alnum (normalize_col_name h) = true /\
  normalize_col_name (normalize_col_name h) = normalize_col_name h /\
  (forall h', lower h' = lower h ->
              normalize_col_name h' = normalize_col_name h) /\
  normalize_col_name (lower h) = normalize_col_name h /\
  (forall a c b,
     h = a ++ c :: b -> alnum (lower_char c) = false ->
     normalize_col_name h = normalize_col_name (a ++ b)).
Proof.
  split; [apply normalize_col_name_alnum |].
  split.
  { rewrite (normalize_col_name_filter (normalize_col_name h)).
    rewrite (lower_alnum _ (normalize_col_name_alnum h)).
    apply filter_all, normalize_col_name_alnum. }
  split.
  { intros h' E. rewrite !normalize_col_name_filter, E. reflexivity. }
  split.
  { rewrite !normalize_col_name_filter, lower_idem. reflexivity. }
  intros a c b -> Hc. rewrite !normalize_col_name_filter. unfold lower.
  rewrite !map_app, !filter_app. cbn [map filter]. rewrite Hc. reflexivity.
Qed.

Lemma normalize_col_name_stable_witness :
  lower (txt "RollNo") = lower (txt "ROLLNO") /\
  normalize_col_name (txt "RollNo") = normalize_col_name (txt "ROLLNO") /\
  normalize_col_name (txt "ROLL NO") = normalize_col_name (txt "ROLL" ++ txt "NO").
Proof.
  split; [reflexivity |]. split.
  - apply (proj1 (proj2 (proj2 (normalize_col_name_stable (txt "ROLLNO"))))).
    reflexivity.
  - apply (proj2 (proj2 (proj2 (proj2
             (normalize_col_name_stable (txt "ROLL NO")))))
             (txt "ROLL") " "%char (txt "NO")); reflexivity.
Defined.

(** ** File names *)

Lemma safe_filename_chars (s : pystr) (c : ascii) :
  In c (safe_filename s) -> is_illegal c = false /\ isspace c = false.
Proof.
  intros Hc. unfold safe_filename, slice_to in Hc.
  apply firstn_In in Hc. apply re_sub_spaces_from_chars in Hc.
  destruct Hc as [Hsp [-> | Hc]].
  - split; reflexivity.
  - split; [exact (re_sub_illegal_clean _ _ Hc) | exact Hsp].
Qed.

Lemma re_sub_illegal_none (s : pystr) :
  (forall c, In c s -> is_illegal c = false) -> re_sub_illegal s = s.
Proof.
  unfold re_sub_illegal. induction s as [| c s IH]; intros H; [reflexivity |].
  cbn [map]. rewrite (H c (or_introl eq_refl)), IH; [reflexivity |].
  intros x Hx. apply H. right. exact Hx.
Qed.

Lemma re_sub_spaces_from_none (s : pystr) :
  forall in_run,
    (forall c, In c s -> isspace c = false) -> re_sub_spaces_from in_run s = s.
Proof.
  induction s as [| c s IH]; intros in_run H; [reflexivity |].
  cbn [re_sub_spaces_from]. rewrite (H c (or_introl eq_refl)), IH;
    [reflexivity |].
  intros x Hx. apply H. right. exact Hx.
Qed.

Lemma safe_filename_fixed (s : pystr) :
  (forall c, In c s -> is_illegal c = false /\ isspace c = false) ->
  (List.length s <= 200)%nat ->
  safe_filename s = s.
Proof.
  intros H Hlen. unfold safe_filename, strip, re_sub_spaces, slice_to.
  rewrite strip_by_none.
  - rewrite re_sub_illegal_none by (intros c Hc; apply (H c Hc)).
    rewrite re_sub_spaces_from_none by (intros c Hc; apply (H c Hc)).
    apply firstn_all2. exact Hlen.
  - apply forallb_forall. intros c Hc. rewrite (proj2 (H c Hc)). reflexivity.
Qed.

(** X11. Sanitizing a file name is idempotent, and it leaves a name alone
    exactly when the name has at most 200 characters, none of them white
    space or one of the nine illegal characters. *)
Theorem safe_filename_idempotent (s : pystr) :
  safe_filename (safe_filename s) = safe_filename s /\
  (safe_filename s = s <->
   (List.length s <= 200)%nat /\
   forall c, In c s -> is_illegal c = false /\ isspace c = false).
Proof.
  assert (Hlen : forall t, (List.length (safe_filename t) <= 200)%nat).
  { intros t. unfold safe_filename, slice_to. rewrite length_firstn. lia. }
  split.
  - apply safe_filename_fixed; [apply safe_filename_chars | apply Hlen].
  - split.
    + intros E. split.
      * rewrite <- E. apply Hlen.
      * intros c Hc. rewrite <- E in Hc. exact (safe_filename_chars s c Hc).
    + intros [Hl H]. apply safe_filename_fixed; assumption.
Qed.

(** ** The dict of the column names *)

Lemma dict_get_set {V : Type} (d : dict V) (k k' : pystr) (v : V) :
  dict_get (dict_set d k v) k' =
  if str_eqb k k' then Some v else dict_get d k'.
Proof.
  induction d as [| [k0 v0] d IH]; cbn [dict_set dict_get].
  - reflexivity.
  - destruct (str_eqb k0 k) eqn:E0.
    + apply str_eqb_eq in E0. subst k0. cbn [dict_get].
      destruct (str_eqb k k'); reflexivity.
    + cbn [dict_get]. rewrite IH.
      destruct (str_eqb k0 k') eqn:E1; [| reflexivity].
      apply str_eqb_eq in E1. subst k0.
      destruct (str_eqb k k') eqn:E2; [| reflexivity].
      apply str_eqb_eq in E2. subst k'.
      assert (Hr : str_eqb k k = true) by (apply str_eqb_eq; reflexivity).
      congruence.
Qed.

Lemma dict_set_keys {V : Type} (d : dict V) (k : pystr) (v : V) :
  map fst (dict_set d k v) =
  if existsb (fun k' => str_eqb k' k) (map fst d) then map fst d
  else map fst d ++ [k].
Proof.
  induction d as [| [k0 v0] d IH]; cbn [dict_set map fst existsb app].
  - reflexivity.
  - destruct (str_eqb k0 k) eqn:E0; cbn [orb map fst].
    + reflexivity.
    + rewrite IH.
      destruct (existsb (fun k' => str_eqb k' k) (map fst d)); reflexivity.
Qed.

Lemma existsb_str_eqb (k : pystr) (l : list pystr) :
  existsb (fun k' => str_eqb k' k) l = true <-> In k l.
Proof.
  rewrite existsb_exists. split.
  - intros (x & Hx & E). apply str_eqb_eq in E. subst. exact Hx.
  - intros H. exists k. split; [exact H | apply str_eqb_eq; reflexivity].
Qed.

Lemma df_cols_norm_get (headers : list pystr) (h : pystr) :
  forall d,
    dict_get (fold_left (fun d orig => dict_set d orig (normalize_col_name orig))
                        headers d) h =
    if in_dec (list_eq_dec ascii_dec) h headers
    then Some (normalize_col_name h) else dict_get d h.
Proof.
  induction headers as [| x l IH]; intros d; [reflexivity |].
  cbn [fold_left]. rewrite IH, dict_get_set.
  destruct (in_dec (list_eq_dec ascii_dec) h l) as [Hl | Hl];
    destruct (in_dec (list_eq_dec ascii_dec) h (x :: l)) as [Hx | Hx];
    try reflexivity.
  - destruct Hx. right. exact Hl.
  - destruct Hx as [-> | Hx]; [| contradiction].
    replace (str_eqb h h) with true
      by (symmetry; apply str_eqb_eq; reflexivity).
    reflexivity.
  - destruct (str_eqb x h) eqn:E; [| reflexivity].
    apply str_eqb_eq in E. destruct Hx. left. exact E.
Qed.

Lemma df_cols_norm_keys (headers : list pystr) :
  forall d,
    NoDup (map fst d) ->
    let d' := fold_left (fun d orig => dict_set d orig (normalize_col_name orig))
                        headers d in
    NoDup (map fst d') /\
    (NoDup (map fst d ++ headers) -> map fst d' = map fst d ++ headers).
Proof.
  induction headers as [| x l IH]; intros d Hd; cbn [fold_left].
  - split; [exact Hd | intros _; rewrite app_nil_r; reflexivity].
  - cbv zeta.
    pose proof (dict_set_keys d x (normalize_col_name x)) as Hk.
    destruct (existsb (fun k' => str_eqb k' x) (map fst d)) eqn:E.
    + destruct (IH (dict_set d x (normalize_col_name x))) as [H1 H2];
        [rewrite Hk; exact Hd |].
      split; [exact H1 |]. intros Hnd. exfalso.
      apply existsb_str_eqb in E.
      apply NoDup_remove_2 in Hnd. apply Hnd. apply in_or_app. left. exact E.
    + assert (Hx : ~ In x (map fst d)).
      { intros H. apply existsb_str_eqb in H. congruence. }
      assert (Hd' : NoDup (map fst (dict_set d x (normalize_col_name x)))).
      { rewrite Hk. apply NoDup_app; [exact Hd | repeat constructor; auto |].
        intros a Ha [<- | []]. contradiction. }
      destruct (IH _ Hd') as [H1 H2]. split; [exact H1 |].
      intros Hnd. rewrite H2; rewrite Hk, <- app_assoc; [reflexivity |].
      exact Hnd.
Qed.

Lemma df_cols_norm_normalized (headers : list pystr) :
  normalized (df_cols_norm headers).
Proof.
  unfold df_cols_norm.
  assert (G : forall l d0, normalized d0 ->
            normalized (fold_left
              (fun d orig => dict_set d orig (normalize_col_name orig))
              l d0)).
  { induction l as [| x l IH]; intros d0 Hd0; [exact Hd0 |].
    cbn [fold_left]. apply IH, dict_set_normalized, Hd0. }
  apply G. intros k v [].
Qed.

Lemma normalized_items (d : dict pystr) :
  normalized d ->
  d = map (fun h => (h, normalize_col_name h)) (map fst d).
Proof.
  induction d as [| [k v] d IH]; intros H; [reflexivity |].
  cbn [map fst]. rewrite (H k v (or_introl eq_refl)). f_equal.
  apply IH. intros k' v' Hin. apply H. right. exact Hin.
Qed.

(** X12. The dict of the column names gives every header its normal form
    and knows no other key; it has one item per distinct header, and for
    headers that are all different its items are in the order of the
    headers. *)
Theorem df_cols_norm_lookup (headers : list pystr) :
  (forall h, In h headers ->
     dict_get (df_cols_norm headers) h = Some (normalize_col_name h)) /\
  (forall h, ~ In h headers -> dict_get (df_cols_norm headers) h = None) /\
  NoDup (map fst (df_cols_norm headers)) /\
  (NoDup headers ->
   df_cols_norm headers = map (fun h => (h, normalize_col_name h)) headers).
Proof.
  destruct (df_cols_norm_keys headers [] (NoDup_nil _)) as [Hnd Hkeys].
  cbn [map app] in Hkeys.
  split; [| split; [| split]].
  - intros h Hin. unfold df_cols_norm. rewrite df_cols_norm_get.
    destruct (in_dec (list_eq_dec ascii_dec) h headers);
      [reflexivity | contradiction].
  - intros h Hin. unfold df_cols_norm. rewrite df_cols_norm_get.
    destruct (in_dec (list_eq_dec ascii_dec) h headers);
      [contradiction | reflexivity].
  - exact Hnd.
  - intros H. rewrite (normalized_items _ (df_cols_norm_normalized headers)).
    unfold df_cols_norm. rewrite (Hkeys H). reflexivity.
Qed.

Lemma df_cols_norm_lookup_witness :
  In (txt "Roll No.") [txt "Name"; txt "Roll No."] /\
  dict_get (df_cols_norm [txt "Name"; txt "Roll No."]) (txt "Roll No.")
  = Some (normalize_col_name (txt "Roll No.")).
Proof.
  assert (H : In (txt "Roll No.") [txt "Name"; txt "Roll No."])
    by (right; left; reflexivity).
  split; [exact H |].
  exact (proj1 (df_cols_norm_lookup [txt "Name"; txt "Roll No."]) _ H).
Defined.

(** ** Sheets without a roll or a class column *)

(** X13. A sheet in which no column resolves to the roll number and none
    to the class gives, for every row whatever its cells, the master page
    of the roll 000: the three zero bubbles, 000 written above them and a
    blank class in the table. *)
Theorem draw_row_missing_columns (fs : files) (cols : list pystr)
  (c : canvas) (row : list pyval) :
  col_map cols roll_no = None -> col_map cols class = None ->
  draw_row fs cols c row =
    (if template_loads fs Master
     then Ok (c ++ page Master (txt "000") (table_data cols row))
     else Raise StopException) /\
  bubbles Master (txt "000") = disc Master 0 0 ++ disc Master 1 0 ++ disc Master 2 0.
Proof.
  intros Hroll Hclass. split; [| reflexivity].
  rewrite draw_row_closed. unfold cell at 1 2. rewrite Hroll, Hclass.
  change (format_roll_value (VStr "")) with (Ok (txt "000")).
  change (parse_class_value (VStr "")) with (@Ok (option Z) None).
  cbn [bind template_type]. cbv zeta.
  destruct (template_loads fs Master); reflexivity.
Qed.

Lemma draw_row_missing_columns_witness :
  let fs := {| template_exists := fun _ => true;
               template_loads := fun _ => true |} in
  let cols := [txt "Name"; txt "School"] in
  let row := [VStr (txt "Asha"); VStr (txt "Hill School")] in
  col_map cols roll_no = None /\ col_map cols class = None /\
  draw_row fs cols [] row
  = Ok ([] ++ page Master (txt "000") (table_data cols row)).
Proof.
  intros fs cols row.
  assert (H1 : col_map cols roll_no = None) by reflexivity.
  assert (H2 : col_map cols class = None) by reflexivity.
  split; [exact H1 |]. split; [exact H2 |].
  exact (proj1 (draw_row_missing_columns fs cols [] row H1 H2)).
Defined.

(** ** The bubbles of a roll number *)

Lemma digit_char_decimal (d : Z) :
  0 <= d <= 9 ->
  is_decimal (digit_char d) = true /\ digit_value (digit_char d) = d.
Proof.
  intros H.
  assert (E : d = 0 \/ d = 1 \/ d = 2 \/ d = 3 \/ d = 4 \/ d = 5 \/ d = 6
              \/ d = 7 \/ d = 8 \/ d = 9) by lia.
  repeat (destruct E as [-> | E]; [split; reflexivity |]).
  subst d. split; reflexivity.
Qed.

Lemma bubble_digit_char (v : variant) (i : nat) (d : Z) :
  0 <= d <= 9 -> bubble v i (digit_char d) = disc v i d.
Proof.
  intros H. destruct (digit_char_decimal d H) as [Hd Hv].
  unfold bubble, disc. cbv zeta. rewrite Hd, Hv. reflexivity.
Qed.

Lemma three_digits_range (n : Z) :
  0 <= n <= 999 ->
  0 <= n / 100 <= 9 /\ 0 <= n / 10 mod 10 <= 9 /\ 0 <= n mod 10 <= 9.
Proof.
  intros H.
  pose proof (Z.div_mod n 100 ltac:(lia)).
  pose proof (Z.mod_pos_bound n 100 ltac:(lia)).
  pose proof (Z.mod_pos_bound (n / 10) 10 ltac:(lia)).
  pose proof (Z.mod_pos_bound n 10 ltac:(lia)).
  lia.
Qed.

Lemma format_roll_value_int (n : Z) :
  0 <= n <= 999 -> format_roll_value (VInt n) = Ok (three_digits n).
Proof.
  intros Hn.
  assert (Hin : In n (map Z.of_nat (seq 0 1000))).
  { apply in_map_iff. exists (Z.to_nat n). split; [lia |].
    apply in_seq. lia. }
  pose proof (proj1 (forallb_forall _ _) roll_forms_agree_all n Hin) as H.
  unfold roll_forms_agree in H.
  repeat (apply andb_prop in H; destruct H as [H ?]).
  apply returns_eq. assumption.
Qed.

Lemma bubbles_three_digits (v : variant) (n : Z) :
  0 <= n <= 999 ->
  bubbles v (three_digits n) =
  disc v 0 (n / 100) ++ disc v 1 (n / 10 mod 10) ++ disc v 2 (n mod 10).
Proof.
  intros Hn. destruct (three_digits_range n Hn) as (H1 & H2 & H3).
  unfold bubbles, three_digits. cbn [bubbles_from].
  rewrite !bubble_digit_char by assumption.
  rewrite app_nil_r. reflexivity.
Qed.

Lemma three_digits_plain (n : Z) :
  0 <= n <= 999 ->
  List.length (three_digits n) = 3%nat /\ plain (three_digits n) = true.
Proof.
  intros Hn. split; [reflexivity |].
  destruct (three_digits_range n Hn) as (H1 & H2 & H3).
  apply decimals_plain. unfold three_digits. cbn [forallb].
  rewrite (proj1 (digit_char_decimal _ H1)), (proj1 (digit_char_decimal _ H2)),
    (proj1 (digit_char_decimal _ H3)).
  reflexivity.
Qed.

(** X14. For a roll number from 0 to 999 the normalizer and the filling
    function together draw exactly three black discs: in the first column
    the disc of the hundreds digit, in the second the disc of the tens
    digit and in the third the disc of the units digit, each at the
    position the layout gives to this column and this digit. *)
Theorem roll_number_discs (v : variant) (c : canvas) (n : Z) :
  0 <= n <= 999 ->
  exists roll,
    format_roll_value (VInt n) = Ok roll /\
    fill_roll_bubbles v c roll =
      Ok (c ++ disc v 0 (n / 100) ++ disc v 1 (n / 10 mod 10)
            ++ disc v 2 (n mod 10)) /\
    (forall i d, (i < 3)%nat ->
       exists x_cm y_top,
         nth_error (roll_x_cm (layout_of v)) i = Some x_cm /\
         nth_error (bubble_y_top_cm (layout_of v)) i = Some y_top /\
         disc v i d =
         [SetFillColorBlack;
          Circle (bubble_x x_cm) (bubble_y (layout_of v) y_top d)
                 (fmul (bubble_radius_cm (layout_of v)) cm)]).
Proof.
  intros Hn. exists (three_digits n).
  destruct (three_digits_plain n Hn) as [Hlen Hp].
  split; [apply format_roll_value_int; exact Hn |]. split.
  - rewrite (fill_roll_bubbles_three v c _ Hlen Hp).
    rewrite bubbles_three_digits by exact Hn. reflexivity.
  - intros i d Hi.
    destruct v; destruct i as [| [| [| i]]]; try lia;
      do 2 eexists; repeat split; reflexivity.
Qed.

Lemma roll_number_discs_witness :
  0 <= 407 <= 999 /\
  exists roll,
    format_roll_value (VInt 407) = Ok roll /\
    fill_roll_bubbles Child [] roll =
      Ok ([] ++ disc Child 0 4 ++ disc Child 1 0 ++ disc Child 2 7).
Proof.
  split; [lia |].
  destruct (roll_number_discs Child [] 407 ltac:(lia)) as (roll & H1 & H2 & _).
  exists roll. split; [exact H1 | exact H2].
Defined.

Lemma NoDup_map_injective {A B : Type} (f : A -> B) (l : list A) :
  NoDup (map f l) ->
  forall a b, In a l -> In b l -> f a = f b -> a = b.
Proof.
  induction l as [| x l IH]; intros Hnd a b Ha Hb E; [destruct Ha |].
  cbn [map] in Hnd. inversion Hnd as [| y ys Hx Hl]; subst.
  destruct Ha as [-> | Ha], Hb as [-> | Hb].
  - reflexivity.
  - exfalso. apply Hx. rewrite E. apply in_map. exact Hb.
  - exfalso. apply Hx. rewrite <- E. apply in_map. exact Ha.
  - exact (IH Hl a b Ha Hb E).
Qed.

Lemma bubble_y_distinct (v : variant) (y_top : float) :
  In y_top (bubble_y_top_cm (layout_of v)) ->
  NoDup (map (bubble_y (layout_of v) y_top) digit_values).
Proof.
  intros Hin.
  assert (E : y_top = hd S754_nan (bubble_y_top_cm (layout_of v))).
  { destruct v; cbn in Hin; intuition (subst; reflexivity). }
  rewrite E. clear.
  destruct v; vm_compute;
    repeat (constructor; [cbn [In]; intuition discriminate |]);
    constructor.
Qed.

Lemma digit_values_range (d : Z) : 0 <= d <= 9 -> In d digit_values.
Proof. intros H. unfold digit_values. cbn [In]. lia. Qed.

Lemma disc_injective (v : variant) (i : nat) (d d' : Z) :
  (i < 3)%nat -> 0 <= d <= 9 -> 0 <= d' <= 9 ->
  disc v i d = disc v i d' -> d = d'.
Proof.
  intros Hi Hd Hd' E. unfold disc in E. cbv zeta in E.
  destruct (nth_error (roll_x_cm (layout_of v)) i) as [x_cm |] eqn:Hx;
    [| destruct v; destruct i as [| [| [| i]]]; try lia; discriminate].
  destruct (nth_error (bubble_y_top_cm (layout_of v)) i) as [y_top |] eqn:Hy;
    [| destruct v; destruct i as [| [| [| i]]]; try lia; discriminate].
  injection E as E.
  apply (NoDup_map_injective _ _
           (bubble_y_distinct v y_top (nth_error_In _ _ Hy)));
    auto using digit_values_range.
Qed.

Lemma disc_two (v : variant) (i : nat) (d : Z) :
  (i < 3)%nat -> List.length (disc v i d) = 2%nat.
Proof.
  intros Hi. destruct v; destruct i as [| [| [| i]]]; try lia; reflexivity.
Qed.

Lemma app_inv_length {A : Type} (a a' b b' : list A) :
  List.length a = List.length a' -> a ++ b = a' ++ b' -> a = a' /\ b = b'.
Proof.
  revert a'. induction a as [| x a IH]; intros [| x' a'] Hlen E;
    try discriminate.
  - split; [reflexivity | exact E].
  - cbn in Hlen, E. injection E as -> E. injection Hlen as Hlen.
    destruct (IH a' Hlen E) as [-> ->]. split; reflexivity.
Qed.

(** X15. The filled bubbles determine the roll number: two roll numbers
    from 0 to 999 whose sheets of one variant get the same discs are the
    same number. *)
Theorem roll_number_bubbles_injective (v : variant) (c : canvas) (n m : Z)
  (roll_n roll_m : pystr) :
  0 <= n <= 999 -> 0 <= m <= 999 ->
  format_roll_value (VInt n) = Ok roll_n ->
  format_roll_value (VInt m) = Ok roll_m ->
  fill_roll_bubbles v c roll_n = fill_roll_bubbles v c roll_m ->
  n = m.
Proof.
  intros Hn Hm En Em E.
  rewrite (format_roll_value_int n Hn) in En. injection En as <-.
  rewrite (format_roll_value_int m Hm) in Em. injection Em as <-.
  destruct (three_digits_plain n Hn) as [Hln Hpn].
  destruct (three_digits_plain m Hm) as [Hlm Hpm].
  rewrite (fill_roll_bubbles_three v c _ Hln Hpn) in E.
  rewrite (fill_roll_bubbles_three v c _ Hlm Hpm) in E.
  injection E as E. apply app_inv_head in E.
  rewrite !bubbles_three_digits in E by assumption.
  destruct (three_digits_range n Hn) as (N1 & N2 & N3).
  destruct (three_digits_range m Hm) as (M1 & M2 & M3).
  apply app_inv_length in E; [| rewrite !disc_two by lia; reflexivity].
  destruct E as [E1 E].
  apply app_inv_length in E; [| rewrite !disc_two by lia; reflexivity].
  destruct E as [E2 E3].
  apply disc_injective in E1; [| lia | assumption | assumption].
  apply disc_injective in E2; [| lia | assumption | assumption].
  apply disc_injective in E3; [| lia | assumption | assumption].
  pose proof (Z.div_mod n 10 ltac:(lia)).
  pose proof (Z.div_mod m 10 ltac:(lia)).
  pose proof (Z.div_mod (n / 10) 10 ltac:(lia)).
  pose proof (Z.div_mod (m / 10) 10 ltac:(lia)).
  assert (Hn100 : n / 100 = n / 10 / 10)
    by (rewrite Z.div_div by lia; reflexivity).
  assert (Hm100 : m / 100 = m / 10 / 10)
    by (rewrite Z.div_div by lia; reflexivity).
  lia.
Qed.

Lemma roll_number_bubbles_injective_witness :
  0 <= 7 <= 999 /\
  format_roll_value (VInt 7) = Ok (txt "007") /\
  fill_roll_bubbles Master [] (txt "007")
  = fill_roll_bubbles Master [] (txt "007") /\
  7 = 7.
Proof.
  assert (H : 0 <= 7 <= 999) by lia.
  assert (E : format_roll_value (VInt 7) = Ok (txt "007"))
    by (vm_compute; reflexivity).
  split; [exact H |]. split; [exact E |]. split; [reflexivity |].
  exact (roll_number_bubbles_injective Master [] 7 7 (txt "007") (txt "007")
           H H E E eq_refl).
Defined.

(** ** Class cells that hold a number *)

Lemma int_of_digits_uint (d : Decimal.uint) :
  forall acc,
    fold_left (fun acc c => 10 * acc + digit_value c)
              (txt (NilEmpty.string_of_uint d)) acc =
    Z.of_N (DecimalPos.Unsigned.of_lu (Decimal.rev d))
    + acc * Z.of_N (10 ^ DecimalPos.Unsigned.usize d).
Proof.
  induction d; intros acc; [cbn; lia | ..];
    cbn [NilEmpty.string_of_uint txt list_ascii_of_string fold_left];
    rewrite IHd;
    match goal with
    | |- context [Decimal.rev (?D d)] =>
        change (Decimal.rev (D d)) with (Decimal.revapp d (D Decimal.Nil));
        rewrite (DecimalPos.Unsigned.of_lu_revapp d (D Decimal.Nil))
    end;
    match goal with
    | |- context [digit_value ?c] =>
        let k := eval vm_compute in (digit_value c) in
        change (digit_value c) with k
    end;
    cbn [DecimalPos.Unsigned.usize DecimalPos.Unsigned.of_lu];
    rewrite N.pow_succ_r';
    repeat (rewrite N2Z.inj_add || rewrite N2Z.inj_mul);
    cbn [Z.of_N]; ring.
Qed.

Lemma int_of_digits_pos (p : positive) :
  int_of_digits (txt (NilEmpty.string_of_uint (Pos.to_uint p))) = Zpos p.
Proof.
  unfold int_of_digits. rewrite int_of_digits_uint.
  rewrite <- DecimalPos.Unsigned.of_uint_alt, DecimalPos.Unsigned.of_to.
  cbn [Z.of_N]. lia.
Qed.

Lemma str_of_int_pos (p : positive) :
  str_of_int (Zpos p) = txt (NilEmpty.string_of_uint (Pos.to_uint p)) /\
  str_of_int (Zneg p)
  = "-"%char :: txt (NilEmpty.string_of_uint (Pos.to_uint p)).
Proof. split; reflexivity. Qed.

Lemma uint_decimal_text (p : positive) :
  decimal_text (txt (NilEmpty.string_of_uint (Pos.to_uint p))) = true.
Proof.
  pose proof (pos_to_uint_nonempty p) as Hne.
  pose proof (string_of_uint_digits (Pos.to_uint p)) as Hd.
  destruct (txt (NilEmpty.string_of_uint (Pos.to_uint p)));
    [congruence | exact Hd].
Qed.

Lemma parse_class_value_int (n : Z) :
  parse_class_value (VInt n) = Ok (Some (Z.abs n)).
Proof.
  change (parse_class_value (VInt n))
    with (parse_class_value (VStr (str_of_int n))).
  destruct n as [| p | p].
  - reflexivity.
  - rewrite (proj1 (str_of_int_pos p)).
    pose proof (uint_decimal_text p) as Hd.
    destruct (decimal_text_forallb _ Hd) as [_ Hall].
    rewrite parse_class_value_digits;
      [| apply decimals_plain; exact Hall
       | apply decimal_text_has_decimal; exact Hd].
    rewrite first_digit_run_all_digits by exact Hall.
    rewrite int_of_digits_pos. reflexivity.
  - rewrite (proj2 (str_of_int_pos p)).
    pose proof (uint_decimal_text p) as Hd.
    destruct (decimal_text_forallb _ Hd) as [_ Hall].
    set (ds := txt (NilEmpty.string_of_uint (Pos.to_uint p))) in *.
    rewrite parse_class_value_digits.
    + change ("-"%char :: ds) with (["-"%char] ++ ds).
      rewrite <- (app_nil_r ds) at 1.
      rewrite first_digit_run_split;
        [| reflexivity | exact Hd | intros c post' [=]].
      subst ds. rewrite int_of_digits_pos. reflexivity.
    + change ("-"%char :: ds) with (["-"%char] ++ ds).
      rewrite plain_app, (decimals_plain ds Hall). reflexivity.
    + unfold has_decimal. cbn [existsb].
      fold (has_decimal ds). rewrite (decimal_text_has_decimal ds Hd).
      apply orb_true_r.
Qed.

Lemma class_of_float_all :
  forallb class_of_float_agrees (map Z.of_nat (seq 0 1000)) = true.
Proof. vm_compute. reflexivity. Qed.

(** X16. A class cell that holds an integer is parsed as its absolute
    value: the sign is no digit and is skipped, so that the classes -1, -2
    and -3 get the child template as 1, 2 and 3 do.  A class cell that
    holds a whole number from 0 to 999 as a float is parsed as this
    number. *)
Theorem parse_class_value_number (n : Z) :
  parse_class_value (VInt n) = Ok (Some (Z.abs n)) /\
  (template_type (Some (Z.abs n)) = Child <-> 1 <= Z.abs n <= 3) /\
  (0 <= n <= 999 -> parse_class_value (VFloat (float_of_Z n)) = Ok (Some n)).
Proof.
  split; [apply parse_class_value_int |]. split.
  - unfold template_type. cbn [existsb].
    destruct (Z.eqb_spec (Z.abs n) 1), (Z.eqb_spec (Z.abs n) 2),
      (Z.eqb_spec (Z.abs n) 3); cbn [orb];
      split; intros H; try reflexivity; try discriminate; lia.
  - intros Hn.
    assert (Hin : In n (map Z.of_nat (seq 0 1000))).
    { apply in_map_iff. exists (Z.to_nat n). split; [lia |].
      apply in_seq. lia. }
    pose proof (proj1 (forallb_forall _ _) class_of_float_all n Hin) as H.
    unfold class_of_float_agrees in H.
    destruct (parse_class_value (VFloat (float_of_Z n))) as [[k |] | e];
      try discriminate.
    apply Z.eqb_eq in H. subst k. reflexivity.
Qed.

Lemma parse_class_value_number_witness :
  0 <= 2 <= 999 /\
  parse_class_value (VFloat (float_of_Z 2)) = Ok (Some 2).
Proof.
  split; [lia |].
  apply (proj2 (proj2 (parse_class_value_number 2))). lia.
Defined.

(** ** The cells of a row *)

Lemma find_column_some (headers alias_list : list pystr) (h : pystr) :
  find_column (df_cols_norm headers) alias_list = Some h ->
  In h headers /\ holds_alias alias_list h = true.
Proof.
  rewrite find_column_find.
  destruct (find (is_alias alias_list) headers) as [h' |] eqn:E.
  - intros [= <-]. apply find_some in E. destruct E as [Hin E].
    split; [exact Hin | exact (is_alias_holds _ _ E)].
  - intros H. apply find_some in H. exact H.
Qed.

Lemma str_in_nil (a : pystr) : str_in a [] = true -> a = [].
Proof. destruct a; [reflexivity | discriminate]. Qed.

Lemma col_map_truthy (cols : list pystr) (field : canon) (h : pystr) :
  col_map cols field = Some h -> In h cols /\ truthy h = true.
Proof.
  unfold col_map. intros H. apply find_column_some in H.
  destruct H as [Hin H]. split; [exact Hin |].
  destruct h as [| ch h]; [| reflexivity].
  exfalso. unfold holds_alias in H. apply existsb_exists in H.
  destruct H as (a & Ha & E).
  change (normalize_col_name []) with (@nil ascii) in E.
  apply str_in_nil in E. subst a.
  destruct field; cbn in Ha; intuition discriminate.
Qed.

Lemma row_get_first (cols : list pystr) (label : pystr) :
  forall row,
    In label cols -> List.length row = List.length cols ->
    exists i,
      nth_error cols i = Some label /\
      (forall j, (j < i)%nat -> nth_error cols j <> Some label) /\
      nth_error row i = Some (row_get cols row label).
Proof.
  induction cols as [| k cols IH]; intros row Hin Hlen; [destruct Hin |].
  destruct row as [| v row]; [discriminate |].
  cbn [row_get]. destruct (str_eqb k label) eqn:E.
  - apply str_eqb_eq in E. subst k. exists 0%nat.
    split; [reflexivity |]. split; [intros j Hj; lia | reflexivity].
  - assert (Hne : k <> label).
    { intros ->. assert (str_eqb label label = true)
        by (apply str_eqb_eq; reflexivity). congruence. }
    destruct Hin as [-> | Hin]; [congruence |].
    destruct (IH row Hin) as (i & Hi & Hfirst & Hrow);
      [cbn in Hlen; lia |].
    exists (S i). split; [exact Hi |]. split; [| exact Hrow].
    intros [| j] Hj; cbn [nth_error]; [congruence |].
    apply Hfirst. lia.
Qed.

(** X17. A field whose column is resolved reads the cell of the row under
    this column, the first of this label; the guard on the label never
    turns a resolved column down, because a resolved label is never empty.
    A field whose column is not resolved reads the empty string. *)
Theorem cell_of_row (cols : list pystr) (row : list pyval) (field : canon) :
  List.length row = List.length cols ->
  (forall h,
     col_map cols field = Some h ->
     truthy h = true /\
     exists i,
       nth_error cols i = Some h /\
       (forall j, (j < i)%nat -> nth_error cols j <> Some h) /\
       nth_error row i = Some (cell cols row field)) /\
  (col_map cols field = None -> cell cols row field = VStr "").
Proof.
  intros Hlen. split.
  - intros h H. destruct (col_map_truthy cols field h H) as [Hin Ht].
    split; [exact Ht |]. unfold cell. rewrite H, Ht.
    exact (row_get_first cols h row Hin Hlen).
  - intros H. unfold cell. rewrite H. reflexivity.
Qed.

Lemma cell_of_row_witness :
  let cols := [txt "Name"; txt "Roll No."] in
  let row := [VStr (txt "Asha"); VInt 7] in
  List.length row = List.length cols /\
  col_map cols roll_no = Some (txt "Roll No.") /\
  exists i,
    nth_error cols i = Some (txt "Roll No.") /\
    nth_error row i = Some (cell cols row roll_no).
Proof.
  intros cols row.
  assert (Hlen : List.length row = List.length cols) by reflexivity.
  assert (Hcol : col_map cols roll_no = Some (txt "Roll No.")) by reflexivity.
  split; [exact Hlen |]. split; [exact Hcol |].
  destruct (proj1 (cell_of_row cols row roll_no Hlen) _ Hcol)
    as (_ & i & H1 & _ & H2).
  exists i. split; [exact H1 | exact H2].
Defined.

(** ** Negative roll numbers *)

Lemma negative_roll_all :
  forallb negative_roll_agrees (map Z.of_nat (seq 1 99)) = true.
Proof. vm_compute. reflexivity. Qed.

(** X18. A negative roll number from -99 to -1 is not refused: padding
    puts the zeros after the sign, so that it is normalized to the minus
    sign and its two digits.  The sheet then has no disc in the first
    column and the discs of the two digits in the second and the third,
    and the sign is written above the first column. *)
Theorem negative_roll_number (v : variant) (c : canvas) (k : Z) :
  1 <= k <= 99 ->
  format_roll_value (VInt (- k)) = Ok (signed_two_digits k) /\
  fill_roll_bubbles v c (signed_two_digits k) =
    Ok (c ++ disc v 1 (k / 10) ++ disc v 2 (k mod 10)) /\
  exists drawn,
    draw_roll_number_text c (signed_two_digits k) v =
    Ok (c ++ [SetFont "Helvetica-Bold" 14; SetFillColorBlack;
              DrawCentredString
                (bubble_x (hd S754_nan (roll_x_cm (layout_of v))))
                (text_y v) (txt "-")] ++ drawn).
Proof.
  intros Hk.
  assert (Hin : In k (map Z.of_nat (seq 1 99))).
  { apply in_map_iff. exists (Z.to_nat k). split; [lia |].
    apply in_seq. lia. }
  pose proof (proj1 (forallb_forall _ _) negative_roll_all k Hin) as H.
  apply returns_eq in H.
  assert (H1 : 0 <= k / 10 <= 9).
  { pose proof (Z.div_mod k 10 ltac:(lia)).
    pose proof (Z.mod_pos_bound k 10 ltac:(lia)). lia. }
  assert (H2 : 0 <= k mod 10 <= 9)
    by (pose proof (Z.mod_pos_bound k 10 ltac:(lia)); lia).
  split; [exact H |]. split.
  - rewrite fill_roll_bubbles_three.
    + unfold bubbles, signed_two_digits. cbn [bubbles_from].
      rewrite !bubble_digit_char by assumption.
      rewrite bubble_not_decimal by reflexivity.
      rewrite app_nil_r. reflexivity.
    + reflexivity.
    + unfold signed_two_digits.
      change (plain ("-"%char :: ?l)) with (plain l).
      apply decimals_plain. cbn [forallb].
      rewrite (proj1 (digit_char_decimal _ H1)),
        (proj1 (digit_char_decimal _ H2)).
      reflexivity.
  - rewrite draw_roll_number_text_closed.
    change (List.length (signed_two_digits k) <=? 3)%nat with true.
    cbv iota. rewrite zfill_id by (cbn; lia).
    destruct v; eexists; reflexivity.
Qed.

Lemma negative_roll_number_witness :
  1 <= 5 <= 99 /\
  format_roll_value (VInt (- 5)) = Ok (txt "-05") /\
  fill_roll_bubbles Master [] (txt "-05") =
    Ok ([] ++ disc Master 1 0 ++ disc Master 2 5).
Proof.
  split; [lia |].
  destruct (negative_roll_number Master [] 5 ltac:(lia)) as (H1 & H2 & _).
  split; [exact H1 | exact H2].
Defined.

(** ** One disc per decimal digit *)

Lemma bubbles_from_count (v : variant) (roll : pystr) :
  forall i,
    roll_error i roll = None ->
    List.length (filter is_circle (bubbles_from v i roll))
    = List.length (filter is_decimal roll).
Proof.
  induction roll as [| ch rest IH]; intros i H; [reflexivity |].
  cbn [roll_error] in H.
  destruct (is_superscript ch); [discriminate |].
  destruct (is_decimal ch && (3 <=? i)%nat) eqn:E; [discriminate |].
  cbn [bubbles_from filter]. rewrite filter_app, length_app, (IH _ H).
  unfold bubble. cbv zeta.
  destruct (is_decimal ch) eqn:Hd; [| reflexivity].
  cbn [andb] in E. apply Nat.leb_gt in E.
  destruct v; destruct i as [| [| [| i]]]; try lia; reflexivity.
Qed.

(** X19. Whether a roll string is accepted by a filling function, and the
    error when it is not, depend neither on the variant nor on what is on
    the canvas; and an accepted roll string gets exactly one disc per
    decimal digit of its padded form, so that no digit is dropped without
    an error. *)
Theorem fill_roll_bubbles_accepts (v v' : variant) (c c' : canvas)
  (roll : pystr) :
  (forall e, fill_roll_bubbles v c roll = Raise e <->
             fill_roll_bubbles v' c' roll = Raise e) /\
  (forall drawn,
     fill_roll_bubbles v c roll = Ok drawn ->
     drawn = c ++ bubbles v (zfill 3 roll) /\
     List.length (filter is_circle (bubbles v (zfill 3 roll)))
     = List.length (filter is_decimal (zfill 3 roll))).
Proof.
  rewrite !fill_roll_bubbles_spec.
  destruct (roll_error 0 (zfill 3 roll)) as [e0 |] eqn:E.
  - split; [intros e; reflexivity | discriminate].
  - split; [intros e; split; discriminate |].
    intros drawn [= <-]. split; [reflexivity |].
    apply bubbles_from_count. exact E.
Qed.

Lemma fill_roll_bubbles_accepts_witness :
  fill_roll_bubbles Child [] (txt "4a7") = Ok ([] ++ bubbles Child (txt "4a7")) /\
  List.length (filter is_circle (bubbles Child (zfill 3 (txt "4a7")))) = 2%nat.
Proof.
  assert (H : fill_roll_bubbles Child [] (txt "4a7")
              = Ok ([] ++ bubbles Child (txt "4a7")))
    by (vm_compute; reflexivity).
  split; [exact H |].
  exact (proj2 (proj2 (fill_roll_bubbles_accepts Child Child [] [] (txt "4a7"))
                      _ H)).
Defined.
